(** * notion2ragapi: chunking, embedding gateway, FAISS index, indexing and
    answering pipelines

    A shallow embedding of
      - [app/utils/text_processor.py]      (module [TextProcessor]),
      - [app/services/faiss_db.py]         (module [FaissDB]),
      - [app/services/embedding_service.py] (module [Embedding]),
      - [app/services/vector_db.py]        (module [VectorDB]),
      - [app/services/indexing_service.py] (module [Indexing]),
      - [app/services/rag_service.py]      (module [RAG]),
      - [app/services/notion_service.py]   (module [Notion]),
      - [app/core/config.py]               (module [Config]),
      - [app/api/refresh.py]               (module [Refresh]),
    followed by the properties the specification states about them and
    by further properties of the code.

    Conventions.  A Python [str] is a [string] whose characters are read as
    code points 0..255.  Python [int] parameters are [Z].  An ordered [dict]
    is an association list in insertion order.  A call that may raise
    returns a [result]; [async] plays no role, every call runs to its end.
    The tokenizer, the MD5 digest, the remote OpenAI endpoints and the
    numeric kernels of numpy and FAISS are parameters.  Log records are
    kept for the FAISS backend only. *)

From Stdlib Require Import String Ascii List ZArith Lia Bool Arith PeanoNat.
From Stdlib Require Import DecimalString PrimFloat.
From Stdlib Require Floats DecimalPos DecimalZ Permutation.
Import ListNotations.
Open Scope string_scope.
Open Scope list_scope.
Open Scope Z_scope.

Set Implicit Arguments.

(* ===================================================================== *)
(** ** Python strings *)
(* ===================================================================== *)

Module PyStr.

Definition code (c : ascii) : nat := nat_of_ascii c.

(** [str.isspace] and the regex class [\s] on code points below 256. *)
Definition is_space (c : ascii) : bool :=
  let n := code c in
  ((9 <=? n) && (n <=? 13) || (28 <=? n) && (n <=? 32)
   || (n =? 133) || (n =? 160))%nat.

(** The class [[\x00-\x08\x0b-\x0c\x0e-\x1f\x7f-\x9f]]. *)
Definition is_control (c : ascii) : bool :=
  let n := code c in
  ((n <=? 8) || (11 <=? n) && (n <=? 12) || (14 <=? n) && (n <=? 31)
   || (127 <=? n) && (n <=? 159))%nat.

(** The class [[.!?]]. *)
Definition is_sentence_end (c : ascii) : bool :=
  let n := code c in ((n =? 46) || (n =? 33) || (n =? 63))%nat.

Definition is_empty (s : string) : bool :=
  match s with EmptyString => true | _ => false end.

(** [re.sub(r'\s+', ' ', s)]; [in_run] tells that the previous character
    belonged to the whitespace run being replaced. *)
Fixpoint collapse_spaces (in_run : bool) (s : string) : string :=
  match s with
  | EmptyString => EmptyString
  | String c r =>
      if is_space c
      then if in_run then collapse_spaces true r
           else String " " (collapse_spaces true r)
      else String c (collapse_spaces false r)
  end.

(** [re.sub(r'[\x00-\x08...]', '', s)]. *)
Fixpoint remove_control (s : string) : string :=
  match s with
  | EmptyString => EmptyString
  | String c r =>
      if is_control c then remove_control r else String c (remove_control r)
  end.

Fixpoint lstrip (s : string) : string :=
  match s with
  | EmptyString => EmptyString
  | String c r => if is_space c then lstrip r else s
  end.

Fixpoint rstrip (s : string) : string :=
  match s with
  | EmptyString => EmptyString
  | String c r =>
      let r' := rstrip r in
      if is_space c && is_empty r' then EmptyString else String c r'
  end.

(** [s.strip()]. *)
Definition strip (s : string) : string := rstrip (lstrip s).

(** Puts [c] in front of the first piece of a split. *)
Definition cons_head (c : ascii) (pieces : list string) : list string :=
  match pieces with
  | [] => [String c EmptyString]
  | p :: ps => String c p :: ps
  end.

(** [re.split(r'(?<=[.!?])\s+', s)]: a delimiter is a maximal whitespace
    run that directly follows one of [. ! ?].  [after_end] tells that the
    previous character was one of these, [in_delim] that the previous
    character belonged to a delimiter. *)
Fixpoint re_split_sentences (after_end in_delim : bool) (s : string)
  : list string :=
  match s with
  | EmptyString => [EmptyString]
  | String c r =>
      if is_space c && (in_delim || after_end)
      then if in_delim then re_split_sentences false true r
           else EmptyString :: re_split_sentences false true r
      else cons_head c (re_split_sentences (is_sentence_end c) false r)
  end.

Fixpoint split_at_spaces (s : string) : list string :=
  match s with
  | EmptyString => [EmptyString]
  | String c r =>
      if is_space c then EmptyString :: split_at_spaces r
      else cons_head c (split_at_spaces r)
  end.

(** [s.split()]: the maximal runs of non-whitespace characters. *)
Definition split (s : string) : list string :=
  filter (fun w => negb (is_empty w)) (split_at_spaces s).

(** [" ".join(parts)]. *)
Definition join (parts : list string) : string := String.concat " " parts.

(** [str(n)] for an [int]. *)
Definition str_of_Z (z : Z) : string :=
  NilZero.string_of_int (Z.to_int z).

Definition str_of_nat (n : nat) : string := str_of_Z (Z.of_nat n).

(** [s[:n]]. *)
Fixpoint take (n : nat) (s : string) : string :=
  match n, s with
  | S k, String c r => String c (take k r)
  | _, _ => EmptyString
  end.

End PyStr.

(* ===================================================================== *)
(** ** Text chunker ([app/utils/text_processor.py]) *)
(* ===================================================================== *)

Module TextProcessor.

Import PyStr.

(** Where an emitted chunk comes from: a joined group of sentences, or a
    piece of [_split_long_sentence].  The tag is not part of the value
    the program returns; [create_chunks] erases it. *)
Inductive origin : Type := Packed | LongSplit.

(** The three loop variables of [create_chunks]. *)
Record chunker : Type := mkChunker {
  chunks : list (origin * string);
  current_chunk : list string;
  current_tokens : Z
}.

Definition start : chunker := mkChunker [] [] 0.

(** [clean_text]; on code points below 256 the UTF-8 round trip of the
    source changes nothing. *)
Definition clean_text (text : string) : string :=
  if is_empty text then EmptyString
  else strip (remove_control (collapse_spaces false text)).

Definition _split_into_sentences (text : string) : list string :=
  map strip
      (filter (fun s => negb (is_empty (strip s)))
              (re_split_sentences false false text)).

Section WithTokenizer.

(** [len(self.encoding.encode(s))]. *)
Variable encode_len : string -> nat.

Definition tokens (s : string) : Z := Z.of_nat (encode_len s).

Definition count_tokens (text : string) : Z := tokens text.

(** The loop variables of [_split_long_sentence]. *)
Record splitter : Type := mkSplitter {
  sp_chunks : list string;
  sp_current : list string;
  sp_tokens : Z
}.

Definition split_word (max_tokens : Z) (st : splitter) (word : string)
  : splitter :=
  let word_tokens := tokens word in
  if sp_tokens st + word_tokens >? max_tokens
  then mkSplitter
         (match sp_current st with
          | [] => sp_chunks st
          | _ => sp_chunks st ++ [join (sp_current st)]
          end)
         [word] word_tokens
  else mkSplitter (sp_chunks st) (sp_current st ++ [word])
                  (sp_tokens st + word_tokens).

Definition split_finish (st : splitter) : list string :=
  match sp_current st with
  | [] => sp_chunks st
  | _ => sp_chunks st ++ [join (sp_current st)]
  end.

Definition _split_long_sentence (sentence : string) (max_tokens : Z)
  : list string :=
  split_finish
    (fold_left (split_word max_tokens) (split sentence)
               (mkSplitter [] [] 0)).

(** The backward walk that collects the overlap: [rev_sentences] is
    what is left of [reversed(current_chunk)]. *)
Fixpoint overlap_walk (chunk_overlap : Z) (rev_sentences : list string)
         (overlap_chunk : list string) (overlap_tokens : Z)
  : list string * Z :=
  match rev_sentences with
  | [] => (overlap_chunk, overlap_tokens)
  | s :: rest =>
      let s_tokens := tokens s in
      if overlap_tokens + s_tokens <=? chunk_overlap
      then overlap_walk chunk_overlap rest (s :: overlap_chunk)
                        (overlap_tokens + s_tokens)
      else (overlap_chunk, overlap_tokens)
  end.

Definition keep_overlap (chunk_overlap : Z) (current : list string)
  : list string * Z :=
  if chunk_overlap >? 0
  then overlap_walk chunk_overlap (List.rev current) [] 0
  else ([], 0).

(** One iteration of the loop over the sentences. *)
Definition chunk_sentence (chunk_size chunk_overlap : Z) (st : chunker)
           (sentence : string) : chunker :=
  let sentence_tokens := tokens sentence in
  if sentence_tokens >? chunk_size
  then
    let st1 :=
      match current_chunk st with
      | [] => st
      | _ => mkChunker (chunks st ++ [(Packed, join (current_chunk st))])
                       [] 0
      end in
    mkChunker
      (chunks st1
       ++ map (pair LongSplit) (_split_long_sentence sentence chunk_size))
      (current_chunk st1) (current_tokens st1)
  else
    let st1 :=
      if current_tokens st + sentence_tokens >? chunk_size
      then match current_chunk st with
           | [] => st
           | _ =>
               let (overlap_chunk, overlap_tokens) :=
                 keep_overlap chunk_overlap (current_chunk st) in
               mkChunker
                 (chunks st ++ [(Packed, join (current_chunk st))])
                 overlap_chunk overlap_tokens
           end
      else st in
    mkChunker (chunks st1) (current_chunk st1 ++ [sentence])
              (current_tokens st1 + sentence_tokens).

Definition chunk_sentences (chunk_size chunk_overlap : Z)
           (sentences : list string) : chunker :=
  fold_left (chunk_sentence chunk_size chunk_overlap) sentences start.

Definition finish (st : chunker) : list (origin * string) :=
  match current_chunk st with
  | [] => chunks st
  | _ => chunks st ++ [(Packed, join (current_chunk st))]
  end.

(** [create_chunks] with the origin of every chunk. *)
Definition create_chunks_tagged (text : string)
           (chunk_size chunk_overlap : Z) : list (origin * string) :=
  if is_empty text then []
  else finish (chunk_sentences chunk_size chunk_overlap
                 (_split_into_sentences (clean_text text))).

Definition create_chunks (text : string) (chunk_size chunk_overlap : Z)
  : list string :=
  map snd (create_chunks_tagged text chunk_size chunk_overlap).

End WithTokenizer.

Section WithDisallowed.

(** [self.encoding.encode(s)] raises.  The calls pass the text alone, so
    tiktoken's default [disallowed_special='all'] applies: a string that
    holds the text of a special token, such as [<|endoftext|>], makes
    [encode] raise [ValueError]. *)
Variable encode_raises : string -> bool.

Variable encode_len : string -> nat.

(** The iteration of [create_chunks] on [sentence] raises: the sentence
    is encoded first; the words of a sentence of more than [chunk_size]
    tokens are encoded by [_split_long_sentence].  The walk for the
    overlap encodes sentences that were encoded before. *)
Definition sentence_raises (chunk_size : Z) (sentence : string) : bool :=
  encode_raises sentence
  || ((tokens encode_len sentence >? chunk_size)
      && existsb encode_raises (split sentence)).

(** [create_chunks] raises: it does at the first sentence whose iteration
    raises. *)
Definition create_chunks_raises (text : string) (chunk_size : Z) : bool :=
  if is_empty text then false
  else existsb (sentence_raises chunk_size)
               (_split_into_sentences (clean_text text)).

End WithDisallowed.

(** A small tokenizer to run the chunker with: one token per maximal run
    of letters and digits, one per other visible character. *)
Definition is_alnum (c : ascii) : bool :=
  let n := code c in
  ((48 <=? n) && (n <=? 57) || (65 <=? n) && (n <=? 90)
   || (97 <=? n) && (n <=? 122))%nat.

Fixpoint word_punct_count (in_word : bool) (s : string) : nat :=
  match s with
  | EmptyString => 0
  | String c r =>
      if is_space c then word_punct_count false r
      else if is_alnum c
           then ((if in_word then 0 else 1) + word_punct_count true r)%nat
           else S (word_punct_count false r)
  end.

Definition word_punct_tokens (s : string) : nat := word_punct_count false s.

(** [s.rfind(c)]: the index of the last [c], counted from [i] for the
    first character, or -1. *)
Fixpoint rfind_from (c : ascii) (s : string) (i : Z) : Z :=
  match s with
  | EmptyString => -1
  | String a r =>
      let later := rfind_from c r (i + 1) in
      if 0 <=? later then later
      else if Ascii.eqb a c then i else -1
  end.

Definition rfind (c : ascii) (s : string) : Z := rfind_from c s 0.

(** [s[:k]]. *)
Definition slice_to (k : Z) (s : string) : string :=
  if 0 <=? k then take (Z.to_nat k) s
  else take (String.length s - Z.to_nat (- k)) s.

Section WithFraction.

(** [exceeds_fraction last max_length] is the comparison
    [last > max_length * 0.8] of an [int] with a [float]. *)
Variable exceeds_fraction : Z -> Z -> bool.

Definition summarize_text (text : string) (max_length : Z) : string :=
  let text := clean_text text in
  if Z.of_nat (String.length text) <=? max_length then text
  else
    let summary := slice_to max_length text in
    let last_period := rfind "." summary in
    let last_space := rfind " " summary in
    if exceeds_fraction last_period max_length
    then slice_to (last_period + 1) summary
    else if exceeds_fraction last_space max_length
    then (slice_to last_space summary ++ "...")%string
    else (summary ++ "...")%string.

End WithFraction.

End TextProcessor.

(* ===================================================================== *)
(** ** Values shared by the services *)
(* ===================================================================== *)

Inductive exn : Type :=
| ValueError (msg : string)
| RuntimeError (msg : string)
| AttributeError
| KeyError (key : string)
| IndexError
| AssertionError
| RetryError
| APIError.

Inductive result (A : Type) : Type :=
| Ok (a : A)
| Raised (e : exn).

Arguments Ok {A} a.
Arguments Raised {A} e.

(** The values kept in metadata mappings. *)
Inductive pyval : Type :=
| PStr (s : string)
| PInt (z : Z).

Definition pyval_eqb (a b : pyval) : bool :=
  match a, b with
  | PStr x, PStr y => String.eqb x y
  | PInt x, PInt y => Z.eqb x y
  | _, _ => false
  end.

(** [str(v)], as an f-string renders it. *)
Definition py_str (v : pyval) : string :=
  match v with
  | PStr s => s
  | PInt z => PyStr.str_of_Z z
  end.

Inductive level : Type := INFO | WARNING | ERROR.

(** What reaches the structlog logger: level and event name. *)
Definition log_entry : Type := (level * string)%type.

(** An ordered [dict] with [str] keys. *)
Module Dict.

Definition t (V : Type) : Type := list (string * V).

Definition keys {V} (d : t V) : list string := map fst d.

Fixpoint get {V} (k : string) (d : t V) : option V :=
  match d with
  | [] => None
  | (k', v) :: r => if String.eqb k k' then Some v else get k r
  end.

Definition mem {V} (k : string) (d : t V) : bool :=
  match get k d with Some _ => true | None => false end.

(** [d[k] = v]: a present key keeps its position, a new key goes last. *)
Fixpoint set {V} (k : string) (v : V) (d : t V) : t V :=
  match d with
  | [] => [(k, v)]
  | (k', v') :: r =>
      if String.eqb k k' then (k, v) :: r else (k', v') :: set k v r
  end.

(** [d.pop(k, None)]. *)
Definition pop {V} (k : string) (d : t V) : t V :=
  filter (fun e => negb (String.eqb k (fst e))) d.

(** [d.get(k, default)]. *)
Definition get_default {V} (k : string) (default : V) (d : t V) : V :=
  match get k d with Some v => v | None => default end.

End Dict.

(** The floating-point kernels the program calls but does not define. *)
Class FloatOps (F : Type) : Type := {
  (** [0.0] *)
  fzero : F;
  (** [x == 0] *)
  fis_zero : F -> bool;
  fmul : F -> F -> F;
  fdiv : F -> F -> F;
  (** the cast of [np.array(..., dtype=np.float32)] on one entry *)
  to_float32 : F -> F;
  (** the factor [faiss.normalize_L2] multiplies a row by; [None] for a row
      of norm zero, which it leaves as it is *)
  l2_inverse_norm : list F -> option F;
  (** [IndexFlatIP.search] on the stored rows: [k] pairs of score and row
      number (row number -1 where nothing was found); [None] if it raises *)
  faiss_search : list (list F) -> list F -> Z -> option (list (F * Z));
  (** [np.dot] on two one-dimensional arrays of the same length *)
  np_dot : list F -> list F -> F;
  (** [np.linalg.norm] *)
  np_norm : list F -> F
}.

(* ===================================================================== *)
(** ** FAISS backend ([app/services/faiss_db.py]) *)
(* ===================================================================== *)

Module FaissDB.

Section WithFloats.

Context {F : Type} `{FloatOps F}.

(** A row of the flat index.  FAISS keeps only [row_vector]; [row_owner]
    remembers the id of the entry the vector was computed from, so that
    statements can speak about it.  No operation reads it. *)
Record row : Type := mkRow {
  row_owner : string;
  row_vector : list F
}.

(** A value of [self.documents]. *)
Record stored : Type := mkStored {
  stored_text : string;
  stored_metadata : Dict.t pyval
}.

(** An element of the argument of [add_documents]; a missing key is
    [None]. *)
Record document : Type := mkDocument {
  doc_id : option string;
  doc_text : option string;
  doc_embedding : option (list F);
  doc_metadata : option (Dict.t pyval)
}.

(** What [get_document] returns and what [search] returns with a
    score. *)
Record entry : Type := mkEntry {
  entry_id : string;
  entry_text : string;
  entry_metadata : Dict.t pyval
}.

Record hit : Type := mkHit {
  hit_id : string;
  hit_text : string;
  hit_metadata : Dict.t pyval;
  hit_score : F
}.

(** The two files under [chroma_persist_directory]. *)
Inductive files : Type :=
| NoFiles
| Saved (rows : list row) (docs : Dict.t stored)
| Unreadable.

Record FAISSVectorDB : Type := mkDB {
  index : option (list row);
  documents : Dict.t stored;
  dimension : nat;
  disk : files;
  log : list log_entry
}.

Definition with_index (db : FAISSVectorDB) (i : option (list row)) :=
  mkDB i (documents db) (dimension db) (disk db) (log db).
Definition with_documents (db : FAISSVectorDB) (d : Dict.t stored) :=
  mkDB (index db) d (dimension db) (disk db) (log db).
Definition with_disk (db : FAISSVectorDB) (f : files) :=
  mkDB (index db) (documents db) (dimension db) f (log db).
Definition logged (db : FAISSVectorDB) (l : level) (event : string) :=
  mkDB (index db) (documents db) (dimension db) (disk db)
       (log db ++ [(l, event)]).

(** [__init__]. *)
Definition new (on_disk : files) : FAISSVectorDB :=
  mkDB None [] 1536 on_disk [].

Definition initialize (db : FAISSVectorDB) : FAISSVectorDB :=
  match disk db with
  | Saved rows docs =>
      logged (with_documents (with_index db (Some rows)) docs)
             INFO "Loaded existing FAISS index"
  | NoFiles =>
      logged (with_documents (with_index db (Some [])) [])
             INFO "Created new FAISS index"
  | Unreadable =>
      with_documents
        (with_index (logged db ERROR "Failed to initialize FAISS")
                    (Some []))
        []
  end.

(** [self.index.ntotal]. *)
Definition ntotal (rows : list row) : nat := length rows.

Definition _save_index (db : FAISSVectorDB) : FAISSVectorDB :=
  match index db with
  | Some rows => with_disk db (Saved rows (documents db))
  | None => logged db ERROR "Failed to save FAISS index"
  end.

(** Padding or truncation to the dimension of the index. *)
Definition fit (dim : nat) (embedding : list F) : list F :=
  if (length embedding <? dim)%nat
  then embedding ++ repeat fzero (dim - length embedding)
  else firstn dim embedding.

(** [faiss.normalize_L2] on one row. *)
Definition normalize_L2 (v : list F) : list F :=
  match l2_inverse_norm v with
  | Some k => map (fmul k) v
  | None => v
  end.

(** What FAISS stores for a row of [embeddings]. *)
Definition as_row (embedding : list F) : list F :=
  normalize_L2 (map to_float32 embedding).

(** The id [add_documents] files an element under. *)
Definition id_for (db : FAISSVectorDB) (doc : document) : string :=
  match doc_id doc with
  | Some i => i
  | None => PyStr.str_of_nat (length (documents db))
  end.

(** One iteration of the loop of [add_documents]: the state and the
    list [embeddings], each vector with the id it belongs to. *)
Definition add_one (acc : FAISSVectorDB * list (string * list F))
           (doc : document) : FAISSVectorDB * list (string * list F) :=
  let (db, embeddings) := acc in
  let id := id_for db doc in
  let db1 :=
    with_documents db
      (Dict.set id
         (mkStored (match doc_text doc with Some t => t | None => "" end)
                   (match doc_metadata doc with
                    | Some m => m | None => [] end))
         (documents db)) in
  let embedding :=
    match doc_embedding doc with Some e => e | None => [] end in
  if (length embedding =? dimension db1)%nat
  then (db1, embeddings ++ [(id, embedding)])
  else (logged db1 WARNING "Embedding dimension mismatch",
        embeddings ++ [(id, fit (dimension db1) embedding)]).

Definition add_documents (db : FAISSVectorDB) (docs : list document)
  : result unit * FAISSVectorDB :=
  match docs with
  | [] => (Ok tt, db)
  | _ =>
      let (db1, embeddings) := fold_left add_one docs (db, []) in
      match index db1 with
      | None =>
          (Raised AttributeError,
           logged db1 ERROR "Failed to add documents to FAISS")
      | Some rows =>
          let db2 :=
            with_index db1
              (Some (rows
                     ++ map (fun e => mkRow (fst e) (as_row (snd e)))
                            embeddings)) in
          (Ok tt, logged (_save_index db2) INFO "Added documents to FAISS")
      end
  end.

(** The loop of [search] that turns the answer of FAISS into hits. *)
Fixpoint format_results (docs : Dict.t stored)
         (found : list (F * Z)) : result (list hit) :=
  match found with
  | [] => Ok []
  | (score, idx) :: rest =>
      if (0 <=? idx) && (idx <? Z.of_nat (length (Dict.keys docs)))
      then
        match nth_error (Dict.keys docs) (Z.to_nat idx) with
        | None => Raised IndexError
        | Some id =>
            match Dict.get id docs with
            | None => Raised (KeyError id)
            | Some doc =>
                match format_results docs rest with
                | Ok hits =>
                    Ok (mkHit id (stored_text doc) (stored_metadata doc)
                              score :: hits)
                | Raised e => Raised e
                end
            end
        end
      else format_results docs rest
  end.

Definition search (db : FAISSVectorDB) (query_embedding : list F)
           (top_k : Z) : list hit * FAISSVectorDB :=
  match index db with
  | None => ([], logged db ERROR "Failed to search FAISS index")
  | Some rows =>
      if (ntotal rows =? 0)%nat
      then ([], logged db WARNING "FAISS index is empty")
      else
        let query :=
          if (length query_embedding =? dimension db)%nat
          then query_embedding
          else fit (dimension db) query_embedding in
        match faiss_search (map row_vector rows) (as_row query)
                           (Z.min top_k (Z.of_nat (ntotal rows))) with
        | None => ([], logged db ERROR "Failed to search FAISS index")
        | Some found =>
            match format_results (documents db) found with
            | Ok hits => (hits, logged db INFO "Searched FAISS index")
            | Raised _ =>
                ([], logged db ERROR "Failed to search FAISS index")
            end
        end
  end.

Definition _rebuild_index (db : FAISSVectorDB) : FAISSVectorDB :=
  let db1 := with_index db (Some []) in
  match documents db1 with
  | [] => db1
  | _ => logged db1 WARNING
                "Cannot rebuild FAISS index without stored embeddings"
  end.

Definition delete_documents (db : FAISSVectorDB)
           (document_ids : list string) : result unit * FAISSVectorDB :=
  match document_ids with
  | [] => (Ok tt, db)
  | _ =>
      let db1 :=
        with_documents db
          (fold_left (fun d id => Dict.pop id d) document_ids
                     (documents db)) in
      (Ok tt,
       logged (_rebuild_index db1) INFO "Deleted documents from FAISS")
  end.

Definition update_document (db : FAISSVectorDB) (document_id : string)
           (doc : document) : result unit * FAISSVectorDB :=
  let db1 :=
    if Dict.mem document_id (documents db)
    then with_documents db
           (Dict.set document_id
              (mkStored
                 (match doc_text doc with Some t => t | None => "" end)
                 (match doc_metadata doc with
                  | Some m => m | None => [] end))
              (documents db))
    else db in
  match add_documents db1
          [mkDocument (Some document_id) (doc_text doc)
                      (doc_embedding doc) (doc_metadata doc)] with
  | (Ok _, db2) => (Ok tt, logged db2 INFO "Updated document in FAISS")
  | (Raised e, db2) =>
      (Raised e, logged db2 ERROR "Failed to update document in FAISS")
  end.

Definition get_document (db : FAISSVectorDB) (document_id : string)
  : option entry :=
  match Dict.get document_id (documents db) with
  | Some doc =>
      Some (mkEntry document_id (stored_text doc) (stored_metadata doc))
  | None => None
  end.

Definition count_documents (db : FAISSVectorDB) : nat :=
  length (documents db).

Definition close (db : FAISSVectorDB) : FAISSVectorDB :=
  logged (_save_index db) INFO "FAISS index closed and saved".

Definition clear_collection (db : FAISSVectorDB) : FAISSVectorDB :=
  logged (_save_index (with_documents (with_index db (Some [])) []))
         INFO "Cleared FAISS index".

End WithFloats.

Arguments row F : clear implicits.
Arguments document F : clear implicits.
Arguments hit F : clear implicits.
Arguments files F : clear implicits.
Arguments FAISSVectorDB F : clear implicits.

End FaissDB.

(* ===================================================================== *)
(** ** Embedding gateway ([app/services/embedding_service.py]) *)
(* ===================================================================== *)

Module Embedding.

(** A call of [client.embeddings.create]: [input] is one text or a list
    of texts. *)
Inductive request : Type :=
| Single (model : string) (input : string)
| Batch (model : string) (input : list string).

(** What the service does to the outside world. *)
Inductive event : Type :=
| Called (r : request)
| Slept.

Record EmbeddingService : Type := mkService {
  model : string;
  history : list event
}.

Definition max_batch_size : nat := 100.

Definition called (svc : EmbeddingService) (r : request) :=
  mkService (model svc) (history svc ++ [Called r]).

Definition slept (svc : EmbeddingService) :=
  mkService (model svc) (history svc ++ [Slept]).

(** [range(0, stop, step)]. *)
Definition range_step (stop step : nat) : list nat :=
  map (fun k => (k * step)%nat) (seq 0 ((stop + step - 1) / step)).

Section WithBackend.

Context {F : Type} `{FloatOps F}.

(** The remote endpoint: from what happened so far and the request, the
    embeddings of [response.data] in the order of the response, or
    [None] when the call raises. *)
Variable embeddings_create :
  list event -> request -> option (list (list F)).

(** One run of the body of [generate_embedding]. *)
Definition attempt (svc : EmbeddingService) (text : string)
  : result (list F) * EmbeddingService :=
  let r := Single (model svc) text in
  match embeddings_create (history svc) r with
  | Some (embedding :: _) => (Ok embedding, called svc r)
  | Some [] => (Raised IndexError, called svc r)
  | None => (Raised APIError, called svc r)
  end.

(** The [@retry] wrapper: [attempts] runs are left; a failed run that
    is not the last is followed by the wait of the back-off. *)
Fixpoint retrying (attempts : nat) (svc : EmbeddingService)
         (text : string) : result (list F) * EmbeddingService :=
  match attempts with
  | O => (Raised RetryError, svc)
  | S more =>
      match attempt svc text with
      | (Ok embedding, svc1) => (Ok embedding, svc1)
      | (Raised _, svc1) =>
          match more with
          | O => (Raised RetryError, svc1)
          | S _ => retrying more (slept svc1) text
          end
      end
  end.

Definition generate_embedding : EmbeddingService -> string ->
                                result (list F) * EmbeddingService :=
  retrying 3.

(** [[0.0] * 1536]. *)
Definition zero_vector : list F := repeat fzero 1536.

(** The fallback loop over the texts of a failed batch. *)
Definition embed_individually
           (acc : EmbeddingService * list (list F)) (text : string)
  : EmbeddingService * list (list F) :=
  let (svc, embeddings) := acc in
  match generate_embedding svc text with
  | (Ok embedding, svc1) => (svc1, embeddings ++ [embedding])
  | (Raised _, svc1) => (svc1, embeddings ++ [zero_vector])
  end.

(** One iteration of the loop over the batch starts. *)
Definition embed_batch (texts : list string)
           (acc : EmbeddingService * list (list F)) (i : nat)
  : EmbeddingService * list (list F) :=
  let (svc, embeddings) := acc in
  let batch := firstn max_batch_size (skipn i texts) in
  let r := Batch (model svc) batch in
  match embeddings_create (history svc) r with
  | Some batch_embeddings =>
      (if (i + max_batch_size <? length texts)%nat
       then slept (called svc r) else called svc r,
       embeddings ++ batch_embeddings)
  | None => fold_left embed_individually batch (called svc r, embeddings)
  end.

Definition generate_embeddings_batch (svc : EmbeddingService)
           (texts : list string) : list (list F) * EmbeddingService :=
  let (svc1, embeddings) :=
    fold_left (embed_batch texts)
              (range_step (length texts) max_batch_size) (svc, []) in
  (embeddings, svc1).

Definition generate_query_embedding (svc : EmbeddingService)
           (query : string) : result (list F) * EmbeddingService :=
  let query := PyStr.strip query in
  if PyStr.is_empty query
  then (Raised (ValueError "Query cannot be empty"), svc)
  else generate_embedding svc query.

(** [np.dot] refuses one-dimensional arrays of different lengths. *)
Definition cosine_similarity (vec1 vec2 : list F) : result F :=
  if (length vec1 =? length vec2)%nat
  then
    let dot_product := np_dot vec1 vec2 in
    let norm1 := np_norm vec1 in
    let norm2 := np_norm vec2 in
    if fis_zero norm1 || fis_zero norm2
    then Ok fzero
    else Ok (fdiv dot_product (fmul norm1 norm2))
  else Raised (ValueError "shapes not aligned").

End WithBackend.

Section Similarity.

Context {F : Type} `{FloatOps F}.

(** The comparisons of floats [find_similar] makes: [x >= y] on a
    similarity and the threshold, and [x < y] between two similarities
    when it sorts. *)
Variable fge : F -> F -> bool.
Variable flt : F -> F -> bool.

(** An element of the argument [embeddings]: the key ['embedding'] ([None]
    when it is missing) beside its other keys. *)
Record item : Type := mkItem {
  item_embedding : option (list F);
  item_fields : Dict.t pyval
}.

(** [{**item, 'similarity': similarity}]. *)
Record scored : Type := mkScored {
  scored_item : item;
  similarity : F
}.

(** The loop of [find_similar]. *)
Fixpoint score_items (query_embedding : list F) (threshold : F)
         (embeddings : list item) : result (list scored) :=
  match embeddings with
  | [] => Ok []
  | it :: rest =>
      match item_embedding it with
      | None => Raised (KeyError "embedding")
      | Some embedding =>
          match cosine_similarity query_embedding embedding with
          | Raised e => Raised e
          | Ok s =>
              match score_items query_embedding threshold rest with
              | Raised e => Raised e
              | Ok similarities =>
                  Ok (if fge s threshold
                      then mkScored it s :: similarities
                      else similarities)
              end
          end
      end
  end.

(** [list.sort(key=similarity, reverse=True)] is stable: an element stays
    in front of the later elements that are not greater.  For keys that
    [<] orders totally this insertion gives the list the sort gives; the
    keys of [similarities] are so ordered, since a similarity that is not
    a number never passes [>=]. *)
Fixpoint insert_descending (x : scored) (l : list scored) : list scored :=
  match l with
  | [] => [x]
  | y :: r =>
      if flt (similarity x) (similarity y)
      then y :: insert_descending x r
      else x :: l
  end.

Definition sort_descending (l : list scored) : list scored :=
  fold_right insert_descending [] l.

(** [l[:k]]. *)
Definition slice_to {A : Type} (k : Z) (l : list A) : list A :=
  if 0 <=? k then firstn (Z.to_nat k) l
  else firstn (length l - Z.to_nat (- k)) l.

Definition find_similar (query_embedding : list F) (embeddings : list item)
           (top_k : Z) (threshold : F) : result (list scored) :=
  match score_items query_embedding threshold embeddings with
  | Raised e => Raised e
  | Ok similarities => Ok (slice_to top_k (sort_descending similarities))
  end.

End Similarity.

Arguments item F : clear implicits.
Arguments scored F : clear implicits.

End Embedding.

(* ===================================================================== *)
(** ** Settings ([app/core/config.py]) *)
(* ===================================================================== *)

Module Config.

(** The validator of [vector_db_type]. *)
Definition validate_vector_db_type (v : string) : result string :=
  let allowed := ["chroma"; "qdrant"; "pinecone"] in
  if negb (existsb (String.eqb v) allowed)
  then Raised (ValueError
                 "vector_db_type must be one of ['chroma', 'qdrant', 'pinecone']")
  else Ok v.

End Config.

(* ===================================================================== *)
(** ** Backend selection ([app/services/vector_db.py]) *)
(* ===================================================================== *)

(** The fields of [settings] the services read, and what lies outside the
    process: the files of the FAISS backend and the clock. *)
Record environment (F : Type) : Type := mkEnv {
  vector_db_type : string;
  openai_model_chat : string;
  max_tokens : Z;
  on_disk : FaissDB.files F;
  utcnow_isoformat : string
}.

(** [settings.max_tokens], for places where a parameter has the same
    name. *)
Definition default_max_tokens {F : Type} (env : environment F) : Z :=
  max_tokens env.

Module VectorDB.

Definition lower_char (c : ascii) : ascii :=
  let n := PyStr.code c in
  if ((65 <=? n) && (n <=? 90)
      || (192 <=? n) && (n <=? 222) && negb (n =? 215))%nat
  then ascii_of_nat (n + 32) else c.

(** [s.lower()] on code points below 256. *)
Fixpoint lower (s : string) : string :=
  match s with
  | EmptyString => EmptyString
  | String c r => String (lower_char c) (lower r)
  end.

Section WithFloats.

Context {F : Type} `{FloatOps F}.

Record VectorDBService : Type := mkVectorDB {
  db : option (FaissDB.FAISSVectorDB F)
}.

Definition not_initialized : exn :=
  RuntimeError "Vector database not initialized".

Definition initialize (env : environment F) (svc : VectorDBService)
  : result unit * VectorDBService :=
  if String.eqb (lower (vector_db_type env)) "chroma"
  then (Ok tt,
        mkVectorDB
          (Some (FaissDB.initialize (FaissDB.new (on_disk env)))))
  else (Raised (ValueError "Unsupported vector database type"), svc).

Definition add_documents (svc : VectorDBService)
           (docs : list (FaissDB.document F))
  : result unit * VectorDBService :=
  match db svc with
  | None => (Raised not_initialized, svc)
  | Some d =>
      let (r, d1) := FaissDB.add_documents d docs in
      (r, mkVectorDB (Some d1))
  end.

Definition search (svc : VectorDBService) (query_embedding : list F)
           (top_k : Z) : result (list (FaissDB.hit F)) * VectorDBService :=
  match db svc with
  | None => (Raised not_initialized, svc)
  | Some d =>
      let (hits, d1) := FaissDB.search d query_embedding top_k in
      (Ok hits, mkVectorDB (Some d1))
  end.

Definition delete_documents (svc : VectorDBService)
           (document_ids : list string)
  : result unit * VectorDBService :=
  match db svc with
  | None => (Raised not_initialized, svc)
  | Some d =>
      let (r, d1) := FaissDB.delete_documents d document_ids in
      (r, mkVectorDB (Some d1))
  end.

Definition update_document (svc : VectorDBService)
           (document_id : string) (doc : FaissDB.document F)
  : result unit * VectorDBService :=
  match db svc with
  | None => (Raised not_initialized, svc)
  | Some d =>
      let (r, d1) := FaissDB.update_document d document_id doc in
      (r, mkVectorDB (Some d1))
  end.

Definition get_document (svc : VectorDBService) (document_id : string)
  : result (option FaissDB.entry) :=
  match db svc with
  | None => Raised not_initialized
  | Some d => Ok (FaissDB.get_document d document_id)
  end.

Definition count_documents (svc : VectorDBService) : result nat :=
  match db svc with
  | None => Raised not_initialized
  | Some d => Ok (FaissDB.count_documents d)
  end.

End WithFloats.

Arguments VectorDBService F : clear implicits.

End VectorDB.

(* ===================================================================== *)
(** ** Indexing pipeline ([app/services/indexing_service.py]) *)
(* ===================================================================== *)

Module Indexing.

(** An element of [chunks]: the key ["text"] and the optional key
    ["metadata"]. *)
Record chunk : Type := mkChunk {
  chunk_text : string;
  chunk_metadata : option (Dict.t pyval)
}.

Record stats : Type := mkStats {
  total_chunks : nat;
  indexed : nat;
  skipped : nat;
  failed : nat
}.

Definition metadata_of (c : chunk) : Dict.t pyval :=
  match chunk_metadata c with Some m => m | None => [] end.

Definition _generate_chunk_id (source_id : string) (c : chunk) : string :=
  let chunk_index :=
    Dict.get_default "chunk_index" (PInt 0) (metadata_of c) in
  (source_id ++ "_" ++ py_str chunk_index)%string.

Section WithServices.

Context {F : Type} `{FloatOps F}.

Variable embeddings_create :
  list Embedding.event -> Embedding.request -> option (list (list F)).

(** [hashlib.md5(text.encode()).hexdigest()]. *)
Variable md5_hexdigest : string -> string.

Record IndexingService : Type := mkIndexing {
  embedding_service : Embedding.EmbeddingService;
  vector_service : VectorDB.VectorDBService F
}.

Definition _generate_content_hash (text : string) : string :=
  md5_hexdigest text.

Definition _has_content_changed (existing : FaissDB.entry) (new_chunk : chunk)
  : bool :=
  let existing_hash :=
    Dict.get_default "content_hash" (PStr "")
                     (FaissDB.entry_metadata existing) in
  let new_hash := _generate_content_hash (chunk_text new_chunk) in
  negb (pyval_eqb existing_hash (PStr new_hash)).

(** The variables of the first loop of [index_chunks]:
    [chunks_to_index] (each chunk with its id; [texts_to_embed] is the
    list of their texts) and the counter [stats["skipped"]]. *)
Record selection : Type := mkSelection {
  chunks_to_index : list (string * chunk);
  skipped_so_far : nat
}.

Definition texts_to_embed (s : selection) : list string :=
  map (fun ic => chunk_text (snd ic)) (chunks_to_index s).

Definition select_chunk (vs : VectorDB.VectorDBService F)
           (source_id : string) (force_reindex : bool)
           (acc : result selection) (c : chunk) : result selection :=
  match acc with
  | Raised e => Raised e
  | Ok s =>
      let chunk_id := _generate_chunk_id source_id c in
      if negb force_reindex
      then
        match VectorDB.get_document vs chunk_id with
        | Raised e => Raised e
        | Ok (Some existing) =>
            if _has_content_changed existing c
            then Ok (mkSelection (chunks_to_index s ++ [(chunk_id, c)])
                                 (skipped_so_far s))
            else Ok (mkSelection (chunks_to_index s)
                                 (S (skipped_so_far s)))
        | Ok None => Ok s
        end
      else Ok (mkSelection (chunks_to_index s ++ [(chunk_id, c)])
                           (skipped_so_far s))
  end.

(** The loop that pairs every selected chunk with [embeddings[i]]. *)
Fixpoint build_documents (source_id : string)
         (selected : list (string * chunk)) (embeddings : list (list F))
         (i : nat) : result (list (FaissDB.document F)) :=
  match selected with
  | [] => Ok []
  | (id, c) :: rest =>
      match nth_error embeddings i with
      | None => Raised IndexError
      | Some embedding =>
          match build_documents source_id rest embeddings (S i) with
          | Raised e => Raised e
          | Ok docs =>
              Ok (FaissDB.mkDocument
                    (Some id) (Some (chunk_text c)) (Some embedding)
                    (Some (Dict.set "content_hash"
                             (PStr (_generate_content_hash (chunk_text c)))
                             (Dict.set "source_id" (PStr source_id)
                                       (metadata_of c))))
                    :: docs)
          end
      end
  end.

Definition index_chunks (env : environment F) (svc : IndexingService)
           (chunks : list chunk) (source_id : string)
           (force_reindex : bool) : result stats * IndexingService :=
  let (started, vs) :=
    match VectorDB.db (vector_service svc) with
    | None => VectorDB.initialize env (vector_service svc)
    | Some _ => (Ok tt, vector_service svc)
    end in
  match started with
  | Raised e => (Raised e, mkIndexing (embedding_service svc) vs)
  | Ok _ =>
      match fold_left (select_chunk vs source_id force_reindex) chunks
                      (Ok (mkSelection [] 0)) with
      | Raised e => (Raised e, mkIndexing (embedding_service svc) vs)
      | Ok s =>
          match texts_to_embed s with
          | [] =>
              (Ok (mkStats (length chunks) 0 (skipped_so_far s) 0),
               mkIndexing (embedding_service svc) vs)
          | _ =>
              let (embeddings, es) :=
                Embedding.generate_embeddings_batch
                  embeddings_create (embedding_service svc)
                  (texts_to_embed s) in
              match build_documents source_id (chunks_to_index s)
                                    embeddings 0 with
              | Raised e => (Raised e, mkIndexing es vs)
              | Ok docs =>
                  match VectorDB.add_documents vs docs with
                  | (Raised e, vs1) => (Raised e, mkIndexing es vs1)
                  | (Ok _, vs1) =>
                      (Ok (mkStats (length chunks) (length docs)
                                   (skipped_so_far s) 0),
                       mkIndexing es vs1)
                  end
              end
          end
      end
  end.

End WithServices.

Arguments IndexingService F : clear implicits.

End Indexing.

(* ===================================================================== *)
(** ** Retrieval and answering ([app/services/rag_service.py]) *)
(* ===================================================================== *)

Module RAG.

(** The answer given when the search finds nothing (the UTF-8 bytes of
    the Korean sentence in the source). *)
Definition no_information_answer : string :=
  "죄송합니다. 질문과 관련된 정보를 찾을 수 없습니다. Notion 문서를 먼저 인덱싱해 주세요.".

Definition system_prompt : string :=
  "You are a helpful assistant that answers questions based on the provided Notion documents.

            Instructions:
            1. Answer in Korean if the query is in Korean, otherwise answer in the same language as the query.
            2. Base your answer ONLY on the provided context from Notion documents.
            3. If the information is not in the context, say you don't have that information.
            4. Be concise but comprehensive.
            5. When referencing information, mention which document it comes from.
            6. Use markdown formatting when appropriate for better readability.".

Definition newline : string := String (ascii_of_nat 10) EmptyString.

Section WithServices.

Context {F : Type} `{FloatOps F}.

Variable embeddings_create :
  list Embedding.event -> Embedding.request -> option (list (list F)).

(** [openai_client.chat.completions.create]: model, system and user
    message, temperature and token limit give the text of the first
    choice, or [None] when the call raises. *)
Variable chat_completions_create :
  string -> string -> string -> F -> Z -> option string.

(** The text of [f"{score:.2f}"]. *)
Variable format_2f : F -> string.

Record RAGService : Type := mkRAG {
  embedding_service : Embedding.EmbeddingService;
  vector_service : VectorDB.VectorDBService F
}.

Record source : Type := mkSource {
  src_page_id : pyval;
  src_page_title : pyval;
  src_text : string;
  src_score : F;
  src_url : pyval;
  src_chunk_index : pyval;
  src_total_chunks : pyval
}.

Record answer : Type := mkAnswer {
  answer_text : string;
  sources : list source;
  model_used : string;
  query_text : string;
  timestamp : option string
}.

Definition context_part (i : nat) (doc : FaissDB.hit F) : string :=
  let page_title :=
    Dict.get_default "page_title" (PStr "Untitled")
                     (FaissDB.hit_metadata doc) in
  ("[문서 " ++ PyStr.str_of_nat i ++ " - " ++ py_str page_title
   ++ " (관련도: " ++ format_2f (FaissDB.hit_score doc) ++ ")]"
   ++ newline ++ FaissDB.hit_text doc)%string.

Fixpoint context_parts (i : nat) (docs : list (FaissDB.hit F))
  : list string :=
  match docs with
  | [] => []
  | doc :: rest => context_part i doc :: context_parts (S i) rest
  end.

Definition _prepare_context (docs : list (FaissDB.hit F)) : string :=
  String.concat (newline ++ newline ++ "---" ++ newline ++ newline)%string
                (context_parts 1 docs).

Definition user_prompt (query context : string) : string :=
  ("Context from Notion documents:" ++ newline ++ newline ++ context
   ++ newline ++ newline ++ "---" ++ newline ++ newline
   ++ "Question: " ++ query ++ newline ++ newline
   ++ "Please provide a comprehensive answer based on the above context."
  )%string.

Definition _generate_answer (env : environment F) (query context : string)
           (temperature : F) (max_tokens : Z) : result string :=
  match chat_completions_create (openai_model_chat env) system_prompt
                                (user_prompt query context)
                                temperature max_tokens with
  | Some text => Ok text
  | None => Raised APIError
  end.

Definition _format_sources (docs : list (FaissDB.hit F)) : list source :=
  map (fun doc =>
         let metadata := FaissDB.hit_metadata doc in
         mkSource
           (Dict.get_default "page_id" (PStr (FaissDB.hit_id doc)) metadata)
           (Dict.get_default "page_title" (PStr "Untitled") metadata)
           (PyStr.take 500 (FaissDB.hit_text doc))
           (FaissDB.hit_score doc)
           (Dict.get_default "url" (PStr "") metadata)
           (Dict.get_default "chunk_index" (PInt 0) metadata)
           (Dict.get_default "total_chunks" (PInt 1) metadata))
      docs.

Definition query (env : environment F) (svc : RAGService)
           (query : string) (top_k : Z) (temperature : F)
           (max_tokens : option Z) : result answer * RAGService :=
  let (started, vs) :=
    match VectorDB.db (vector_service svc) with
    | None => VectorDB.initialize env (vector_service svc)
    | Some _ => (Ok tt, vector_service svc)
    end in
  match started with
  | Raised e => (Raised e, mkRAG (embedding_service svc) vs)
  | Ok _ =>
      let max_tokens :=
        match max_tokens with
        | Some m => m
        | None => default_max_tokens env
        end in
      match Embedding.generate_query_embedding
              embeddings_create (embedding_service svc) query with
      | (Raised e, es) => (Raised e, mkRAG es vs)
      | (Ok query_embedding, es) =>
          match VectorDB.search vs query_embedding top_k with
          | (Raised e, vs1) => (Raised e, mkRAG es vs1)
          | (Ok [], vs1) =>
              (Ok (mkAnswer no_information_answer []
                            (openai_model_chat env) query None),
               mkRAG es vs1)
          | (Ok relevant_docs, vs1) =>
              let context := _prepare_context relevant_docs in
              match _generate_answer env query context temperature
                                     max_tokens with
              | Raised e => (Raised e, mkRAG es vs1)
              | Ok text =>
                  (Ok (mkAnswer text (_format_sources relevant_docs)
                                (openai_model_chat env) query
                                (Some (utcnow_isoformat env))),
                   mkRAG es vs1)
              end
          end
      end
  end.

End WithServices.

Arguments RAGService F : clear implicits.
Arguments source F : clear implicits.
Arguments answer F : clear implicits.

End RAG.

(* ===================================================================== *)
(** ** Keywords ([TextProcessor.extract_keywords] of
       [app/utils/text_processor.py]; it comes after [VectorDB] for
       [str.lower]) *)
(* ===================================================================== *)

Module Keywords.

(** The regex class [\w] on code points below 256: what [str.isalnum]
    accepts, and the underscore. *)
Definition is_word_char (c : ascii) : bool :=
  let n := PyStr.code c in
  ((48 <=? n) && (n <=? 57) || (65 <=? n) && (n <=? 90) || (n =? 95)
   || (97 <=? n) && (n <=? 122)
   || (n =? 170) || (n =? 178) || (n =? 179) || (n =? 181) || (n =? 185)
   || (n =? 186) || (188 <=? n) && (n <=? 190)
   || (192 <=? n) && (n <=? 214) || (216 <=? n) && (n <=? 246)
   || (248 <=? n))%nat.

(** The class [[a-z]]. *)
Definition is_lower_letter (c : ascii) : bool :=
  let n := PyStr.code c in ((97 <=? n) && (n <=? 122))%nat.

(** A finished run of word characters is a match when it is not empty and
    all of it is in [[a-z]]. *)
Definition matched (current : string) (plain : bool) : list string :=
  if plain && negb (PyStr.is_empty current) then [current] else [].

(** [re.findall(r'\b[a-z]+\b', s)]: since [[a-z]] is part of [\w], a match
    is a maximal run of word characters that has letters of [[a-z]] only.
    [current] is the run being read and [plain] tells that it has no
    other character so far. *)
Fixpoint find_words (current : string) (plain : bool) (s : string)
  : list string :=
  match s with
  | EmptyString => matched current plain
  | String c r =>
      if is_word_char c
      then find_words (current ++ String c EmptyString)
                      (plain && is_lower_letter c) r
      else matched current plain ++ find_words EmptyString true r
  end.

Definition stop_words : list string :=
  ["the"; "is"; "at"; "which"; "on"; "and"; "a"; "an";
   "as"; "are"; "was"; "were"; "been"; "be"; "have";
   "has"; "had"; "do"; "does"; "did"; "will"; "would";
   "should"; "could"; "may"; "might"; "must"; "shall";
   "can"; "need"; "dare"; "ought"; "used"; "to"; "of";
   "in"; "for"; "with"; "by"; "from"; "about"; "into";
   "through"; "during"; "before"; "after"; "above";
   "below"; "up"; "down"; "out"; "off"; "over"; "under";
   "again"; "further"; "then"; "once"].

(** The test of the counting loop. *)
Definition counted (word : string) : bool :=
  negb (existsb (String.eqb word) stop_words)
  && (2 <? String.length word)%nat.

(** One iteration of the counting loop. *)
Definition count_word (word_freq : Dict.t Z) (word : string) : Dict.t Z :=
  if counted word
  then Dict.set word (Dict.get_default word 0 word_freq + 1) word_freq
  else word_freq.

(** [sorted(items, key=frequency, reverse=True)] is stable. *)
Fixpoint insert_by_frequency (x : string * Z) (l : list (string * Z))
  : list (string * Z) :=
  match l with
  | [] => [x]
  | y :: r =>
      if snd x <? snd y then y :: insert_by_frequency x r else x :: l
  end.

Definition sort_by_frequency (l : list (string * Z)) : list (string * Z) :=
  fold_right insert_by_frequency [] l.

Definition extract_keywords (text : string) (max_keywords : Z)
  : list string :=
  let text := TextProcessor.clean_text (VectorDB.lower text) in
  let words := find_words EmptyString true text in
  let word_freq := fold_left count_word words [] in
  let sorted_words := sort_by_frequency word_freq in
  map fst (Embedding.slice_to max_keywords sorted_words).

End Keywords.

(* ===================================================================== *)
(** ** Notion pages ([app/services/notion_service.py]) *)
(* ===================================================================== *)

Module Notion.

(** A property of a page: [prop.get("type")] and the [plain_text] of the
    elements of [prop.get("title", [])]. *)
Record property : Type := mkProperty {
  prop_type : option string;
  prop_title : list string
}.

(** What the service reads of a page object. *)
Record page : Type := mkPage {
  id : string;
  properties : Dict.t property;
  created_time : option pyval;
  last_edited_time : option pyval;
  url : option pyval
}.

(** What [_extract_text_from_block] reads of a block: [block.get("type")],
    the [plain_text] of the elements of the block's [rich_text], the
    [language] of a code block and the [plain_text] of the elements of an
    image's [caption]. *)
Record block : Type := mkBlock {
  block_type : option string;
  rich_text : list string;
  language : string;
  caption : list string
}.

Definition line_feed : string := String (ascii_of_nat 10) EmptyString.

Definition title_of (prop : property) : option string :=
  match prop_type prop with
  | Some t =>
      if String.eqb t "title"
      then match prop_title prop with
           | [] => None
           | title_array => Some (String.concat "" title_array)
           end
      else None
  | None => None
  end.

(** The loop over the common names of the title property. *)
Fixpoint title_by_name (names : list string) (props : Dict.t property)
  : option string :=
  match names with
  | [] => None
  | prop_name :: rest =>
      match Dict.get prop_name props with
      | Some prop =>
          match title_of prop with
          | Some title => Some title
          | None => title_by_name rest props
          end
      | None => title_by_name rest props
      end
  end.

(** The loop over [properties.values()]. *)
Fixpoint title_by_type (props : Dict.t property) : option string :=
  match props with
  | [] => None
  | (_, prop) :: rest =>
      match title_of prop with
      | Some title => Some title
      | None => title_by_type rest
      end
  end.

Definition _get_page_title (p : page) : string :=
  match title_by_name ["Name"; "Title"; "title"; "name"] (properties p) with
  | Some title => title
  | None =>
      match title_by_type (properties p) with
      | Some title => title
      | None => "Untitled"
      end
  end.

Definition text_block_types : list string :=
  ["paragraph"; "heading_1"; "heading_2"; "heading_3";
   "bulleted_list_item"; "numbered_list_item"; "to_do";
   "toggle"; "quote"; "callout"].

Definition text_parts (block_type : string) (b : block) : list string :=
  if existsb (String.eqb block_type) text_block_types
  then rich_text b
  else if String.eqb block_type "code"
  then
    let code_text := String.concat "" (rich_text b) in
    if PyStr.is_empty (language b)
    then [("```" ++ line_feed ++ code_text ++ line_feed ++ "```")%string]
    else [("```" ++ language b ++ line_feed ++ code_text ++ line_feed
           ++ "```")%string]
  else if String.eqb block_type "table"
  then ["[Table content]"]
  else if String.eqb block_type "image"
  then match caption b with
       | [] => []
       | _ => [("Image: " ++ String.concat "" (caption b))%string]
       end
  else [].

Definition _extract_text_from_block (b : block) : option string :=
  match block_type b with
  | None => None
  | Some block_type =>
      if PyStr.is_empty block_type then None
      else
        let text := PyStr.strip (PyStr.join (text_parts block_type b)) in
        if PyStr.is_empty text then None else Some text
  end.

Section WithTokenizer.

Variable encode_len : string -> nat.

(** The texts of the blocks that have one. *)
Fixpoint text_content (blocks : list block) : list string :=
  match blocks with
  | [] => []
  | b :: rest =>
      match _extract_text_from_block b with
      | Some text =>
          if PyStr.is_empty text then text_content rest
          else text :: text_content rest
      | None => text_content rest
      end
  end.

(** The loop over [enumerate(raw_chunks)], from index [i] on. *)
Fixpoint with_metadata (p : page) (page_title : string) (total : nat)
         (i : nat) (raw_chunks : list string) : list Indexing.chunk :=
  match raw_chunks with
  | [] => []
  | chunk_text :: rest =>
      Indexing.mkChunk
        chunk_text
        (Some [("page_id", PStr (id p));
               ("page_title", PStr page_title);
               ("chunk_index", PInt (Z.of_nat i));
               ("total_chunks", PInt (Z.of_nat total));
               ("created_at",
                match created_time p with Some v => v | None => PStr "" end);
               ("last_edited",
                match last_edited_time p with
                | Some v => v
                | None => PStr ""
                end);
               ("url", match url p with Some v => v | None => PStr "" end)])
        :: with_metadata p page_title total (S i) rest
  end.

(** [extract_text]; [blocks] is what [_fetch_all_blocks] returned, and
    [chunk_size] and [chunk_overlap] are the settings of these names. *)
Definition extract_text (chunk_size chunk_overlap : Z) (p : page)
           (blocks : list block) : list Indexing.chunk :=
  let page_title := _get_page_title p in
  let full_text :=
    String.concat (line_feed ++ line_feed) (text_content blocks) in
  if PyStr.is_empty full_text then []
  else
    let raw_chunks :=
      TextProcessor.create_chunks encode_len full_text chunk_size
                                  chunk_overlap in
    with_metadata p page_title (length raw_chunks) 0 raw_chunks.

(** [self.text_processor.encoding.encode(s)] raises. *)
Variable encode_raises : string -> bool.

(** [extract_text] with the exception of [create_chunks]: the [except]
    clause logs it and raises it again.  The message of the [ValueError]
    of tiktoken is abridged. *)
Definition extract_text_or_raise (chunk_size chunk_overlap : Z) (p : page)
           (blocks : list block) : result (list Indexing.chunk) :=
  let full_text :=
    String.concat (line_feed ++ line_feed) (text_content blocks) in
  if PyStr.is_empty full_text then Ok []
  else if TextProcessor.create_chunks_raises encode_raises encode_len
            full_text chunk_size
       then Raised (ValueError "disallowed special token")
       else Ok (extract_text chunk_size chunk_overlap p blocks).

End WithTokenizer.

End Notion.

(* ===================================================================== *)
(** ** The refresh task ([app/api/refresh.py]) *)
(* ===================================================================== *)

Module Refresh.

Section WithServices.

Context {F : Type} `{FloatOps F}.

Variable encode_len : string -> nat.

Variable encode_raises : string -> bool.

Variable embeddings_create :
  list Embedding.event -> Embedding.request -> option (list (list F)).

Variable md5_hexdigest : string -> string.

(** The loop over the pages of [refresh_notion_data], without the
    progress records of the task: every page comes with the blocks
    [_fetch_all_blocks] returns for it.  An exception of [extract_text]
    or of [index_chunks] ends the loop; the task catches it and records
    the status ['failed'].  The argument [force] of the task is not
    passed to [index_chunks]. *)
Fixpoint process_pages (env : environment F) (chunk_size chunk_overlap : Z)
         (indexing_service : Indexing.IndexingService F)
         (pages : list (Notion.page * list Notion.block))
  : result unit * Indexing.IndexingService F :=
  match pages with
  | [] => (Ok tt, indexing_service)
  | (page, blocks) :: rest =>
      match Notion.extract_text_or_raise encode_len encode_raises
                                         chunk_size chunk_overlap
                                         page blocks with
      | Raised e => (Raised e, indexing_service)
      | Ok text_chunks =>
          match Indexing.index_chunks embeddings_create md5_hexdigest env
                                      indexing_service text_chunks
                                      (Notion.id page) false with
          | (Ok _, indexing_service1) =>
              process_pages env chunk_size chunk_overlap indexing_service1
                            rest
          | (Raised e, indexing_service1) => (Raised e, indexing_service1)
          end
      end
  end.

End WithServices.

End Refresh.

(* ===================================================================== *)
(** ** An instance to run the model: IEEE binary64 *)
(* ===================================================================== *)

Module Binary64.

Definition dot (a b : list float) : float :=
  fold_left (fun acc xy => PrimFloat.add acc (PrimFloat.mul (fst xy) (snd xy)))
            (combine a b) PrimFloat.zero.

Definition norm (a : list float) : float := PrimFloat.sqrt (dot a a).

Definition inverse_norm (a : list float) : option float :=
  if PrimFloat.ltb PrimFloat.zero (dot a a)
  then Some (PrimFloat.div PrimFloat.one (norm a))
  else None.

(** Insertion of a scored row before the first row whose score is not
    greater (rows of equal score stay in the order of their numbers). *)
Fixpoint insert_by_score (x : float * Z) (l : list (float * Z))
  : list (float * Z) :=
  match l with
  | [] => [x]
  | y :: r =>
      if PrimFloat.leb (fst y) (fst x) then x :: l
      else y :: insert_by_score x r
  end.

Fixpoint number_from (i : Z) (l : list float) : list (float * Z) :=
  match l with
  | [] => []
  | x :: r => (x, i) :: number_from (i + 1) r
  end.

(** Inner products with the query, best first, the first [k]. *)
Definition search (rows : list (list float)) (query : list float) (k : Z)
  : option (list (float * Z)) :=
  if k <=? 0 then None
  else Some (firstn (Z.to_nat k)
               (fold_right insert_by_score []
                  (number_from 0 (map (fun r => dot r query) rows)))).

(** Python's [x >= y] and [x < y] on floats. *)
Definition ge (x y : float) : bool := PrimFloat.leb y x.

Definition lt (x y : float) : bool := PrimFloat.ltb x y.

(** The cast to binary32 is left out: entries keep their binary64
    value. *)
#[export] Instance ops : FloatOps float := {
  fzero := PrimFloat.zero;
  fis_zero := fun x => PrimFloat.eqb x PrimFloat.zero;
  fmul := PrimFloat.mul;
  fdiv := PrimFloat.div;
  to_float32 := fun x => x;
  l2_inverse_norm := inverse_norm;
  faiss_search := search;
  np_dot := dot;
  np_norm := norm
}.

End Binary64.


Import TextProcessor.
Import Binary64.
Unset Implicit Arguments.

(* ===================================================================== *)
(** ** Notions used in the statements *)
(* ===================================================================== *)

Section ChunkerNotions.

Variable encode_len : string -> nat.

(** The sum of the token counts of the members of a list, each counted on
    its own, as the loops of the chunker add them up. *)
Definition sum_tokens (l : list string) : Z :=
  fold_right (fun s acc => tokens encode_len s + acc) 0 l.

(** The states the loop of [create_chunks] passes through. *)
Definition reachable (chunk_size chunk_overlap : Z) (st : chunker) : Prop :=
  exists sentences,
    st = chunk_sentences encode_len chunk_size chunk_overlap sentences.

(** What the chunker emits for its pending sentences before it turns to a
    long sentence. *)
Definition flushed (st : chunker) : list (origin * string) :=
  match current_chunk st with
  | [] => []
  | _ => [(Packed, PyStr.join (current_chunk st))]
  end.

(** A group of words [_split_long_sentence] can emit as one piece. *)
Definition word_group (max_tokens : Z) (g : list string) : Prop :=
  g <> [] /\ (sum_tokens g <= max_tokens \/ exists w, g = [w]).

(** What a sentence contributes to the chunks: itself, or its words when
    it has more tokens than [chunk_size] and is split. *)
Definition atoms (chunk_size : Z) (sentence : string) : list string :=
  if tokens encode_len sentence >? chunk_size
  then PyStr.split sentence
  else [sentence].

(** What the loop of [create_chunks] keeps true of a packed chunk: it is
    the join of sentences whose token counts add up to at most
    [chunk_size] plus the overlap. *)
Definition packed_within (chunk_size chunk_overlap : Z) (c : string) : Prop :=
  exists sentences,
    sentences <> [] /\ c = PyStr.join sentences /\
    sum_tokens sentences <= chunk_size + Z.max 0 chunk_overlap.

(** What the loop keeps true: the counter is the sum of the token counts
    of the pending sentences, which stays within [chunk_size] plus the
    overlap, and so does every packed chunk emitted so far. *)
Definition packing_invariant (chunk_size chunk_overlap : Z) (st : chunker)
  : Prop :=
  current_tokens st = sum_tokens (current_chunk st)
  /\ (current_chunk st = []
      \/ sum_tokens (current_chunk st) <= chunk_size + Z.max 0 chunk_overlap)
  /\ forall c, In (Packed, c) (chunks st) ->
               packed_within chunk_size chunk_overlap c.

(** The chunks emitted so far are the joins of groups of atoms that,
    followed by the pending sentences, list the atoms of the sentences
    [seen] in order. *)
Definition covers (chunk_size : Z) (st : chunker) (seen : list string)
  : Prop :=
  exists groups,
    map snd (chunks st) = map PyStr.join groups
    /\ Forall (fun g => g <> []) groups
    /\ concat groups ++ current_chunk st = flat_map (atoms chunk_size) seen.

End ChunkerNotions.


(** Every character of a string passes a test. *)
Fixpoint all_chars (p : ascii -> bool) (s : string) : bool :=
  match s with
  | EmptyString => true
  | String c r => p c && all_chars p r
  end.

(** A character [clean_text] can leave in its result: no control
    character, and no whitespace other than the space itself. *)
Definition clean_char (c : ascii) : bool :=
  negb (PyStr.is_control c)
  && (negb (PyStr.is_space c) || Ascii.eqb c " ").

(** A character [clean_text] leaves nothing of: whitespace or control. *)
Definition blank_char (c : ascii) : bool :=
  PyStr.is_space c || PyStr.is_control c.

(** What the loop of [create_chunks] keeps true when no sentence is
    empty: nothing pending and nothing emitted is empty. *)
Definition nothing_empty (st : chunker) : Prop :=
  Forall (fun s => PyStr.is_empty s = false) (current_chunk st)
  /\ Forall (fun c => PyStr.is_empty (snd c) = false) (chunks st).

Section FaissNotions.

Context {F : Type} {ops : FloatOps F}.

Import FaissDB.

(** The ids whose vectors the flat index holds, row by row. *)
Definition index_ids (db : FAISSVectorDB F) : list string :=
  match index db with
  | Some rows => map row_owner rows
  | None => []
  end.

(** The ids of the metadata store, in the order [search] numbers them. *)
Definition stored_ids (db : FAISSVectorDB F) : list string :=
  Dict.keys (documents db).

Definition row_count (db : FAISSVectorDB F) : nat :=
  match index db with
  | Some rows => ntotal rows
  | None => 0%nat
  end.

(** Row [i] holds the vector of the [i]-th id of the metadata store; in
    particular there are as many rows as stored documents.  This is what
    [search] relies on when it resolves row numbers to ids. *)
Definition in_step (db : FAISSVectorDB F) : Prop :=
  exists rows,
    index db = Some rows /\ map row_owner rows = stored_ids db.

(** Every id present on one side is present on the other. *)
Definition same_ids (db : FAISSVectorDB F) : Prop :=
  forall i, In i (index_ids db) <-> In i (stored_ids db).

Definition embedding_of (doc : document F) : list F :=
  match doc_embedding doc with Some e => e | None => [] end.

(** The value [add_documents] writes into the metadata store. *)
Definition record_of (doc : document F) : stored :=
  mkStored (match doc_text doc with Some t => t | None => "" end)
           (match doc_metadata doc with Some m => m | None => [] end).

(** The id an element is filed under, given the store at its turn. *)
Definition id_in (store : Dict.t stored) (doc : document F) : string :=
  match doc_id doc with
  | Some i => i
  | None => PyStr.str_of_nat (length store)
  end.

(** The ids the elements of one call are filed under, in order. *)
Fixpoint assigned_ids (store : Dict.t stored) (docs : list (document F))
  : list string :=
  match docs with
  | [] => []
  | d :: r =>
      id_in store d
      :: assigned_ids (Dict.set (id_in store d) (record_of d) store) r
  end.

(** The metadata store after the loop of one call. *)
Fixpoint store_after (store : Dict.t stored) (docs : list (document F))
  : Dict.t stored :=
  match docs with
  | [] => store
  | d :: r => store_after (Dict.set (id_in store d) (record_of d) store) r
  end.

(** The vector of an element as it is handed to FAISS. *)
Definition fitted (dim : nat) (doc : document F) : list F :=
  if (length (embedding_of doc) =? dim)%nat
  then embedding_of doc
  else fit dim (embedding_of doc).

Definition mismatch_warning : log_entry :=
  (WARNING, "Embedding dimension mismatch").

(** The warnings of the loop of one call. *)
Definition warnings (dim : nat) (docs : list (document F))
  : list log_entry :=
  flat_map (fun d => if (length (embedding_of d) =? dim)%nat
                     then [] else [mismatch_warning]) docs.

(** The rows one call appends. *)
Definition new_rows (db : FAISSVectorDB F) (docs : list (document F))
  : list (row F) :=
  map (fun e => mkRow (fst e) (as_row (snd e)))
      (combine (assigned_ids (documents db) docs)
               (map (fitted (dimension db)) docs)).

End FaissNotions.

Section EmbeddingNotions.

Context {F : Type} {ops : FloatOps F}.

Import Embedding.

(** What the program expects of the remote endpoint: a successful
    response lists one embedding per input text, in the order of the
    input ([embeds t v]: [v] is an embedding the endpoint gives for
    [t]). *)
Definition answers_in_order
           (embeddings_create : list event -> request -> option (list (list F)))
           (embeds : string -> list F -> Prop) : Prop :=
  (forall h m batch data,
      embeddings_create h (Batch m batch) = Some data ->
      Forall2 embeds batch data)
  /\ (forall h m text e others,
         embeddings_create h (Single m text) = Some (e :: others) ->
         embeds text e).

(** The endpoint never gives an embedding for [text] on its own. *)
Definition refuses
           (embeddings_create : list event -> request -> option (list (list F)))
           (text : string) : Prop :=
  forall h m e others,
    embeddings_create h (Single m text) <> Some (e :: others).

(** The endpoint never answers a batch. *)
Definition refuses_batches
           (embeddings_create : list event -> request -> option (list (list F)))
  : Prop :=
  forall h m batch, embeddings_create h (Batch m batch) = None.

(** The vector the fallback loop appends for [text] when it starts from
    [svc]. *)
Definition fallback_vector
           (embeddings_create : list event -> request -> option (list (list F)))
           (svc : EmbeddingService) (text : string) : list F :=
  match fst (generate_embedding embeddings_create svc text) with
  | Ok embedding => embedding
  | Raised _ => zero_vector
  end.

(** [n] requests for the same thing, with a wait between two of them. *)
Fixpoint tries (r : request) (n : nat) : list event :=
  match n with
  | O => []
  | S k =>
      match k with
      | O => [Called r]
      | S _ => Called r :: Slept :: tries r k
      end
  end.

(** The texts of the batch requests among some events, request by
    request. *)
Definition batch_inputs (events : list event) : list (list string) :=
  flat_map (fun e => match e with
                     | Called (Batch _ batch) => [batch]
                     | _ => []
                     end) events.

(** The single texts requested among some events. *)
Definition single_inputs (events : list event) : list string :=
  flat_map (fun e => match e with
                     | Called (Single _ text) => [text]
                     | _ => []
                     end) events.

(** The endpoint answers every batch request. *)
Definition answers_batches
           (embeddings_create : list event -> request -> option (list (list F)))
  : Prop :=
  forall h m batch, embeddings_create h (Batch m batch) <> None.

(** No scored element is in front of a strictly greater neighbour. *)
Fixpoint descending (flt : F -> F -> bool) (l : list (scored F)) : Prop :=
  match l with
  | [] => True
  | x :: r =>
      match r with
      | [] => True
      | y :: _ => flt (similarity x) (similarity y) = false /\ descending flt r
      end
  end.

(** The kernels [cosine_similarity] calls, on float64 arrays: [==] and [*]
    are those of binary64, and [np.linalg.norm] ends in a square root
    ([sqrt(x.dot(x))]). *)
Definition binary64_norms (ops : FloatOps float) : Prop :=
  (forall x, @fis_zero float ops x = PrimFloat.eqb x PrimFloat.zero)
  /\ (forall x y, @fmul float ops x y = PrimFloat.mul x y)
  /\ forall v, exists s, @np_norm float ops v = PrimFloat.sqrt s.

(** The vector at the place of [text] is an embedding of the text; or it
    is the zero vector, the batch request that held the text failed and
    [generate_embedding] failed for the text. *)
Definition placed
           (embeddings_create : list event -> request -> option (list (list F)))
           (embeds : string -> list F -> Prop)
           (text : string) (v : list F) : Prop :=
  embeds text v
  \/ (v = zero_vector
      /\ (exists h m batch,
             In text batch /\ embeddings_create h (Batch m batch) = None)
      /\ exists svc e,
          fst (generate_embedding embeddings_create svc text) = Raised e).

(** An output vector is acceptable for a text. *)
Definition embedded_or_zero (embeds : string -> list F -> Prop)
           (text : string) (v : list F) : Prop :=
  embeds text v \/ v = zero_vector.

End EmbeddingNotions.

(** The character occurs in the string. *)
Fixpoint has_char (c : ascii) (s : string) : bool :=
  match s with
  | EmptyString => false
  | String a r => Ascii.eqb a c || has_char c r
  end.

Section PipelineNotions.

Context {F : Type} {ops : FloatOps F}.

(** The vector index a service works on holds zero entries: it is
    initialised without rows, or it is not initialised yet and will start
    without rows. *)
Definition holds_no_entries (env : environment F)
           (vs : VectorDB.VectorDBService F) : Prop :=
  match VectorDB.db vs with
  | Some d => FaissDB.index d = Some []
  | None =>
      VectorDB.lower (vector_db_type env) = "chroma"
      /\ (on_disk env = FaissDB.NoFiles
          \/ on_disk env = FaissDB.Unreadable
          \/ exists docs, on_disk env = FaissDB.Saved [] docs)
  end.

(** [create_chunks] raises on the text of the blocks of a page. *)
Definition page_raises (encode_raises : string -> bool)
           (encode_len : string -> nat) (chunk_size : Z)
           (pb : Notion.page * list Notion.block) : bool :=
  TextProcessor.create_chunks_raises
    encode_raises encode_len
    (String.concat (Notion.line_feed ++ Notion.line_feed)
                   (Notion.text_content (snd pb)))
    chunk_size.

(** The index a service works on: the one it holds, or the one its first
    call will initialise from the files. *)
Definition works_on (env : environment F) (vs : VectorDB.VectorDBService F)
           (d : FaissDB.FAISSVectorDB F) : Prop :=
  VectorDB.db vs = Some d
  \/ (VectorDB.db vs = None
      /\ VectorDB.lower (vector_db_type env) = "chroma"
      /\ d = FaissDB.initialize (FaissDB.new (on_disk env))).

(** A chunk with the id [index_chunks] gives it. *)
Definition with_id (source_id : string) (c : Indexing.chunk)
  : string * Indexing.chunk :=
  (Indexing._generate_chunk_id source_id c, c).

(** The document [index_chunks] builds for a selected chunk and its
    embedding. *)
Definition document_for (md5_hexdigest : string -> string)
           (source_id : string) (ic : string * Indexing.chunk)
           (embedding : list F) : FaissDB.document F :=
  FaissDB.mkDocument
    (Some (fst ic)) (Some (Indexing.chunk_text (snd ic))) (Some embedding)
    (Some (Dict.set "content_hash"
             (PStr (md5_hexdigest (Indexing.chunk_text (snd ic))))
             (Dict.set "source_id" (PStr source_id)
                       (Indexing.metadata_of (snd ic))))).

(** ... and what the metadata store keeps of it. *)
Definition stored_chunk (md5_hexdigest : string -> string)
           (source_id : string) (c : Indexing.chunk) : FaissDB.stored :=
  FaissDB.mkStored
    (Indexing.chunk_text c)
    (Dict.set "content_hash"
       (PStr (md5_hexdigest (Indexing.chunk_text c)))
       (Dict.set "source_id" (PStr source_id) (Indexing.metadata_of c))).

(** The id of the chunk is stored and the stored digest is not the digest
    of the chunk's text. *)
Definition changed (md5_hexdigest : string -> string)
           (d : FaissDB.FAISSVectorDB F) (source_id : string)
           (c : Indexing.chunk) : bool :=
  match FaissDB.get_document d (Indexing._generate_chunk_id source_id c) with
  | Some existing => Indexing._has_content_changed md5_hexdigest existing c
  | None => false
  end.

(** The id of the chunk is stored with the digest of the chunk's text. *)
Definition unchanged (md5_hexdigest : string -> string)
           (d : FaissDB.FAISSVectorDB F) (source_id : string)
           (c : Indexing.chunk) : bool :=
  match FaissDB.get_document d (Indexing._generate_chunk_id source_id c) with
  | Some existing =>
      negb (Indexing._has_content_changed md5_hexdigest existing c)
  | None => false
  end.

(** The chunks a run selects for embedding, and the chunks it counts as
    skipped. *)
Definition selected_chunks (md5_hexdigest : string -> string)
           (d : FaissDB.FAISSVectorDB F) (source_id : string)
           (force_reindex : bool) (chunks : list Indexing.chunk)
  : list Indexing.chunk :=
  if force_reindex then chunks
  else filter (changed md5_hexdigest d source_id) chunks.

Definition skipped_chunks (md5_hexdigest : string -> string)
           (d : FaissDB.FAISSVectorDB F) (source_id : string)
           (force_reindex : bool) (chunks : list Indexing.chunk)
  : list Indexing.chunk :=
  if force_reindex then []
  else filter (unchanged md5_hexdigest d source_id) chunks.

(** The documents a run hands to [add_documents]. *)
Definition documents_for (md5_hexdigest : string -> string)
           (source_id : string) (selected : list Indexing.chunk)
           (embeddings : list (list F)) : list (FaissDB.document F) :=
  map (fun p => document_for md5_hexdigest source_id (fst p) (snd p))
      (combine (map (with_id source_id) selected) embeddings).

End PipelineNotions.

(* ===================================================================== *)
(** ** Sample data for concrete runs *)
(* ===================================================================== *)

Module Sample.

Import FaissDB.

Definition fresh_db : FAISSVectorDB float := initialize (new (@NoFiles float)).

Definition doc_a : document float :=
  mkDocument (Some "a") (Some "alpha") (Some [1%float]) None.

Definition doc_b : document float :=
  mkDocument (Some "b") (Some "beta") (Some [0%float; 1%float])
             (Some [("page_title", PStr "B")]).

(** The index after [add_documents([a, b])]. *)
Definition db_ab : FAISSVectorDB float :=
  snd (add_documents fresh_db [doc_a; doc_b]).

(** ... and after [delete_documents(["a"])]. *)
Definition db_after_delete : FAISSVectorDB float :=
  snd (delete_documents db_ab ["a"]).

Definition rows_of (db : FAISSVectorDB float) : list (row float) :=
  match index db with Some rows => rows | None => [] end.

(** Candidates of [find_similar]; the last one has an embedding of
    another length. *)
Definition near : Embedding.item float :=
  Embedding.mkItem (Some [1%float; 0%float]) [("id", PStr "near")].

Definition across : Embedding.item float :=
  Embedding.mkItem (Some [0%float; 1%float]) [("id", PStr "across")].

Definition between : Embedding.item float :=
  Embedding.mkItem (Some [1%float; 1%float]) [("id", PStr "between")].

Definition short : Embedding.item float :=
  Embedding.mkItem (Some [1%float]) [("id", PStr "short")].

Definition unit_vector : list float := 1%float :: repeat 0%float 1535.

(** An endpoint that answers every request, each text with
    [unit_vector]. *)
Definition steady (h : list Embedding.event) (r : Embedding.request)
  : option (list (list float)) :=
  match r with
  | Embedding.Single _ _ => Some [unit_vector]
  | Embedding.Batch _ texts => Some (map (fun _ => unit_vector) texts)
  end.

(** An endpoint that refuses every batch and the single text ["bad"]. *)
Definition flaky (h : list Embedding.event) (r : Embedding.request)
  : option (list (list float)) :=
  match r with
  | Embedding.Single _ text =>
      if String.eqb text "bad" then None else Some [unit_vector]
  | Embedding.Batch _ _ => None
  end.

Definition gives_unit_vector (text : string) (v : list float) : Prop :=
  v = unit_vector.

Definition embedder : Embedding.EmbeddingService :=
  Embedding.mkService "text-embedding-3-small" [].

Definition env : environment float :=
  mkEnv "chroma" "gpt-4-turbo-preview" 1500 (@NoFiles float)
        "2024-01-01T00:00:00".

(** A stand-in for the MD5 digest. *)
Definition digest (text : string) : string := ("md5:" ++ text)%string.

(** A service that has not touched its vector index yet. *)
Definition indexer : Indexing.IndexingService float :=
  Indexing.mkIndexing embedder (VectorDB.mkVectorDB None).

Definition chunk0 : Indexing.chunk :=
  Indexing.mkChunk "first chunk" (Some [("chunk_index", PInt 0)]).

Definition chunk1 : Indexing.chunk :=
  Indexing.mkChunk "second chunk" (Some [("chunk_index", PInt 1)]).

Definition asker : RAG.RAGService float :=
  RAG.mkRAG embedder (VectorDB.mkVectorDB None).

Definition chat (model system user : string) (temperature : float)
           (max_tokens : Z) : option string := Some "an answer".

Definition two_decimals (x : float) : string := "0.00".

(** An endpoint that answers every text with a vector of one entry. *)
Definition terse (h : list Embedding.event) (r : Embedding.request)
  : option (list (list float)) :=
  match r with
  | Embedding.Single _ _ => Some [[1%float]]
  | Embedding.Batch _ texts => Some (map (fun _ => [1%float]) texts)
  end.

Definition gives_one (text : string) (v : list float) : Prop :=
  v = [1%float].

(** A service on an initialised index without entries. *)
Definition indexer_ready : Indexing.IndexingService float :=
  Indexing.mkIndexing embedder (VectorDB.mkVectorDB (Some fresh_db)).

(** [chunk1] with another text. *)
Definition chunk1_edited : Indexing.chunk :=
  Indexing.mkChunk "second chunk, edited" (Some [("chunk_index", PInt 1)]).

Definition chunk2 : Indexing.chunk :=
  Indexing.mkChunk "third chunk" (Some [("chunk_index", PInt 2)]).

(** [indexer_ready] after a run with [force_reindex] over [chunk0] and
    [chunk1], and the index it then works on. *)
Definition indexer_filled : Indexing.IndexingService float :=
  snd (Indexing.index_chunks terse digest env indexer_ready
                             [chunk0; chunk1] "page" true).

Definition db_filled : FAISSVectorDB float :=
  match VectorDB.db (Indexing.vector_service indexer_filled) with
  | Some d => d
  | None => fresh_db
  end.

(** A service that answers from the index of [indexer_filled]. *)
Definition asker_filled : RAG.RAGService float :=
  RAG.mkRAG embedder (Indexing.vector_service indexer_filled).

(** [last > max_length * 0.8] on exact numbers. *)
Definition four_fifths (last max_length : Z) : bool :=
  4 * max_length <? 5 * last.

(** A page with a title and one paragraph. *)
Definition page_one : Notion.page :=
  Notion.mkPage "page"
                [("Name", Notion.mkProperty (Some "title") ["Notes"])]
                None None None.

Definition paragraph : Notion.block :=
  Notion.mkBlock (Some "paragraph") ["Hello world."; "More text."] "" [].

(** A paragraph that holds the text of a special token. *)
Definition special_paragraph : Notion.block :=
  Notion.mkBlock (Some "paragraph") ["See <|endoftext|> here."] "" [].

(** A tokenizer that refuses the strings holding [<|endoftext|>]. *)
Fixpoint holds_special (s : string) : bool :=
  match s with
  | EmptyString => false
  | String _ r => String.prefix "<|endoftext|>" s || holds_special r
  end.

(** An endpoint that refuses every batch that holds ["bad"] and the
    single text ["bad"], and answers every other text with a vector of one
    entry. *)
Definition moody (h : list Embedding.event) (r : Embedding.request)
  : option (list (list float)) :=
  match r with
  | Embedding.Single _ text =>
      if String.eqb text "bad" then None else Some [[1%float]]
  | Embedding.Batch _ texts =>
      if existsb (String.eqb "bad") texts then None
      else Some (map (fun _ => [1%float]) texts)
  end.

(** How many texts each event of a history sends: a wait sends none. *)
Definition sizes (history : list Embedding.event) : list nat :=
  map (fun e => match e with
                | Embedding.Called (Embedding.Batch _ texts) => length texts
                | Embedding.Called (Embedding.Single _ _) => 1%nat
                | Embedding.Slept => 0%nat
                end) history.

(** Three documents in three directions, the first id used twice. *)
Definition doc_in (id text : string) (embedding : list float)
  : document float :=
  mkDocument (Some id) (Some text) (Some embedding) None.

Definition db_with_duplicate : FAISSVectorDB float :=
  snd (add_documents fresh_db
         [doc_in "a" "alpha" [1%float];
          doc_in "b" "beta" [0%float; 1%float];
          doc_in "a" "alpha again" [0%float; 0%float; 1%float];
          doc_in "c" "gamma" [0%float; 0%float; 0%float; 1%float]]).

End Sample.

(* ===================================================================== *)
(** ** Text chunker: properties *)
(* ===================================================================== *)

Section ChunkerFacts.

Variable encode_len : string -> nat.

Local Abbreviation tok := (tokens encode_len).
Local Abbreviation total := (sum_tokens encode_len).

Lemma sum_tokens_app (a b : list string) :
  total (a ++ b) = total a + total b.
Proof.
  induction a as [|x a IH]; simpl; [reflexivity|]. rewrite IH. lia.
Qed.

Lemma sum_tokens_nonneg (l : list string) : 0 <= total l.
Proof.
  induction l as [|x l IH]; simpl; [lia|]. unfold tokens. lia.
Qed.

(** The backward walk takes a prefix of what it is given and stops either
    at the end or in front of a sentence that does not fit. *)
Lemma overlap_walk_spec (chunk_overlap : Z) (rev_sentences : list string) :
  forall acc n,
  exists taken left_over,
    rev_sentences = taken ++ left_over /\
    overlap_walk encode_len chunk_overlap rev_sentences acc n
    = (List.rev taken ++ acc, n + total taken) /\
    (n <= chunk_overlap -> n + total taken <= chunk_overlap) /\
    match left_over with
    | [] => True
    | s :: _ => n + total taken + tok s > chunk_overlap
    end.
Proof.
  induction rev_sentences as [|s rest IH]; intros acc n.
  - exists [], []. simpl. repeat split; try lia. f_equal; lia.
  - simpl. destruct (n + tok s <=? chunk_overlap) eqn:Hfit.
    + apply Z.leb_le in Hfit.
      destruct (IH (s :: acc) (n + tok s)) as (taken & left_over & -> & Hw & Hle & Hstop).
      exists (s :: taken), left_over. simpl. repeat split.
      * rewrite Hw. rewrite <- app_assoc. simpl. f_equal. lia.
      * intros _. specialize (Hle Hfit). lia.
      * destruct left_over; [exact I|]. lia.
    + apply Z.leb_gt in Hfit.
      exists [], (s :: rest). simpl. repeat split; try lia. f_equal; lia.
Qed.

Lemma keep_overlap_spec (chunk_overlap : Z) (current : list string) :
  exists dropped seed,
    current = dropped ++ seed /\
    keep_overlap encode_len chunk_overlap current = (seed, total seed) /\
    (0 < chunk_overlap -> total seed <= chunk_overlap) /\
    (0 < chunk_overlap ->
     forall before s, dropped = before ++ [s] ->
                      total seed + tok s > chunk_overlap) /\
    (chunk_overlap <= 0 -> seed = []).
Proof.
  unfold keep_overlap. destruct (chunk_overlap >? 0) eqn:Hpos.
  - apply Z.gtb_lt in Hpos.
    destruct (overlap_walk_spec chunk_overlap (List.rev current) [] 0)
      as (taken & left_over & Hsplit & Hw & Hle & Hstop).
    exists (List.rev left_over), (List.rev taken). repeat split.
    + rewrite <- rev_app_distr, <- Hsplit, rev_involutive. reflexivity.
    + rewrite Hw, app_nil_r. f_equal.
      clear. induction taken as [|x t IH]; simpl; [reflexivity|].
      rewrite sum_tokens_app. simpl. lia.
    + intros _.
      assert (total (List.rev taken) = total taken) as ->.
      { clear. induction taken as [|x t IH]; simpl; [reflexivity|].
        rewrite sum_tokens_app. simpl. lia. }
      lia.
    + intros _ before s Hd.
      assert (total (List.rev taken) = total taken) as ->.
      { clear. induction taken as [|x t IH]; simpl; [reflexivity|].
        rewrite sum_tokens_app. simpl. lia. }
      assert (left_over = s :: List.rev before) as ->.
      { rewrite <- (rev_involutive left_over), Hd, rev_app_distr.
        reflexivity. }
      lia.
    + intros Hle0. lia.
  - rewrite Z.gtb_ltb in Hpos. apply Z.ltb_ge in Hpos.
    exists current, []. repeat split.
    + rewrite app_nil_r. reflexivity.
    + intros Hlt. lia.
    + intros Hlt. lia.
Qed.


(** An empty pending chunk always comes with a token count of zero. *)
Lemma chunk_sentence_keeps_zero (chunk_size chunk_overlap : Z)
      (st : chunker) (sentence : string) :
  (current_chunk st = [] -> current_tokens st = 0) ->
  current_chunk (chunk_sentence encode_len chunk_size chunk_overlap st sentence) = [] ->
  current_tokens (chunk_sentence encode_len chunk_size chunk_overlap st sentence) = 0.
Proof.
  intros Hinv. unfold chunk_sentence.
  destruct (tok sentence >? chunk_size).
  - destruct (current_chunk st) eqn:Hc; simpl; intros Hnil.
    + rewrite Hc in Hnil. auto.
    + reflexivity.
  - simpl. intros Hnil. apply app_eq_nil in Hnil.
    destruct Hnil as [_ Hnil]. discriminate.
Qed.

Lemma reachable_zero (chunk_size chunk_overlap : Z) (st : chunker) :
  reachable encode_len chunk_size chunk_overlap st ->
  current_chunk st = [] -> current_tokens st = 0.
Proof.
  intros [sentences ->]. unfold chunk_sentences.
  assert (forall l st0,
             (current_chunk st0 = [] -> current_tokens st0 = 0) ->
             current_chunk (fold_left (chunk_sentence encode_len chunk_size chunk_overlap) l st0) = [] ->
             current_tokens (fold_left (chunk_sentence encode_len chunk_size chunk_overlap) l st0) = 0) as Hgen.
  { induction l as [|s l IH]; intros st0 H0; simpl; [exact H0|].
    apply IH. apply chunk_sentence_keeps_zero. exact H0. }
  apply Hgen. reflexivity.
Qed.

(** The loop of [_split_long_sentence] keeps finished groups and a pending
    group of words; both are groups in the sense of [word_group]. *)
Lemma split_words_spec (max_tokens : Z) (words : list string) :
  forall done pending,
    Forall (word_group encode_len max_tokens) done ->
    (pending = [] \/ word_group encode_len max_tokens pending) ->
    exists done' pending',
      fold_left (split_word encode_len max_tokens) words
                (mkSplitter (map PyStr.join done) pending (total pending))
      = mkSplitter (map PyStr.join done') pending' (total pending') /\
      Forall (word_group encode_len max_tokens) done' /\
      (pending' = [] \/ word_group encode_len max_tokens pending') /\
      concat done' ++ pending' = concat done ++ pending ++ words.
Proof.
  induction words as [|w words IH]; intros done pending Hdone Hpend.
  - exists done, pending. simpl. rewrite app_nil_r. auto.
  - simpl. unfold split_word at 2. simpl.
    destruct (total pending + tok w >? max_tokens) eqn:Hover.
    + assert (word_group encode_len max_tokens [w]) as Hw.
      { split; [discriminate|]. right. exists w. reflexivity. }
      assert (tok w = total [w]) as Htw by (simpl; lia).
      destruct pending as [|p pending].
      * rewrite Htw.
        destruct (IH done [w] Hdone (or_intror Hw))
          as (done' & pending' & Hrun & Hd & Hp & Hcat).
        exists done', pending'. repeat split; auto.
      * destruct Hpend as [Hnil|Hgrp]; [discriminate|].
        assert (map PyStr.join done ++ [PyStr.join (p :: pending)]
                = map PyStr.join (done ++ [p :: pending])) as ->.
        { rewrite map_app. reflexivity. }
        rewrite Htw.
        destruct (IH (done ++ [p :: pending]) [w]) as (done' & pending' & Hrun & Hd & Hp & Hcat).
        { apply Forall_app. split; [exact Hdone|]. constructor; [exact Hgrp|constructor]. }
        { right. exact Hw. }
        exists done', pending'. repeat split; auto.
        rewrite Hcat, concat_app. simpl. rewrite app_nil_r, <- !app_assoc.
        reflexivity.
    + rewrite Z.gtb_ltb in Hover. apply Z.ltb_ge in Hover.
      assert (total pending + tok w = total (pending ++ [w])) as ->.
      { rewrite sum_tokens_app. simpl. lia. }
      destruct (IH done (pending ++ [w]) Hdone) as (done' & pending' & Hrun & Hd & Hp & Hcat).
      { right. split.
        - intros Hnil. apply app_eq_nil in Hnil. destruct Hnil; discriminate.
        - left. rewrite sum_tokens_app. simpl. lia. }
      exists done', pending'. repeat split; auto.
      rewrite Hcat, <- !app_assoc. reflexivity.
Qed.

Lemma _split_long_sentence_groups (sentence : string) (max_tokens : Z) :
  exists groups,
    concat groups = PyStr.split sentence /\
    Forall (word_group encode_len max_tokens) groups /\
    _split_long_sentence encode_len sentence max_tokens
    = map PyStr.join groups.
Proof.
  unfold _split_long_sentence.
  destruct (split_words_spec max_tokens (PyStr.split sentence) [] [])
    as (done & pending & Hrun & Hd & Hp & Hcat); [constructor|left; reflexivity|].
  simpl in Hrun, Hcat. rewrite Hrun. unfold split_finish. simpl.
  destruct pending as [|p pending].
  - exists done. rewrite app_nil_r in Hcat. auto.
  - exists (done ++ [p :: pending]). repeat split.
    + rewrite concat_app. simpl. rewrite app_nil_r. exact Hcat.
    + apply Forall_app. split; [exact Hd|].
      destruct Hp as [Hnil|Hgrp]; [discriminate|].
      constructor; [exact Hgrp|constructor].
    + rewrite map_app. reflexivity.
Qed.

(** C5: when a chunk is closed because the next sentence would overflow
    it, the chunk is emitted and the next chunk starts with a suffix
    [seed] of the sentences of the emitted chunk, followed by the new
    sentence.  The suffix consists of whole sentences, its token counts
    add up to at most [chunk_overlap], the sentence in front of it (if
    there is one) would exceed [chunk_overlap], and without overlap the
    suffix is empty. *)
Theorem overlap_seeds_next_chunk (chunk_size chunk_overlap : Z)
        (st : chunker) (sentence : string) :
  current_chunk st <> [] ->
  tok sentence <= chunk_size ->
  current_tokens st + tok sentence > chunk_size ->
  exists dropped seed,
    current_chunk st = dropped ++ seed /\
    chunk_sentence encode_len chunk_size chunk_overlap st sentence
    = mkChunker (chunks st ++ [(Packed, PyStr.join (current_chunk st))])
                (seed ++ [sentence]) (total seed + tok sentence) /\
    (0 < chunk_overlap -> total seed <= chunk_overlap) /\
    (0 < chunk_overlap ->
     forall before s, dropped = before ++ [s] ->
                      total seed + tok s > chunk_overlap) /\
    (chunk_overlap <= 0 -> seed = []).
Proof.
  intros Hne Hshort Hover.
  destruct (keep_overlap_spec chunk_overlap (current_chunk st))
    as (dropped & seed & Hsplit & Hkeep & Hle & Hstop & Hnone).
  exists dropped, seed. repeat split; auto.
  unfold chunk_sentence.
  assert ((tok sentence >? chunk_size) = false) as ->.
  { rewrite Z.gtb_ltb. apply Z.ltb_ge. lia. }
  assert ((current_tokens st + tok sentence >? chunk_size) = true) as ->.
  { rewrite Z.gtb_ltb. apply Z.ltb_lt. lia. }
  destruct (current_chunk st) as [|c cs] eqn:Hc; [contradiction|].
  rewrite Hkeep. reflexivity.
Qed.

(** What the long-sentence path does: a sentence with more tokens than
    [chunk_size] makes the chunker emit the pending chunk (if any), then
    the pieces of the sentence, and go on with an empty pending chunk and
    a token count of zero.  The pieces are the space-joined members of a
    division of the words of the sentence into consecutive groups; the
    token counts of the words of a group add up to at most [chunk_size],
    unless the group is a single word. *)
Theorem long_sentence_split (chunk_size chunk_overlap : Z)
        (st : chunker) (sentence : string) :
  reachable encode_len chunk_size chunk_overlap st ->
  tok sentence > chunk_size ->
  exists groups,
    concat groups = PyStr.split sentence /\
    Forall (word_group encode_len chunk_size) groups /\
    _split_long_sentence encode_len sentence chunk_size
    = map PyStr.join groups /\
    chunk_sentence encode_len chunk_size chunk_overlap st sentence
    = mkChunker
        (chunks st ++ flushed st
         ++ map (pair LongSplit) (map PyStr.join groups))
        [] 0.
Proof.
  intros Hreach Hlong.
  destruct (_split_long_sentence_groups sentence chunk_size)
    as (groups & Hcat & Hgrp & Hsplit).
  exists groups. repeat split; auto.
  unfold chunk_sentence, flushed.
  assert ((tok sentence >? chunk_size) = true) as ->.
  { rewrite Z.gtb_ltb. apply Z.ltb_lt. lia. }
  rewrite Hsplit.
  destruct (current_chunk st) as [|c cs] eqn:Hc; simpl.
  - rewrite Hc, (reachable_zero _ _ _ Hreach Hc). reflexivity.
  - rewrite <- app_assoc. reflexivity.
Qed.

(** C4: a sentence that is one word with more tokens than [chunk_size] is
    not split: [_split_long_sentence] returns the word whole, and
    [create_chunks] emits it, after the pending chunk if any, as a
    sub-chunk of more than [chunk_size] tokens.  This holds for every
    tokenizer, in every state of the loop. *)
Theorem long_sentence_piece_over_size (chunk_size chunk_overlap : Z)
        (st : chunker) (word : string) :
  PyStr.split word = [word] ->
  tok word > chunk_size ->
  _split_long_sentence encode_len word chunk_size = [word]
  /\ chunks (chunk_sentence encode_len chunk_size chunk_overlap st word)
     = chunks st ++ flushed st ++ [(LongSplit, word)]
  /\ exists piece,
      In (LongSplit, piece)
         (chunks (chunk_sentence encode_len chunk_size chunk_overlap st
                                 word))
      /\ tok piece > chunk_size.
Proof.
  intros Hword Hlong.
  assert ((tok word >? chunk_size) = true) as Hgt
    by (rewrite Z.gtb_ltb; apply Z.ltb_lt; lia).
  assert (_split_long_sentence encode_len word chunk_size = [word])
    as Hsplit.
  { unfold _split_long_sentence. rewrite Hword. cbn [fold_left].
    unfold split_word. cbn [sp_tokens sp_current sp_chunks].
    rewrite Z.add_0_l. fold tok. rewrite Hgt.
    unfold split_finish. cbn [sp_current sp_chunks app].
    unfold PyStr.join. cbn [String.concat]. reflexivity. }
  assert (chunks (chunk_sentence encode_len chunk_size chunk_overlap st word)
          = chunks st ++ flushed st ++ [(LongSplit, word)]) as Hchunks.
  { unfold chunk_sentence, flushed. fold tok. rewrite Hgt, Hsplit.
    destruct (current_chunk st) as [|c cs]; cbn [chunks map].
    - reflexivity.
    - rewrite <- app_assoc. reflexivity. }
  split; [exact Hsplit|]. split; [exact Hchunks|].
  exists word. split; [|exact Hlong].
  rewrite Hchunks. apply in_or_app. right. apply in_or_app. right.
  left. reflexivity.
Qed.


Lemma chunk_sentence_keeps_packing (chunk_size chunk_overlap : Z)
      (st : chunker) (sentence : string) :
  packing_invariant encode_len chunk_size chunk_overlap st ->
  packing_invariant encode_len chunk_size chunk_overlap
    (chunk_sentence encode_len chunk_size chunk_overlap st sentence).
Proof.
  unfold packing_invariant. intros (Htok & Hbound & Hchunks).
  assert (forall c,
             current_chunk st <> [] ->
             In (Packed, c)
                (chunks st ++ [(Packed, PyStr.join (current_chunk st))]) ->
             packed_within encode_len chunk_size chunk_overlap c) as Hemit.
  { intros c Hne Hin. apply in_app_or in Hin. destruct Hin as [Hin|[Heq|[]]].
    - apply Hchunks. exact Hin.
    - injection Heq as <-. exists (current_chunk st).
      destruct Hbound as [Hnil|Hle]; [contradiction|]. auto. }
  assert (forall (c : string) (l : list string),
             In (Packed, c) (map (pair LongSplit) l) -> False) as Hsplit.
  { intros c l Hin. apply in_map_iff in Hin.
    destruct Hin as (x & Heq & _). discriminate. }
  unfold chunk_sentence.
  destruct (tok sentence >? chunk_size) eqn:Hlong.
  - (* the sentence is split on its own *)
    destruct (current_chunk st) as [|c0 cs0] eqn:Hc;
      cbn [chunks current_chunk current_tokens].
    + rewrite Hc. split; [exact Htok|]. split; [left; reflexivity|].
      intros c Hin. apply in_app_or in Hin. destruct Hin as [Hin|Hin].
      * apply Hchunks. exact Hin.
      * destruct (Hsplit _ _ Hin).
    + split; [reflexivity|]. split; [left; reflexivity|].
      intros c Hin. apply in_app_or in Hin. destruct Hin as [Hin|Hin].
      * apply Hemit; [discriminate|exact Hin].
      * destruct (Hsplit _ _ Hin).
  - rewrite Z.gtb_ltb in Hlong. apply Z.ltb_ge in Hlong.
    destruct (current_tokens st + tok sentence >? chunk_size) eqn:Hover.
    + destruct (current_chunk st) as [|c0 cs0] eqn:Hc.
      * cbn [chunks current_chunk current_tokens]. rewrite Hc.
        split; [rewrite Htok; simpl; lia|]. split; [|exact Hchunks].
        right. simpl. lia.
      * destruct (keep_overlap_spec chunk_overlap (c0 :: cs0))
          as (dropped & seed & _ & Hkeep & Hle & _ & Hnone).
        rewrite Hkeep. cbn [chunks current_chunk current_tokens].
        assert (total seed <= Z.max 0 chunk_overlap) as Hseed.
        { destruct (Z.lt_ge_cases 0 chunk_overlap) as [Hpos|Hneg].
          - specialize (Hle Hpos). lia.
          - rewrite (Hnone Hneg). simpl. lia. }
        split; [rewrite sum_tokens_app; simpl; lia|].
        split; [right; rewrite sum_tokens_app; simpl; lia|].
        intros c Hin. apply Hemit; [discriminate|exact Hin].
    + rewrite Z.gtb_ltb in Hover. apply Z.ltb_ge in Hover.
      cbn [chunks current_chunk current_tokens].
      split; [rewrite sum_tokens_app, Htok; simpl; lia|].
      split; [|exact Hchunks].
      right. rewrite sum_tokens_app. simpl. lia.
Qed.

(** X1: how far a packed chunk can go: it is the join of sentences whose
    token counts add up to at most [chunk_size + chunk_overlap] (the
    overlap counted as zero when it is negative), not [chunk_size]. *)
Lemma packed_chunks_within_size_plus_overlap (text : string)
      (chunk_size chunk_overlap : Z) (c : string) :
  In (Packed, c)
     (create_chunks_tagged encode_len text chunk_size chunk_overlap) ->
  packed_within encode_len chunk_size chunk_overlap c.
Proof.
  unfold create_chunks_tagged.
  destruct (PyStr.is_empty text); [contradiction|].
  assert (forall l st,
             packing_invariant encode_len chunk_size chunk_overlap st ->
             packing_invariant encode_len chunk_size chunk_overlap
               (fold_left (chunk_sentence encode_len chunk_size chunk_overlap)
                          l st)) as Hfold.
  { induction l as [|s l IH]; intros st Hinv; simpl; [exact Hinv|].
    apply IH. apply chunk_sentence_keeps_packing. exact Hinv. }
  specialize (Hfold (_split_into_sentences (clean_text text)) start).
  destruct Hfold as (Htok & Hbound & Hchunks).
  { split; [reflexivity|]. split; [left; reflexivity|]. contradiction. }
  unfold finish, chunk_sentences.
  destruct (current_chunk (fold_left _ _ start)) as [|c0 cs0] eqn:Hc.
  - apply Hchunks.
  - intros Hin. apply in_app_or in Hin. destruct Hin as [Hin|[Heq|[]]].
    + apply Hchunks. exact Hin.
    + injection Heq as <-. exists (c0 :: cs0).
      destruct Hbound as [Hnil|Hle]; [discriminate|].
      split; [discriminate|]. split; [reflexivity|exact Hle].
Qed.

End ChunkerFacts.

(** C3 at a concrete input, for every tokenizer that counts four tokens in
    each of the sentences ["a b c."] and ["d e f."] and eight in
    ["a b c. d e f."] (as cl100k_base does): with [chunk_size = 7] and
    [chunk_overlap = 4] the second chunk is seeded with the first sentence
    and then receives the second one, so a packed chunk of eight tokens is
    emitted. *)
Theorem packed_chunk_over_size (encode_len : string -> nat) :
  encode_len "a b c." = 4%nat ->
  encode_len "d e f." = 4%nat ->
  encode_len "a b c. d e f." = 8%nat ->
  create_chunks_tagged encode_len "a b c. d e f." 7 4
  = [(Packed, "a b c."); (Packed, "a b c. d e f.")]
  /\ create_chunks encode_len "a b c. d e f." 7 4
     = ["a b c."; "a b c. d e f."]
  /\ tokens encode_len "a b c. d e f." > 7.
Proof.
  intros Hfirst Hsecond Hboth.
  assert (create_chunks_tagged encode_len "a b c. d e f." 7 4
          = [(Packed, "a b c."); (Packed, "a b c. d e f.")]) as Hrun.
  { unfold create_chunks_tagged.
    change (_split_into_sentences (clean_text "a b c. d e f."))
      with ["a b c."; "d e f."].
    cbn [PyStr.is_empty]. unfold chunk_sentences. cbn [fold_left].
    unfold chunk_sentence, keep_overlap, tokens.
    rewrite Hfirst, Hsecond. cbn. unfold tokens. rewrite Hfirst.
    reflexivity. }
  split; [exact Hrun|]. split.
  - unfold create_chunks. rewrite Hrun. reflexivity.
  - unfold tokens. rewrite Hboth. reflexivity.
Qed.

Lemma packed_chunk_over_size_witness :
  word_punct_tokens "a b c." = 4%nat
  /\ word_punct_tokens "d e f." = 4%nat
  /\ word_punct_tokens "a b c. d e f." = 8%nat
  /\ create_chunks word_punct_tokens "a b c. d e f." 7 4
     = ["a b c."; "a b c. d e f."].
Proof.
  assert (word_punct_tokens "a b c." = 4%nat) as Hfirst by reflexivity.
  assert (word_punct_tokens "d e f." = 4%nat) as Hsecond by reflexivity.
  assert (word_punct_tokens "a b c. d e f." = 8%nat) as Hboth by reflexivity.
  split; [exact Hfirst|]. split; [exact Hsecond|]. split; [exact Hboth|].
  apply (packed_chunk_over_size word_punct_tokens Hfirst Hsecond Hboth).
Defined.

(** C4 at a concrete input: the sentence ["hello."] is one word of two
    tokens, more than [chunk_size = 1], and it is the only chunk. *)
Lemma long_sentence_piece_over_size_witness :
  PyStr.split "hello." = ["hello."]
  /\ tokens word_punct_tokens "hello." > 1
  /\ create_chunks word_punct_tokens "hello." 1 0 = ["hello."]
  /\ _split_long_sentence word_punct_tokens "hello." 1 = ["hello."].
Proof.
  assert (PyStr.split "hello." = ["hello."]) as Hword by reflexivity.
  assert (tokens word_punct_tokens "hello." > 1) as Hlong by reflexivity.
  split; [exact Hword|]. split; [exact Hlong|]. split; [reflexivity|].
  apply (long_sentence_piece_over_size word_punct_tokens 1 0 start "hello."
           Hword Hlong).
Defined.

(** A piece of several words can be over the size as well: the loop adds
    up the counts of the words, not the count of the joined text.  Here
    the count of a string is its length, so the joining space counts. *)
Example joined_words_over_size :
  _split_long_sentence String.length "a b c" 2 = ["a b"; "c"]
  /\ tokens String.length "a b" > 2.
Proof. split; reflexivity. Qed.

Lemma long_sentence_split_witness :
  reachable word_punct_tokens 2 0
            (chunk_sentences word_punct_tokens 2 0 ["Hi."]) /\
  tokens word_punct_tokens "one two three." > 2 /\
  exists groups,
    concat groups = PyStr.split "one two three." /\
    Forall (word_group word_punct_tokens 2) groups /\
    _split_long_sentence word_punct_tokens "one two three." 2
    = map PyStr.join groups /\
    chunk_sentence word_punct_tokens 2 0
                   (chunk_sentences word_punct_tokens 2 0 ["Hi."])
                   "one two three."
    = mkChunker
        (chunks (chunk_sentences word_punct_tokens 2 0 ["Hi."])
         ++ flushed (chunk_sentences word_punct_tokens 2 0 ["Hi."])
         ++ map (pair LongSplit) (map PyStr.join groups))
        [] 0.
Proof.
  assert (reachable word_punct_tokens 2 0
            (chunk_sentences word_punct_tokens 2 0 ["Hi."])) as Hreach
    by (exists ["Hi."]; reflexivity).
  assert (tokens word_punct_tokens "one two three." > 2) as Hlong
    by reflexivity.
  split; [exact Hreach|]. split; [exact Hlong|].
  exact (long_sentence_split word_punct_tokens 2 0
           (chunk_sentences word_punct_tokens 2 0 ["Hi."]) "one two three."
           Hreach Hlong).
Defined.

Lemma overlap_seeds_next_chunk_witness :
  current_chunk (mkChunker [] ["a b c."; "d e f."] 8) <> [] /\
  tokens word_punct_tokens "g h i." <= 10 /\
  current_tokens (mkChunker [] ["a b c."; "d e f."] 8)
  + tokens word_punct_tokens "g h i." > 10 /\
  exists dropped seed,
    current_chunk (mkChunker [] ["a b c."; "d e f."] 8) = dropped ++ seed /\
    chunk_sentence word_punct_tokens 10 4
                   (mkChunker [] ["a b c."; "d e f."] 8) "g h i."
    = mkChunker
        (chunks (mkChunker [] ["a b c."; "d e f."] 8)
         ++ [(Packed,
              PyStr.join (current_chunk (mkChunker [] ["a b c."; "d e f."] 8)))])
        (seed ++ ["g h i."])
        (sum_tokens word_punct_tokens seed
         + tokens word_punct_tokens "g h i.") /\
    (0 < 4 -> sum_tokens word_punct_tokens seed <= 4) /\
    (0 < 4 ->
     forall before s, dropped = before ++ [s] ->
                      sum_tokens word_punct_tokens seed
                      + tokens word_punct_tokens s > 4) /\
    (4 <= 0 -> seed = []).
Proof.
  assert (current_chunk (mkChunker [] ["a b c."; "d e f."] 8) <> [])
    as Hpending by discriminate.
  assert (tokens word_punct_tokens "g h i." <= 10) as Hshort
    by (vm_compute; discriminate).
  assert (current_tokens (mkChunker [] ["a b c."; "d e f."] 8)
          + tokens word_punct_tokens "g h i." > 10) as Hover by reflexivity.
  split; [exact Hpending|]. split; [exact Hshort|]. split; [exact Hover|].
  exact (overlap_seeds_next_chunk word_punct_tokens 10 4
           (mkChunker [] ["a b c."; "d e f."] 8) "g h i."
           Hpending Hshort Hover).
Defined.


(* ===================================================================== *)
(** ** Ordered dictionaries: properties *)
(* ===================================================================== *)

Section DictFacts.

Variable V : Type.

Lemma mem_in_keys (k : string) (d : Dict.t V) :
  Dict.mem k d = true <-> In k (Dict.keys d).
Proof.
  unfold Dict.mem. induction d as [|[k' v] d IH]; simpl.
  - split; [discriminate|contradiction].
  - destruct (String.eqb_spec k k') as [->|Hne].
    + split; auto.
    + rewrite IH. split; [auto|]. intros [Heq|Hin]; [congruence|exact Hin].
Qed.

Lemma keys_set (k : string) (v : V) (d : Dict.t V) :
  Dict.keys (Dict.set k v d)
  = if Dict.mem k d then Dict.keys d else Dict.keys d ++ [k].
Proof.
  unfold Dict.mem. induction d as [|[k' v'] d IH]; simpl; [reflexivity|].
  destruct (String.eqb_spec k k') as [->|Hne]; simpl; [reflexivity|].
  rewrite IH. destruct (Dict.get k d); reflexivity.
Qed.

Lemma get_set_same (k : string) (v : V) (d : Dict.t V) :
  Dict.get k (Dict.set k v d) = Some v.
Proof.
  induction d as [|[k' v'] d IH]; simpl.
  - rewrite String.eqb_refl. reflexivity.
  - destruct (String.eqb_spec k k') as [->|Hne]; simpl.
    + rewrite String.eqb_refl. reflexivity.
    + destruct (String.eqb_spec k k'); [contradiction|exact IH].
Qed.

Lemma get_set_other (k j : string) (v : V) (d : Dict.t V) :
  j <> k -> Dict.get j (Dict.set k v d) = Dict.get j d.
Proof.
  intros Hne. induction d as [|[k' v'] d IH]; simpl.
  - destruct (String.eqb_spec j k); [contradiction|reflexivity].
  - destruct (String.eqb_spec k k') as [->|Hkk]; simpl.
    + destruct (String.eqb_spec j k'); [contradiction|reflexivity].
    + rewrite IH. reflexivity.
Qed.

Lemma keys_pop (k : string) (d : Dict.t V) (j : string) :
  In j (Dict.keys (Dict.pop k d)) <-> In j (Dict.keys d) /\ j <> k.
Proof.
  unfold Dict.pop, Dict.keys. rewrite in_map_iff. split.
  - intros ([j' v] & <- & Hin). apply filter_In in Hin.
    destruct Hin as [Hin Hneq]. simpl in *. split.
    + apply in_map_iff. exists (j', v). auto.
    + intros ->. rewrite String.eqb_refl in Hneq. discriminate.
  - intros [Hin Hne]. apply in_map_iff in Hin.
    destruct Hin as ([j' v] & <- & Hin). exists (j', v). split; [reflexivity|].
    apply filter_In. split; [exact Hin|]. simpl in *.
    destruct (String.eqb_spec k j'); [congruence|reflexivity].
Qed.

End DictFacts.

(* ===================================================================== *)
(** ** FAISS backend: properties *)
(* ===================================================================== *)

Section FaissFacts.

Context {F : Type} {ops : FloatOps F}.

Import FaissDB.

Lemma fit_length (dim : nat) (e : list F) : length (fit dim e) = dim.
Proof.
  unfold fit. destruct (Nat.ltb_spec (length e) dim).
  - rewrite length_app, repeat_length. lia.
  - rewrite length_firstn. lia.
Qed.

Lemma fitted_length (dim : nat) (doc : document F) :
  length (fitted dim doc) = dim.
Proof.
  unfold fitted. destruct (Nat.eqb_spec (length (embedding_of doc)) dim).
  - assumption.
  - apply fit_length.
Qed.

Lemma as_row_length (v : list F) : length (as_row v) = length v.
Proof.
  unfold as_row, normalize_L2.
  destruct (l2_inverse_norm (map to_float32 v));
    rewrite ?length_map; reflexivity.
Qed.

(** FAISS changes a vector entry by entry, with one function for the
    whole vector. *)
Lemma as_row_entrywise (v : list F) : exists g, as_row v = map g v.
Proof.
  unfold as_row, normalize_L2.
  destruct (l2_inverse_norm (map to_float32 v)) as [k|].
  - exists (fun x => fmul k (to_float32 x)). rewrite map_map. reflexivity.
  - exists to_float32. reflexivity.
Qed.

Lemma assigned_ids_length (docs : list (document F)) :
  forall store, length (assigned_ids store docs) = length docs.
Proof.
  induction docs as [|d r IH]; intros store; simpl; [reflexivity|].
  rewrite IH. reflexivity.
Qed.

(** The loop of [add_documents] in closed form. *)
Lemma add_loop (docs : list (document F)) :
  forall db acc,
    fold_left add_one docs (db, acc)
    = (mkDB (index db) (store_after (documents db) docs) (dimension db)
            (disk db) (log db ++ warnings (dimension db) docs),
       acc ++ combine (assigned_ids (documents db) docs)
                      (map (fitted (dimension db)) docs)).
Proof.
  induction docs as [|d r IH]; intros db acc; simpl.
  - rewrite !app_nil_r. destruct db; reflexivity.
  - unfold fitted at 1. unfold embedding_of at 1 2 3.
    unfold id_for, with_documents, logged. simpl.
    fold (id_in (documents db) d). fold (record_of d).
    fold (embedding_of d).
    destruct (length (embedding_of d) =? dimension db)%nat;
      rewrite IH; simpl; rewrite <- !app_assoc; reflexivity.
Qed.

(** [add_documents] on an initialised index, in closed form. *)
Lemma add_documents_ready (db : FAISSVectorDB F) (rows : list (row F))
      (docs : list (document F)) :
  index db = Some rows -> docs <> [] ->
  add_documents db docs
  = (Ok tt,
     mkDB (Some (rows ++ new_rows db docs))
          (store_after (documents db) docs) (dimension db)
          (Saved (rows ++ new_rows db docs)
                 (store_after (documents db) docs))
          (log db ++ warnings (dimension db) docs
           ++ [(INFO, "Added documents to FAISS")])).
Proof.
  intros Hidx Hne. unfold add_documents.
  destruct docs as [|d r]; [contradiction|].
  rewrite add_loop. cbn [index]. rewrite Hidx.
  unfold _save_index, with_index, with_disk, logged, new_rows. simpl.
  rewrite <- app_assoc. reflexivity.
Qed.


Lemma nth_error_combine (A B : Type) (a : list A) (b : list B) :
  forall i x y,
    nth_error a i = Some x -> nth_error b i = Some y ->
    nth_error (combine a b) i = Some (x, y).
Proof.
  revert b. induction a as [|a0 a IH]; intros b i x y Ha Hb.
  - destruct i; discriminate.
  - destruct b as [|b0 b]; [destruct i; discriminate|].
    destruct i as [|i]; simpl in *.
    + congruence.
    + apply IH; assumption.
Qed.

Lemma nth_error_defined (A : Type) (l : list A) (i : nat) :
  (i < length l)%nat -> exists x, nth_error l i = Some x.
Proof.
  intros Hlt. destruct (nth_error l i) eqn:Hn; [eauto|].
  apply nth_error_None in Hn. lia.
Qed.

Lemma new_rows_owners (db : FAISSVectorDB F) (docs : list (document F)) :
  map row_owner (new_rows db docs) = assigned_ids (documents db) docs.
Proof.
  unfold new_rows. rewrite map_map. simpl.
  generalize (documents db) as store.
  induction docs as [|d r IH]; intros store; simpl; [reflexivity|].
  rewrite IH. reflexivity.
Qed.

Lemma new_rows_length (db : FAISSVectorDB F) (docs : list (document F)) :
  length (new_rows db docs) = length docs.
Proof.
  rewrite <- (length_map row_owner), new_rows_owners.
  apply assigned_ids_length.
Qed.

Lemma new_rows_nth (db : FAISSVectorDB F) (docs : list (document F))
      (i : nat) (d : document F) :
  nth_error docs i = Some d ->
  exists id,
    nth_error (assigned_ids (documents db) docs) i = Some id /\
    nth_error (new_rows db docs) i
    = Some (mkRow id (as_row (fitted (dimension db) d))).
Proof.
  intros Hd.
  assert (i < length docs)%nat as Hlt.
  { apply nth_error_Some. rewrite Hd. discriminate. }
  destruct (nth_error_defined _ (assigned_ids (documents db) docs) i)
    as [id Hid]; [rewrite assigned_ids_length; exact Hlt|].
  exists id. split; [exact Hid|].
  unfold new_rows.
  rewrite nth_error_map.
  rewrite (nth_error_combine _ _ _ _ i id (fitted (dimension db) d) Hid).
  - reflexivity.
  - rewrite nth_error_map, Hd. reflexivity.
Qed.

(** C8: an element whose embedding has not the length of the index is
    stored all the same.  Its row has exactly the configured length; it
    is what FAISS makes of the embedding followed by zeros when the
    embedding is too short (so the entries behind the embedding all come
    from [0.0]), and of the first [dimension] entries when it is too
    long.  The call returns normally and the warning is in the log. *)
Theorem dimension_repair (db : FAISSVectorDB F) (rows : list (row F))
        (docs : list (document F)) (i : nat) (d : document F) :
  index db = Some rows ->
  nth_error docs i = Some d ->
  length (embedding_of d) <> dimension db ->
  exists db' r,
    add_documents db docs = (Ok tt, db') /\
    dimension db' = dimension db /\
    index db' = Some (rows ++ new_rows db docs) /\
    nth_error (new_rows db docs) i = Some r /\
    nth_error (assigned_ids (documents db) docs) i = Some (row_owner r) /\
    length (row_vector r) = dimension db /\
    ((length (embedding_of d) < dimension db)%nat ->
     row_vector r
     = as_row (embedding_of d
               ++ repeat fzero (dimension db - length (embedding_of d)))
     /\ exists g,
         row_vector r
         = map g (embedding_of d)
           ++ repeat (g fzero) (dimension db - length (embedding_of d))) /\
    ((dimension db < length (embedding_of d))%nat ->
     row_vector r = as_row (firstn (dimension db) (embedding_of d))) /\
    In mismatch_warning (log db').
Proof.
  intros Hidx Hd Hlen.
  assert (docs <> []) as Hne by (intros ->; destruct i; discriminate).
  destruct (new_rows_nth db docs i d Hd) as (id & Hid & Hrow).
  eexists. exists (mkRow id (as_row (fitted (dimension db) d))).
  split; [apply (add_documents_ready db rows docs Hidx Hne)|].
  cbn [dimension index log row_vector row_owner].
  repeat split; auto.
  - rewrite as_row_length. apply fitted_length.
  - unfold fitted, fit.
    destruct (Nat.eqb_spec (length (embedding_of d)) (dimension db));
      [contradiction|].
    destruct (Nat.ltb_spec (length (embedding_of d)) (dimension db));
      [reflexivity|lia].
  - destruct (as_row_entrywise (fitted (dimension db) d)) as [g Hg].
    exists g. rewrite Hg. unfold fitted, fit.
    destruct (Nat.eqb_spec (length (embedding_of d)) (dimension db));
      [contradiction|].
    destruct (Nat.ltb_spec (length (embedding_of d)) (dimension db));
      [|lia].
    rewrite map_app, map_repeat. reflexivity.
  - intros Hlong. unfold fitted, fit.
    destruct (Nat.eqb_spec (length (embedding_of d)) (dimension db));
      [contradiction|].
    destruct (Nat.ltb_spec (length (embedding_of d)) (dimension db));
      [lia|reflexivity].
  - apply in_or_app. right. apply in_or_app. left.
    unfold warnings. apply in_flat_map. exists d. split.
    + apply (nth_error_In _ _ Hd).
    + destruct (Nat.eqb_spec (length (embedding_of d)) (dimension db));
        [contradiction|left; reflexivity].
Qed.


Lemma keys_length (store : Dict.t stored) :
  length (Dict.keys store) = length store.
Proof. apply length_map. Qed.

Lemma set_length_bound (k : string) (v : stored) (store : Dict.t stored) :
  (length (Dict.set k v store)
   = if Dict.mem k store then length store else S (length store))%nat.
Proof.
  rewrite <- !keys_length, keys_set.
  destruct (Dict.mem k store); [reflexivity|].
  rewrite length_app. simpl. lia.
Qed.

Lemma store_after_length (docs : list (document F)) :
  forall store,
    (length (store_after store docs) <= length store + length docs)%nat.
Proof.
  induction docs as [|d r IH]; intros store; simpl; [lia|].
  specialize (IH (Dict.set (id_in store d) (record_of d) store)).
  rewrite set_length_bound in IH.
  destruct (Dict.mem (id_in store d) store); lia.
Qed.

(** The keys present before a call keep their positions. *)
Lemma store_after_prefix (docs : list (document F)) :
  forall store,
  exists added,
    Dict.keys (store_after store docs) = Dict.keys store ++ added /\
    forall k, In k added -> ~ In k (Dict.keys store).
Proof.
  induction docs as [|d r IH]; intros store; simpl.
  - exists []. rewrite app_nil_r. split; [reflexivity|contradiction].
  - destruct (IH (Dict.set (id_in store d) (record_of d) store))
      as (added & Hkeys & Hfresh).
    rewrite keys_set in Hkeys, Hfresh.
    destruct (Dict.mem (id_in store d) store) eqn:Hmem.
    + exists added. auto.
    + exists (id_in store d :: added). split.
      * rewrite Hkeys, <- app_assoc. reflexivity.
      * intros k [<-|Hin].
        -- rewrite <- mem_in_keys, Hmem. discriminate.
        -- intros Hk. apply (Hfresh k Hin). apply in_or_app. left. exact Hk.
Qed.

Lemma assigned_explicit (docs : list (document F)) (d : document F)
      (i : string) :
  In d docs -> doc_id d = Some i ->
  forall store, In i (assigned_ids store docs).
Proof.
  intros Hin Hid. induction docs as [|d0 r IH]; intros store;
    [contradiction|].
  simpl. destruct Hin as [->|Hin].
  - left. unfold id_in. rewrite Hid. reflexivity.
  - right. apply IH. exact Hin.
Qed.

(** An id that is already stored does not make the store grow. *)
Lemma store_after_duplicate (docs : list (document F)) :
  forall store i,
    In i (assigned_ids store docs) -> In i (Dict.keys store) ->
    (length (store_after store docs) < length store + length docs)%nat.
Proof.
  induction docs as [|d r IH]; intros store i Hin Hstored;
    [contradiction|].
  simpl in *.
  pose proof (store_after_length r
                (Dict.set (id_in store d) (record_of d) store)) as Hle.
  rewrite set_length_bound in Hle.
  destruct (Dict.mem (id_in store d) store) eqn:Hmem; [lia|].
  destruct Hin as [Heq|Hin].
  - subst i. apply mem_in_keys in Hstored. congruence.
  - specialize (IH (Dict.set (id_in store d) (record_of d) store) i Hin).
    rewrite keys_set, Hmem, set_length_bound, Hmem in IH.
    assert (In i (Dict.keys store ++ [id_in store d])) as Hi
        by (apply in_or_app; left; exact Hstored).
    specialize (IH Hi). lia.
Qed.

(** The store lists the assigned ids behind the old ones exactly when
    these ids are new and different from each other. *)
Lemma store_after_appends (docs : list (document F)) :
  forall store,
    Dict.keys (store_after store docs)
    = Dict.keys store ++ assigned_ids store docs
    <-> NoDup (assigned_ids store docs)
        /\ forall i, In i (assigned_ids store docs) ->
                     ~ In i (Dict.keys store).
Proof.
  induction docs as [|d r IH]; intros store; simpl.
  - rewrite app_nil_r. split; [|reflexivity].
    intros _. split; [constructor|contradiction].
  - specialize (IH (Dict.set (id_in store d) (record_of d) store)).
    pose proof (store_after_length r
                  (Dict.set (id_in store d) (record_of d) store)) as Hle.
    rewrite set_length_bound in Hle.
    rewrite keys_set in IH.
    destruct (Dict.mem (id_in store d) store) eqn:Hmem.
    + split.
      * intros Heq. apply (f_equal (@length string)) in Heq.
        rewrite length_app, !keys_length in Heq. simpl in Heq.
        rewrite assigned_ids_length in Heq. lia.
      * intros [_ Hfresh]. exfalso.
        apply (Hfresh (id_in store d)); [left; reflexivity|].
        apply mem_in_keys. exact Hmem.
    + assert (~ In (id_in store d) (Dict.keys store)) as Hnew.
      { rewrite <- mem_in_keys, Hmem. discriminate. }
      rewrite <- app_assoc in IH. simpl in IH. rewrite IH. split.
      * intros [Hnd Hfresh]. split.
        -- constructor; [|exact Hnd].
           intros Hin. apply (Hfresh _ Hin). apply in_or_app.
           right. left. reflexivity.
        -- intros i [<-|Hin]; [exact Hnew|].
           intros Hk. apply (Hfresh i Hin). apply in_or_app. left. exact Hk.
      * intros [Hnd Hfresh]. inversion Hnd as [|x l Hnotin Hnd']; subst.
        split; [exact Hnd'|].
        intros i Hin Hk. apply in_app_or in Hk. destruct Hk as [Hk|[<-|[]]].
        -- apply (Hfresh i); [right; exact Hin|exact Hk].
        -- contradiction.
Qed.

(** Every assigned id ends up with the record of one of the elements. *)
Lemma store_after_get (docs : list (document F)) :
  forall store i,
    In i (assigned_ids store docs) ->
    exists d, In d docs /\
              Dict.get i (store_after store docs) = Some (record_of d).
Proof.
  induction docs as [|d r IH]; intros store i Hin; [contradiction|].
  simpl in *.
  destruct (in_dec string_dec i
              (assigned_ids (Dict.set (id_in store d) (record_of d) store) r))
    as [Hlater|Hnot].
  - destruct (IH _ i Hlater) as (d' & Hd' & Hget). exists d'. auto.
  - destruct Hin as [<-|Hin]; [|contradiction].
    exists d. split; [left; reflexivity|].
    clear IH.
    assert (forall (docs0 : list (document F)) store0,
               ~ In (id_in store d) (assigned_ids store0 docs0) ->
               Dict.get (id_in store d) (store_after store0 docs0)
               = Dict.get (id_in store d) store0) as Hkeep.
    { induction docs0 as [|d0 r0 IH0]; intros store0 Hn; simpl;
        [reflexivity|].
      simpl in Hn. rewrite IH0 by tauto.
      apply get_set_other. intros Heq. apply Hn. left. symmetry. exact Heq. }
    rewrite Hkeep by exact Hnot. apply get_set_same.
Qed.

(** C10: a call of [add_documents] on an initialised index appends one
    row per element, in order, while the ids stored before the call keep
    their places.  If the index had at least as many rows as there were
    documents, and an element carries an id that is already stored, the
    entry of that id is replaced by the record of an element of the call,
    and afterwards there are more rows than documents, so rows and ids no
    longer correspond.  From a state in which they correspond, they
    correspond after the call exactly when the ids of the call are all new
    and different from each other. *)
Theorem duplicate_id_breaks_rows (db : FAISSVectorDB F)
        (rows : list (row F)) (docs : list (document F)) :
  index db = Some rows -> docs <> [] ->
  exists db',
    add_documents db docs = (Ok tt, db') /\
    index_ids db' = index_ids db ++ assigned_ids (documents db) docs /\
    row_count db' = (row_count db + length docs)%nat /\
    (exists added,
        stored_ids db' = stored_ids db ++ added /\
        forall k, In k added -> ~ In k (stored_ids db)) /\
    (forall d i,
        In d docs -> doc_id d = Some i -> In i (stored_ids db) ->
        (count_documents db <= row_count db)%nat ->
        (exists d', In d' docs /\
                    Dict.get i (documents db') = Some (record_of d')) /\
        (count_documents db' < row_count db')%nat /\
        ~ in_step db') /\
    (in_step db ->
     (in_step db' <->
      NoDup (assigned_ids (documents db) docs)
      /\ forall i, In i (assigned_ids (documents db) docs) ->
                   ~ In i (stored_ids db))).
Proof.
  intros Hidx Hne. eexists.
  split; [apply (add_documents_ready db rows docs Hidx Hne)|].
  unfold in_step.
  unfold index_ids, row_count, stored_ids, count_documents, ntotal.
  cbn [index documents]. rewrite Hidx.
  split; [rewrite map_app, new_rows_owners; reflexivity|].
  split; [rewrite length_app, new_rows_length; reflexivity|].
  split; [apply store_after_prefix|].
  split.
  - intros d i Hd Hid Hstored Hcount.
    pose proof (assigned_explicit docs d i Hd Hid (documents db)) as Hin.
    pose proof (store_after_duplicate docs (documents db) i Hin Hstored)
      as Hlt.
    split; [apply store_after_get; exact Hin|].
    assert (length (store_after (documents db) docs)
            < length (rows ++ new_rows db docs))%nat as Hmore.
    { rewrite length_app, new_rows_length. lia. }
    split; [exact Hmore|].
    intros (rows' & Hrows' & Hown).
    injection Hrows' as <-.
    apply (f_equal (@length string)) in Hown.
    rewrite length_map, keys_length in Hown. lia.
  - intros (rows0 & Hrows0 & Hown0).
    assert (rows0 = rows) as -> by congruence.
    rewrite <- store_after_appends.
    rewrite <- Hown0, <- new_rows_owners, <- map_app.
    split.
    + intros (rows' & Hrows' & Hown). injection Hrows' as <-.
      symmetry. exact Hown.
    + intros Heq. exists (rows ++ new_rows db docs).
      split; [reflexivity|symmetry; exact Heq].
Qed.

End FaissFacts.

Section FaissDeletion.

Context {F : Type} {ops : FloatOps F}.

Import FaissDB.

Lemma pop_all_keys (ids : list string) :
  forall (store : Dict.t stored) (j : string),
    In j (Dict.keys (fold_left (fun d id => Dict.pop id d) ids store))
    <-> In j (Dict.keys store) /\ ~ In j ids.
Proof.
  induction ids as [|k ids IH]; intros store j; simpl.
  - tauto.
  - rewrite IH, keys_pop. split.
    + intros [[Hin Hne] Hnot]. split; [exact Hin|].
      intros [Heq|Hrest]; [congruence|contradiction].
    + intros [Hin Hnot]. split; [split; [exact Hin|]|].
      * intros ->. apply Hnot. left. reflexivity.
      * intros Hrest. apply Hnot. right. exact Hrest.
Qed.

Lemma _rebuild_index_index (db : FAISSVectorDB F) :
  index (_rebuild_index db) = Some [].
Proof. unfold _rebuild_index, with_index. cbn [documents]. destruct (documents db); reflexivity. Qed.

Lemma _rebuild_index_documents (db : FAISSVectorDB F) :
  documents (_rebuild_index db) = documents db.
Proof. unfold _rebuild_index, with_index. cbn [documents]. destruct (documents db); reflexivity. Qed.

(** [delete_documents] removes the ids from the metadata store and
    leaves the index without any row, whatever remains stored. *)
Lemma delete_documents_spec (db : FAISSVectorDB F) (ids : list string) :
  ids <> [] ->
  exists db',
    delete_documents db ids = (Ok tt, db') /\
    index db' = Some [] /\
    forall j, In j (stored_ids db') <-> In j (stored_ids db) /\ ~ In j ids.
Proof.
  intros Hne.
  exists (logged
            (_rebuild_index
               (with_documents db
                  (fold_left (fun d id => Dict.pop id d) ids (documents db))))
            INFO "Deleted documents from FAISS").
  split; [destruct ids; [contradiction|reflexivity]|].
  unfold stored_ids, logged. cbn [index documents].
  rewrite _rebuild_index_index, _rebuild_index_documents.
  split; [reflexivity|].
  intros j. apply pop_all_keys.
Qed.

Lemma store_after_keys (docs : list (document F)) :
  forall store i,
    In i (Dict.keys (store_after store docs))
    <-> In i (Dict.keys store) \/ In i (assigned_ids store docs).
Proof.
  induction docs as [|d r IH]; intros store i; simpl.
  - tauto.
  - rewrite IH, keys_set.
    destruct (Dict.mem (id_in store d) store) eqn:Hmem.
    + apply mem_in_keys in Hmem. split.
      * intros [Hin|Hin]; auto.
      * intros [Hin|[<-|Hin]]; auto.
    + rewrite in_app_iff. simpl. tauto.
Qed.

(** [add_documents] keeps the ids of index and metadata store the same. *)
Lemma add_documents_same_ids (db : FAISSVectorDB F) (rows : list (row F))
      (docs : list (document F)) :
  index db = Some rows -> same_ids db ->
  same_ids (snd (add_documents db docs)).
Proof.
  intros Hidx Hsame. destruct docs as [|d r]; [exact Hsame|].
  rewrite (add_documents_ready db rows (d :: r) Hidx) by discriminate.
  unfold same_ids, index_ids, stored_ids in *. cbn [snd index documents].
  rewrite Hidx in Hsame. intros i.
  rewrite map_app, new_rows_owners, in_app_iff, store_after_keys, Hsame.
  reflexivity.
Qed.

(** So does [update_document]. *)
Lemma update_document_same_ids (db : FAISSVectorDB F) (rows : list (row F))
      (document_id : string) (doc : document F) :
  index db = Some rows -> same_ids db ->
  same_ids (snd (update_document db document_id doc)).
Proof.
  intros Hidx Hsame. unfold update_document.
  set (db1 := if Dict.mem document_id (documents db) then _ else db).
  assert (index db1 = Some rows /\ same_ids db1) as [Hidx1 Hsame1].
  { subst db1. destruct (Dict.mem document_id (documents db)) eqn:Hmem;
      [|auto].
    split; [exact Hidx|].
    unfold same_ids, index_ids, stored_ids in *.
    cbn [index documents with_documents]. rewrite keys_set, Hmem.
    exact Hsame. }
  pose proof (add_documents_same_ids db1 rows
                [mkDocument (Some document_id) (doc_text doc)
                            (doc_embedding doc) (doc_metadata doc)]
                Hidx1 Hsame1) as Hadd.
  destruct (add_documents db1 _) as [[u|e] db2]; exact Hadd.
Qed.

(** [search] on an index without rows. *)
Lemma search_no_rows (db : FAISSVectorDB F) (query_embedding : list F)
      (top_k : Z) :
  index db = Some [] ->
  search db query_embedding top_k
  = ([], logged db WARNING "FAISS index is empty").
Proof. intros Hidx. unfold search. rewrite Hidx. reflexivity. Qed.

End FaissDeletion.

(** C2 at a concrete input: after [add_documents([a, b])] index and
    metadata store hold the same ids; [delete_documents(["a"])] then
    leaves the id [b] in the metadata store and no row in the index. *)
Theorem delete_leaves_ids_without_rows :
  index_ids Sample.db_ab = ["a"; "b"]
  /\ stored_ids Sample.db_ab = ["a"; "b"]
  /\ same_ids Sample.db_ab
  /\ fst (FaissDB.delete_documents Sample.db_ab ["a"]) = Ok tt
  /\ index_ids Sample.db_after_delete = []
  /\ stored_ids Sample.db_after_delete = ["b"]
  /\ row_count Sample.db_after_delete = 0%nat
  /\ FaissDB.count_documents Sample.db_after_delete = 1%nat
  /\ ~ same_ids Sample.db_after_delete.
Proof.
  assert (index_ids Sample.db_ab = ["a"; "b"]) as Hrows
    by (vm_compute; reflexivity).
  assert (stored_ids Sample.db_ab = ["a"; "b"]) as Hkeys
    by (vm_compute; reflexivity).
  assert (index_ids Sample.db_after_delete = []) as Hrows'
    by (vm_compute; reflexivity).
  assert (stored_ids Sample.db_after_delete = ["b"]) as Hkeys'
    by (vm_compute; reflexivity).
  repeat split; try assumption; try (vm_compute; reflexivity).
  - rewrite Hrows, Hkeys. auto.
  - rewrite Hrows, Hkeys. auto.
  - intros Hsame. destruct (Hsame "b") as [_ Hback].
    rewrite Hrows', Hkeys' in Hback. apply Hback. left. reflexivity.
Qed.

Lemma dimension_repair_witness :
  FaissDB.index Sample.fresh_db = Some []
  /\ nth_error [Sample.doc_a; Sample.doc_b] 1 = Some Sample.doc_b
  /\ length (embedding_of Sample.doc_b) <> FaissDB.dimension Sample.fresh_db
  /\ exists db' r,
      FaissDB.add_documents Sample.fresh_db [Sample.doc_a; Sample.doc_b]
      = (Ok tt, db') /\
      FaissDB.dimension db' = 1536%nat /\
      nth_error (Sample.rows_of db') 1 = Some r /\
      FaissDB.row_owner r = "b" /\
      length (FaissDB.row_vector r) = 1536%nat /\
      In mismatch_warning (FaissDB.log db').
Proof.
  assert (FaissDB.index Sample.fresh_db = Some []) as Hidx by reflexivity.
  assert (nth_error [Sample.doc_a; Sample.doc_b] 1 = Some Sample.doc_b)
    as Hnth by reflexivity.
  assert (length (embedding_of Sample.doc_b)
          <> FaissDB.dimension Sample.fresh_db) as Hlen
    by (vm_compute; discriminate).
  split; [exact Hidx|]. split; [exact Hnth|]. split; [exact Hlen|].
  destruct (dimension_repair Sample.fresh_db [] [Sample.doc_a; Sample.doc_b]
              1 Sample.doc_b Hidx Hnth Hlen)
    as (db' & r & Hadd & Hdim & Hrows & Hr & Hown & Hvec & _ & _ & Hlog).
  exists db', r. unfold Sample.rows_of. rewrite Hrows.
  repeat split; auto.
  simpl in Hown. injection Hown as <-. reflexivity.
Defined.

Lemma duplicate_id_breaks_rows_witness :
  FaissDB.index Sample.db_ab = Some (Sample.rows_of Sample.db_ab)
  /\ [Sample.doc_a] <> []
  /\ exists db',
      FaissDB.add_documents Sample.db_ab [Sample.doc_a] = (Ok tt, db') /\
      index_ids db' = ["a"; "b"; "a"] /\
      stored_ids db' = ["a"; "b"] /\
      (FaissDB.count_documents db' < row_count db')%nat /\
      ~ in_step db'.
Proof.
  assert (FaissDB.index Sample.db_ab = Some (Sample.rows_of Sample.db_ab))
    as Hidx by reflexivity.
  assert ([Sample.doc_a] <> []) as Hne by discriminate.
  split; [exact Hidx|]. split; [exact Hne|].
  destruct (duplicate_id_breaks_rows Sample.db_ab
              (Sample.rows_of Sample.db_ab) [Sample.doc_a] Hidx Hne)
    as (db' & Hadd & _ & _ & _ & Hdup & _).
  exists db'. split; [exact Hadd|].
  destruct (Hdup Sample.doc_a "a") as (_ & Hmore & Hbroken).
  - left; reflexivity.
  - reflexivity.
  - left; reflexivity.
  - vm_compute. apply le_n.
  - assert (db' = snd (FaissDB.add_documents Sample.db_ab [Sample.doc_a]))
      as Hdb by (rewrite Hadd; reflexivity).
    split; [rewrite Hdb; vm_compute; reflexivity|].
    split; [rewrite Hdb; vm_compute; reflexivity|].
    split; assumption.
Defined.

(** C10 at a concrete run: [add_documents([a, b])], then
    [delete_documents(['a'])], which empties the index and keeps the entry
    of ["b"], then [add_documents([b])].  The id ["b"] is stored before
    the last call, which overwrites its entry and appends a row; yet
    afterwards there are as many rows as documents, and row and id
    correspond. *)
Lemma readded_id_keeps_rows :
  row_count Sample.db_after_delete = 0%nat
  /\ stored_ids Sample.db_after_delete = ["b"]
  /\ exists db',
      FaissDB.add_documents Sample.db_after_delete [Sample.doc_b]
      = (Ok tt, db')
      /\ index_ids db' = ["b"]
      /\ stored_ids db' = ["b"]
      /\ row_count db' = FaissDB.count_documents db'
      /\ in_step db'.
Proof.
  split; [reflexivity|]. split; [reflexivity|].
  exists (snd (FaissDB.add_documents Sample.db_after_delete [Sample.doc_b])).
  split; [vm_compute; reflexivity|].
  split; [vm_compute; reflexivity|].
  split; [vm_compute; reflexivity|].
  split; [vm_compute; reflexivity|].
  exists (Sample.rows_of
            (snd (FaissDB.add_documents Sample.db_after_delete
                    [Sample.doc_b]))).
  split; vm_compute; reflexivity.
Qed.


(* ===================================================================== *)
(** ** Rounding in binary64: a product of two square roots *)
(* ===================================================================== *)

(** A square root in binary64 that is not zero is at least [2^-537], so
    the product of two of them is at least [2^-1074] and does not round
    to zero. *)

Section RoundingFacts.

Import SpecFloat.

(** The number of binary digits of a mantissa. *)
Lemma digits_bounds (p : positive) :
  2 ^ (Zpos (digits2_pos p) - 1) <= Zpos p < 2 ^ Zpos (digits2_pos p).
Proof.
  induction p as [p IH|p IH|]; cbn [digits2_pos].
  - rewrite Pos2Z.inj_succ.
    replace (Z.succ (Zpos (digits2_pos p)) - 1)
      with (Z.succ (Zpos (digits2_pos p) - 1)) by lia.
    rewrite !Z.pow_succ_r by lia. lia.
  - rewrite Pos2Z.inj_succ.
    replace (Z.succ (Zpos (digits2_pos p)) - 1)
      with (Z.succ (Zpos (digits2_pos p) - 1)) by lia.
    rewrite !Z.pow_succ_r by lia. lia.
  - cbn. lia.
Qed.

Lemma shr_1_half (r : shr_record) :
  0 <= shr_m r -> shr_m (shr_1 r) = shr_m r / 2.
Proof.
  destruct r as [m r s]. cbn [shr_m]. intros Hm.
  destruct m as [|p|p]; [reflexivity| |lia].
  destruct p as [p|p|]; cbn [shr_1 shr_m].
  - apply Z.div_unique with 1; lia.
  - apply Z.div_unique with 0; lia.
  - reflexivity.
Qed.

Lemma iter_shr_1 (n : positive) :
  forall r, 0 <= shr_m r ->
            shr_m (iter_pos shr_1 n r) = shr_m r / 2 ^ Zpos n.
Proof.
  induction n as [n IH|n IH|]; intros r Hm; cbn [iter_pos].
  - assert (0 <= shr_m (shr_1 r)) as H1
      by (rewrite shr_1_half by exact Hm; apply Z.div_pos; lia).
    assert (0 <= shr_m (iter_pos shr_1 n (shr_1 r))) as H2
      by (rewrite IH by exact H1; apply Z.div_pos; [exact H1|lia]).
    rewrite IH by exact H2. rewrite IH by exact H1.
    rewrite shr_1_half by exact Hm.
    rewrite !Z.div_div by lia. f_equal.
    rewrite Pos2Z.inj_xI, <- !Z.pow_add_r by lia.
    change 2 with (2 ^ 1) at 1. rewrite <- Z.pow_add_r by lia.
    f_equal. lia.
  - assert (0 <= shr_m (iter_pos shr_1 n r)) as H2
      by (rewrite IH by exact Hm; apply Z.div_pos; [exact Hm|lia]).
    rewrite IH by exact H2. rewrite IH by exact Hm.
    rewrite !Z.div_div by lia. f_equal.
    rewrite Pos2Z.inj_xO, <- !Z.pow_add_r by lia. f_equal. lia.
  - rewrite shr_1_half by exact Hm. reflexivity.
Qed.


Lemma shifted_record (m : Z) (l : location) :
  shr_m (shr_record_of_loc m l) = m.
Proof. destruct l as [|[]]; reflexivity. Qed.

(** [shr] divides the mantissa by a power of two and raises the exponent
    by as much. *)
Lemma shr_spec (r : shr_record) (e n : Z) :
  0 <= shr_m r ->
  shr_m (fst (shr r e n)) = shr_m r / 2 ^ Z.max n 0
  /\ snd (shr r e n) = e + Z.max n 0.
Proof.
  intros Hm. destruct n as [|p|p]; cbn [shr fst snd].
  - cbn. rewrite Z.div_1_r. lia.
  - rewrite iter_shr_1 by exact Hm.
    replace (Z.max (Zpos p) 0) with (Zpos p) by lia. split; reflexivity.
  - replace (Z.max (Zneg p) 0) with 0 by lia. cbn. rewrite Z.div_1_r. lia.
Qed.

Lemma digits_positive (m : Z) :
  0 < m -> 2 ^ (Zdigits2 m - 1) <= m < 2 ^ Zdigits2 m /\ 1 <= Zdigits2 m.
Proof.
  intros Hm. destruct m as [|p|p]; [lia| |lia]. cbn [Zdigits2].
  split; [apply digits_bounds|lia].
Qed.

Lemma div_power_lower (m a n : Z) :
  0 <= n <= a -> 2 ^ a <= m -> 2 ^ (a - n) <= m / 2 ^ n.
Proof.
  intros Hn Hm. apply Z.div_le_lower_bound; [apply Z.pow_pos_nonneg; lia|].
  rewrite <- Z.pow_add_r by lia. replace (n + (a - n)) with a by lia.
  exact Hm.
Qed.

Lemma round_nearest_even_ge (m : Z) (l : location) :
  m <= round_nearest_even m l.
Proof.
  destruct l as [|[]]; cbn [round_nearest_even]; try lia.
  destruct (Z.even m); lia.
Qed.

(** What [binary_round_aux] returns on a positive mantissa: the mantissa
    is shifted, rounded up or not, and shifted again. *)
Lemma binary_round_aux_spec (s : bool) (m e : Z) (l : location) :
  0 < m ->
  exists M,
    m / 2 ^ Z.max (fexp 53 1024 (Zdigits2 m + e) - e) 0 <= M
    /\ binary_round_aux 53 1024 s m e l
       = let e1 := e + Z.max (fexp 53 1024 (Zdigits2 m + e) - e) 0 in
         let n2 := Z.max (fexp 53 1024 (Zdigits2 M + e1) - e1) 0 in
         match M / 2 ^ n2 with
         | Z0 => S754_zero s
         | Zpos p =>
             if e1 + n2 <=? 1024 - 53 then S754_finite s p (e1 + n2)
             else S754_infinity s
         | Zneg _ => S754_nan
         end.
Proof.
  intros Hm. unfold binary_round_aux, shr_fexp.
  pose proof (shr_spec (shr_record_of_loc m l) e
                (fexp 53 1024 (Zdigits2 m + e) - e)) as H1.
  rewrite shifted_record in H1. specialize (H1 ltac:(lia)).
  destruct (shr (shr_record_of_loc m l) e
                (fexp 53 1024 (Zdigits2 m + e) - e)) as [r1 e1].
  cbn [fst snd] in H1. destruct H1 as [Hm1 He1].
  set (M := round_nearest_even (shr_m r1) (loc_of_shr_record r1)).
  assert (shr_m r1 <= M) as HM by apply round_nearest_even_ge.
  assert (0 <= shr_m r1) as Hpos
    by (rewrite Hm1; apply Z.div_pos; [lia|apply Z.pow_pos_nonneg; lia]).
  pose proof (shr_spec (shr_record_of_loc M loc_Exact) e1
                (fexp 53 1024 (Zdigits2 M + e1) - e1)) as H2.
  rewrite shifted_record in H2. specialize (H2 ltac:(lia)).
  destruct (shr (shr_record_of_loc M loc_Exact) e1
                (fexp 53 1024 (Zdigits2 M + e1) - e1)) as [r2 e2].
  cbn [fst snd] in H2. destruct H2 as [Hm2 He2].
  exists M. split; [rewrite <- Hm1; exact HM|].
  cbv zeta. rewrite <- He1, <- He2, <- Hm2. reflexivity.
Qed.


Lemma digits_lower (m a : Z) :
  0 <= a -> 2 ^ a <= m -> a + 1 <= Zdigits2 m.
Proof.
  intros Ha Hm.
  assert (0 < m) as Hpos by (pose proof (Z.pow_pos_nonneg 2 a); lia).
  destruct (digits_positive m Hpos) as [[_ Hup] Hd].
  assert (2 ^ a < 2 ^ Zdigits2 m) as Hlt by lia.
  apply Z.pow_lt_mono_r_iff in Hlt; lia.
Qed.

Lemma fexp_unfold (x : Z) : fexp 53 1024 x = Z.max (x - 53) (-1074).
Proof. reflexivity. Qed.

(** A shifted mantissa keeps a digit as long as fewer digits are shifted
    out than it has. *)
Lemma shifted_lower (m n b : Z) :
  0 < m -> 0 <= n -> 0 <= b -> n + b <= Zdigits2 m - 1 ->
  2 ^ b <= m / 2 ^ n.
Proof.
  intros Hm Hn Hb Hle.
  destruct (digits_positive m Hm) as [[Hlow _] _].
  eapply Z.le_trans; [|apply (div_power_lower m (Zdigits2 m - 1) n);
                       [lia|exact Hlow]].
  apply Z.pow_le_mono_r; lia.
Qed.

(** Rounding a mantissa of at least 53 digits at an exponent of at least
    -589 gives no zero, and a finite result has again a mantissa of at
    least 53 digits and an exponent of at least -589. *)
Lemma round_keeps_normal (s : bool) (m e : Z) (l : location) :
  2 ^ 52 <= m -> -589 <= e ->
  match binary_round_aux 53 1024 s m e l with
  | S754_zero _ => False
  | S754_finite _ p e' => 2 ^ 52 <= Zpos p /\ -589 <= e'
  | _ => True
  end.
Proof.
  intros Hm He.
  assert (0 < m) as Hpos by lia.
  destruct (binary_round_aux_spec s m e l Hpos) as (M & HM & ->).
  cbv zeta. rewrite !fexp_unfold. rewrite fexp_unfold in HM.
  pose proof (digits_lower m 52 ltac:(lia) Hm) as HD.
  set (D := Zdigits2 m) in *.
  replace (Z.max (Z.max (D + e - 53) (-1074) - e) 0) with (D - 53) in * by lia.
  assert (2 ^ 52 <= m / 2 ^ (D - 53)) as Hm1
    by (apply shifted_lower; subst D; lia).
  assert (2 ^ 52 <= M) as HM52 by lia.
  pose proof (digits_lower M 52 ltac:(lia) HM52) as HDM.
  set (DM := Zdigits2 M) in *.
  replace (Z.max (Z.max (DM + (e + (D - 53)) - 53) (-1074) - (e + (D - 53))) 0)
    with (DM - 53) by lia.
  assert (2 ^ 52 <= M / 2 ^ (DM - 53)) as Hm2
    by (apply shifted_lower; subst DM; lia).
  destruct (M / 2 ^ (DM - 53)) as [|p|p] eqn:Hfinal; [cbn in Hm2; lia| |exact I].
  destruct (e + (D - 53) + (DM - 53) <=? 1024 - 53); [|exact I].
  split; [exact Hm2|lia].
Qed.

(** Rounding a mantissa of at least 105 digits at an exponent of at least
    -1178 gives no zero. *)
Lemma round_product_nonzero (s : bool) (m e : Z) (l : location) :
  2 ^ 104 <= m -> -1178 <= e ->
  match binary_round_aux 53 1024 s m e l with
  | S754_zero _ => False
  | _ => True
  end.
Proof.
  intros Hm He.
  assert (0 < m) as Hpos by lia.
  destruct (binary_round_aux_spec s m e l Hpos) as (M & HM & ->).
  cbv zeta. rewrite !fexp_unfold. rewrite fexp_unfold in HM.
  pose proof (digits_lower m 104 ltac:(lia) Hm) as HD.
  set (D := Zdigits2 m) in *.
  set (n1 := Z.max (Z.max (D + e - 53) (-1074) - e) 0) in *.
  assert (1 <= m / 2 ^ n1) as Hm1
    by (change 1 with (2 ^ 0); apply shifted_lower; subst D n1; lia).
  assert (2 ^ 0 <= M) as HM1 by (change (2 ^ 0) with 1; lia).
  pose proof (digits_lower M 0 ltac:(lia) HM1) as HDM.
  set (DM := Zdigits2 M) in *.
  set (n2 := Z.max (Z.max (DM + (e + n1) - 53) (-1074) - (e + n1)) 0).
  assert (1 <= M / 2 ^ n2) as Hm2
    by (change 1 with (2 ^ 0); apply shifted_lower; subst DM n1 n2; lia).
  destruct (M / 2 ^ n2) as [|p|p]; [lia| |exact I].
  destruct (e + n1 + n2 <=? 1024 - 53); exact I.
Qed.


(** The square root of a float is zero, infinite, not a number, or finite
    with a mantissa of at least 53 digits and an exponent of at least
    -589: it is at least [2 ^ -537]. *)
Lemma sqrt_normal (x : spec_float) :
  valid_binary 53 1024 x = true ->
  match SFsqrt 53 1024 x with
  | S754_finite _ p e => 2 ^ 52 <= Zpos p /\ -589 <= e
  | _ => True
  end.
Proof.
  intros Hvalid. destruct x as [s|s| |s mx ex]; cbn [SFsqrt].
  - exact I.
  - destruct s; exact I.
  - exact I.
  - destruct s; [exact I|].
    cbn [valid_binary] in Hvalid. unfold bounded in Hvalid.
    apply andb_prop in Hvalid. destruct Hvalid as [Hcanonical _].
    unfold canonical_mantissa in Hcanonical. apply Z.eqb_eq in Hcanonical.
    rewrite fexp_unfold in Hcanonical.
    unfold SFsqrt_core_binary. rewrite !fexp_unfold, !Z.div2_div.
    cbn [Zdigits2].
    destruct (digits_positive (Zpos mx) ltac:(lia)) as [[Hlow _] Hd].
    cbn [Zdigits2] in Hlow, Hd.
    set (d := Zpos (digits2_pos mx)) in *.
    set (e' := Z.min (Z.max ((d + ex + 1) / 2 - 53) (-1074)) (ex / 2)).
    assert (2 * ((d + ex + 1) / 2) <= d + ex + 1 < 2 * ((d + ex + 1) / 2) + 2)
      as Hhalf by (pose proof (Z.div_mod (d + ex + 1) 2 ltac:(lia));
                   pose proof (Z.mod_pos_bound (d + ex + 1) 2 ltac:(lia)); lia).
    assert (2 * (ex / 2) <= ex < 2 * (ex / 2) + 2)
      as Hhalf' by (pose proof (Z.div_mod ex 2 ltac:(lia));
                    pose proof (Z.mod_pos_bound ex 2 ltac:(lia)); lia).
    assert (-589 <= e' /\ 0 <= ex - 2 * e' /\ 105 <= d + (ex - 2 * e'))
      as (He' & Hs & Hwide) by (subst e'; lia).
    set (shift := ex - 2 * e') in *.
    assert (match shift with
            | Z0 => Zpos mx
            | Zpos _ => Z.shiftl (Zpos mx) shift
            | Zneg _ => 0
            end = Zpos mx * 2 ^ shift) as ->.
    { destruct shift as [|p|p] eqn:Hshift; [cbn; lia| |lia].
      apply Z.shiftl_mul_pow2. lia. }
    pose proof (Z.sqrtrem_sqrt (Zpos mx * 2 ^ shift)) as Hq.
    destruct (Z.sqrtrem (Zpos mx * 2 ^ shift)) as [q r]. cbn [fst] in Hq.
    assert (2 ^ 52 <= q) as Hq52.
    { rewrite Hq. apply Z.sqrt_le_square; [|lia|].
      - apply Z.mul_nonneg_nonneg; [lia|apply Z.pow_nonneg; lia].
      - change (2 ^ 52 * 2 ^ 52) with (2 ^ 104).
        apply Z.le_trans with (2 ^ (d - 1) * 2 ^ shift).
        + rewrite <- Z.pow_add_r by lia. apply Z.pow_le_mono_r; lia.
        + apply Z.mul_le_mono_nonneg_r; [apply Z.pow_nonneg; lia|exact Hlow]. }
    pose proof (round_keeps_normal false q e'
                  (if r =? 0 then loc_Exact
                   else loc_Inexact (if r <=? q then Lt else Gt))
                  Hq52 He') as Hround.
    destruct (binary_round_aux 53 1024 false q e' _); try exact I.
    exact Hround.
Qed.

(** The product of two square roots that are not zero is not zero. *)
Lemma sqrt_product_not_zero (x y : spec_float) :
  valid_binary 53 1024 x = true -> valid_binary 53 1024 y = true ->
  SFeqb (SFsqrt 53 1024 x) (S754_zero false) = false ->
  SFeqb (SFsqrt 53 1024 y) (S754_zero false) = false ->
  SFeqb (SFmul 53 1024 (SFsqrt 53 1024 x) (SFsqrt 53 1024 y))
        (S754_zero false)
  = false.
Proof.
  intros Hx Hy Hsx Hsy.
  pose proof (sqrt_normal x Hx) as Hnx. pose proof (sqrt_normal y Hy) as Hny.
  destruct (SFsqrt 53 1024 x) as [s1|s1| |s1 p1 e1];
    destruct (SFsqrt 53 1024 y) as [s2|s2| |s2 p2 e2];
    try discriminate; try reflexivity;
    try (cbn; destruct (xorb s1 s2); reflexivity).
  cbn [SFmul]. destruct Hnx as [Hp1 He1]. destruct Hny as [Hp2 He2].
  pose proof (round_product_nonzero (xorb s1 s2) (Zpos (p1 * p2)) (e1 + e2)
                loc_Exact) as Hround.
  assert (2 ^ 104 <= Zpos (p1 * p2)) as Hwide.
  { rewrite Pos2Z.inj_mul. change (2 ^ 104) with (2 ^ 52 * 2 ^ 52).
    apply Z.mul_le_mono_nonneg; lia. }
  specialize (Hround Hwide ltac:(lia)).
  destruct (binary_round_aux 53 1024 (xorb s1 s2) (Zpos (p1 * p2)) (e1 + e2)
                             loc_Exact) as [s|s| |s p e];
    [destruct Hround| | |]; try reflexivity.
  - destruct s; reflexivity.
  - destruct s; reflexivity.
Qed.

End RoundingFacts.

(** In binary64 the product of two square roots that are not zero is not
    zero. *)
Lemma sqrt_times_sqrt (x y : float) :
  PrimFloat.eqb (PrimFloat.sqrt x) PrimFloat.zero = false ->
  PrimFloat.eqb (PrimFloat.sqrt y) PrimFloat.zero = false ->
  PrimFloat.eqb (PrimFloat.mul (PrimFloat.sqrt x) (PrimFloat.sqrt y))
                PrimFloat.zero
  = false.
Proof.
  rewrite !FloatAxioms.eqb_spec, FloatAxioms.mul_spec, !FloatAxioms.sqrt_spec.
  change (FloatOps.Prim2SF PrimFloat.zero) with (SpecFloat.S754_zero false).
  apply sqrt_product_not_zero; apply FloatAxioms.Prim2SF_valid.
Qed.


(* ===================================================================== *)
(** ** Embedding gateway: properties *)
(* ===================================================================== *)

Section EmbeddingLoop.

Context {F : Type} {ops : FloatOps F}.

Import Embedding.

Variable embeddings_create : list event -> request -> option (list (list F)).

(** A relation between a text and its vector that every answered batch
    and every vector of the fallback loop satisfies. *)
Variable related : string -> list F -> Prop.

Hypothesis batch_related :
  forall h m batch data,
    embeddings_create h (Batch m batch) = Some data ->
    Forall2 related batch data.

Hypothesis fallback_related :
  forall svc text, related text (fallback_vector embeddings_create svc text).

(** The fallback loop gives every text of the batch a vector of its own,
    in order. *)
Lemma embed_individually_all (batch : list string) :
  forall svc embeddings,
  exists svc' out,
    fold_left (embed_individually embeddings_create) batch (svc, embeddings)
    = (svc', embeddings ++ out)
    /\ Forall2 related batch out.
Proof.
  induction batch as [|t batch IH]; intros svc embeddings; simpl.
  - exists svc, []. rewrite app_nil_r. split; [reflexivity|constructor].
  - pose proof (fallback_related svc t) as Hrel.
    unfold fallback_vector in Hrel.
    destruct (generate_embedding embeddings_create svc t) as [[e|x] svc1];
      simpl in Hrel.
    + destruct (IH svc1 (embeddings ++ [e])) as (svc' & out & Hrun & Hall).
      exists svc', (e :: out). split.
      * rewrite Hrun, <- app_assoc. reflexivity.
      * constructor; assumption.
    + destruct (IH svc1 (embeddings ++ [zero_vector]))
        as (svc' & out & Hrun & Hall).
      exists svc', (zero_vector :: out). split.
      * rewrite Hrun, <- app_assoc. reflexivity.
      * constructor; assumption.
Qed.

Lemma embed_batch_all (texts : list string) (svc : EmbeddingService)
      (embeddings : list (list F)) (i : nat) :
  exists svc' out,
    embed_batch embeddings_create texts (svc, embeddings) i
    = (svc', embeddings ++ out)
    /\ Forall2 related (firstn max_batch_size (skipn i texts)) out.
Proof.
  unfold embed_batch.
  destruct (embeddings_create (history svc)
              (Batch (model svc) (firstn max_batch_size (skipn i texts))))
    as [data|] eqn:Hresp.
  - eexists. exists data. split; [reflexivity|].
    eapply batch_related. exact Hresp.
  - apply embed_individually_all.
Qed.

Lemma firstn_next (A : Type) (n m : nat) (l : list A) :
  firstn (n + m) l = firstn n l ++ firstn m (skipn n l).
Proof.
  revert l. induction n as [|n IH]; intros l; simpl; [reflexivity|].
  destruct l as [|x l]; simpl.
  - rewrite firstn_nil. reflexivity.
  - rewrite IH. reflexivity.
Qed.

(** After [batches] rounds the first [batches * max_batch_size] texts
    have their vectors. *)
Lemma embed_batches_all (texts : list string) (svc : EmbeddingService)
      (batches : nat) :
  exists svc' out,
    fold_left (embed_batch embeddings_create texts)
              (map (fun k => (k * max_batch_size)%nat) (seq 0 batches))
              (svc, [])
    = (svc', out)
    /\ Forall2 related (firstn (batches * max_batch_size) texts) out.
Proof.
  induction batches as [|n IH].
  - exists svc, []. simpl. split; [reflexivity|constructor].
  - destruct IH as (svc1 & out1 & Hrun & Hall).
    rewrite seq_S, map_app, fold_left_app, Hrun.
    cbn [map fold_left Nat.add].
    destruct (embed_batch_all texts svc1 out1 (n * max_batch_size))
      as (svc2 & out2 & Hstep & Hnew).
    exists svc2, (out1 ++ out2). split; [exact Hstep|].
    replace (S n * max_batch_size)%nat
      with (n * max_batch_size + max_batch_size)%nat by lia.
    rewrite firstn_next. apply Forall2_app; assumption.
Qed.

(** The rounds cover all texts. *)
Lemma generate_embeddings_batch_related (svc : EmbeddingService)
      (texts : list string) :
  Forall2 related texts
          (fst (generate_embeddings_batch embeddings_create svc texts)).
Proof.
  unfold generate_embeddings_batch, range_step.
  destruct (embed_batches_all texts svc
              ((length texts + max_batch_size - 1) / max_batch_size))
    as (svc' & out & Hrun & Hall).
  rewrite Hrun. simpl.
  rewrite firstn_all2 in Hall; [exact Hall|].
  unfold max_batch_size.
  pose proof (Nat.div_mod_eq (length texts + 100 - 1) 100) as Hdiv.
  pose proof (Nat.mod_upper_bound (length texts + 100 - 1) 100) as Hmod.
  lia.
Qed.

End EmbeddingLoop.

Section EmbeddingPlaces.

Context {F : Type} {ops : FloatOps F}.

Import Embedding.

Variable embeddings_create : list event -> request -> option (list (list F)).

(** A relation between a text and its vector that every answered batch
    satisfies, and every vector of the fallback loop for a text of a
    batch that was refused. *)
Variable related : string -> list F -> Prop.

Hypothesis batch_related :
  forall h m batch data,
    embeddings_create h (Batch m batch) = Some data ->
    Forall2 related batch data.

Hypothesis fallback_related :
  forall h m batch svc text,
    embeddings_create h (Batch m batch) = None ->
    In text batch ->
    related text (fallback_vector embeddings_create svc text).

Lemma embed_individually_places (h : list event) (m : string)
      (batch : list string) :
  embeddings_create h (Batch m batch) = None ->
  forall texts,
    (forall t, In t texts -> In t batch) ->
    forall svc embeddings,
    exists svc' out,
      fold_left (embed_individually embeddings_create) texts
                (svc, embeddings)
      = (svc', embeddings ++ out)
      /\ Forall2 related texts out.
Proof.
  intros Hnone. induction texts as [|t texts IH];
    intros Hsub svc embeddings; simpl.
  - exists svc, []. rewrite app_nil_r. split; [reflexivity|constructor].
  - pose proof (fallback_related h m batch svc t Hnone
                  (Hsub t (or_introl eq_refl))) as Hrel.
    unfold fallback_vector in Hrel.
    assert (forall t', In t' texts -> In t' batch) as Hrest
      by (intros t' Hin; apply Hsub; right; exact Hin).
    destruct (generate_embedding embeddings_create svc t) as [[e|x] svc1];
      simpl in Hrel.
    + destruct (IH Hrest svc1 (embeddings ++ [e]))
        as (svc' & out & Hrun & Hall).
      exists svc', (e :: out). split.
      * rewrite Hrun, <- app_assoc. reflexivity.
      * constructor; assumption.
    + destruct (IH Hrest svc1 (embeddings ++ [zero_vector]))
        as (svc' & out & Hrun & Hall).
      exists svc', (zero_vector :: out). split.
      * rewrite Hrun, <- app_assoc. reflexivity.
      * constructor; assumption.
Qed.

Lemma embed_batch_places (texts : list string) (svc : EmbeddingService)
      (embeddings : list (list F)) (i : nat) :
  exists svc' out,
    embed_batch embeddings_create texts (svc, embeddings) i
    = (svc', embeddings ++ out)
    /\ Forall2 related (firstn max_batch_size (skipn i texts)) out.
Proof.
  unfold embed_batch.
  destruct (embeddings_create (history svc)
              (Batch (model svc) (firstn max_batch_size (skipn i texts))))
    as [data|] eqn:Hresp.
  - eexists. exists data. split; [reflexivity|].
    eapply batch_related. exact Hresp.
  - apply (embed_individually_places _ _ _ Hresp). intros t Hin. exact Hin.
Qed.

Lemma embed_batches_places (texts : list string) (svc : EmbeddingService)
      (batches : nat) :
  exists svc' out,
    fold_left (embed_batch embeddings_create texts)
              (map (fun k => (k * max_batch_size)%nat) (seq 0 batches))
              (svc, [])
    = (svc', out)
    /\ Forall2 related (firstn (batches * max_batch_size) texts) out.
Proof.
  induction batches as [|n IH].
  - exists svc, []. simpl. split; [reflexivity|constructor].
  - destruct IH as (svc1 & out1 & Hrun & Hall).
    rewrite seq_S, map_app, fold_left_app, Hrun.
    cbn [map fold_left Nat.add].
    destruct (embed_batch_places texts svc1 out1 (n * max_batch_size))
      as (svc2 & out2 & Hstep & Hnew).
    exists svc2, (out1 ++ out2). split; [exact Hstep|].
    replace (S n * max_batch_size)%nat
      with (n * max_batch_size + max_batch_size)%nat by lia.
    rewrite firstn_next. apply Forall2_app; assumption.
Qed.

Lemma generate_embeddings_batch_places (svc : EmbeddingService)
      (texts : list string) :
  Forall2 related texts
          (fst (generate_embeddings_batch embeddings_create svc texts)).
Proof.
  unfold generate_embeddings_batch, range_step.
  destruct (embed_batches_places texts svc
              ((length texts + max_batch_size - 1) / max_batch_size))
    as (svc' & out & Hrun & Hall).
  rewrite Hrun. simpl.
  rewrite firstn_all2 in Hall; [exact Hall|].
  unfold max_batch_size.
  pose proof (Nat.div_mod_eq (length texts + 100 - 1) 100) as Hdiv.
  pose proof (Nat.mod_upper_bound (length texts + 100 - 1) 100) as Hmod.
  lia.
Qed.

End EmbeddingPlaces.

Section EmbeddingFacts.

Context {F : Type} {ops : FloatOps F}.

Import Embedding.

Variable embeddings_create : list event -> request -> option (list (list F)).
Variable embeds : string -> list F -> Prop.
Hypothesis in_order : answers_in_order embeddings_create embeds.

(** An embedding [generate_embedding] returns is the first one of a
    response to a request for that text. *)
Lemma retrying_answered (attempts : nat) :
  forall svc text e svc',
    retrying embeddings_create attempts svc text = (Ok e, svc') ->
    exists h m others,
      embeddings_create h (Single m text) = Some (e :: others).
Proof.
  induction attempts as [|n IH]; intros svc text e svc' Hrun; simpl in Hrun.
  - discriminate.
  - unfold attempt in Hrun.
    destruct (embeddings_create (history svc) (Single (model svc) text))
      as [[|e0 others]|] eqn:Hresp.
    + destruct n; [discriminate|]. eapply IH. exact Hrun.
    + injection Hrun as <- _. eauto.
    + destruct n; [discriminate|]. eapply IH. exact Hrun.
Qed.

Lemma fallback_embedded_or_zero (svc : EmbeddingService) (text : string) :
  embedded_or_zero embeds text (fallback_vector embeddings_create svc text).
Proof.
  unfold fallback_vector.
  destruct (generate_embedding embeddings_create svc text) as [[e|x] svc1]
    eqn:Hone; simpl.
  - left. destruct (retrying_answered 3 svc text e svc1 Hone)
      as (h & m & others & Hresp).
    destruct in_order as [_ Hsingle]. eapply Hsingle. exact Hresp.
  - right. reflexivity.
Qed.

Lemma fallback_refused (svc : EmbeddingService) (text : string) :
  refuses embeddings_create text ->
  fallback_vector embeddings_create svc text = zero_vector.
Proof.
  intros Hrefuses. unfold fallback_vector.
  destruct (generate_embedding embeddings_create svc text) as [[e|x] svc1]
    eqn:Hone; simpl; [|reflexivity].
  destruct (retrying_answered 3 svc text e svc1 Hone)
    as (h & m & others & Hresp).
  destruct (Hrefuses h m e others Hresp).
Qed.

(** C6: given an endpoint that answers in order, [embedBatch] returns one
    vector per text, in the order of the texts.  The vector of a text is
    an embedding the endpoint gave for that text, or else it is the zero
    vector of 1536 entries, and then the batch request that held the text
    failed and the single-item embedding of the text failed after its
    retries; when every batch request is answered, every text has an
    embedding of its own.  A failed single-item embedding appends the zero
    vector and the loop goes on: when the batches fail, every text the
    endpoint refuses has the zero vector at its place, next to the vectors
    of the other texts.  On the empty list nothing is returned and nothing
    is called. *)
Theorem embed_batch_keeps_order (svc : EmbeddingService)
        (texts : list string) :
  Forall2 (placed embeddings_create embeds) texts
          (fst (generate_embeddings_batch embeddings_create svc texts))
  /\ length (fst (generate_embeddings_batch embeddings_create svc texts))
     = length texts
  /\ (answers_batches embeddings_create ->
      Forall2 embeds texts
              (fst (generate_embeddings_batch embeddings_create svc texts)))
  /\ (forall svc0 acc text e,
         fst (generate_embedding embeddings_create svc0 text) = Raised e ->
         snd (embed_individually embeddings_create (svc0, acc) text)
         = acc ++ [zero_vector])
  /\ (forall svc0 acc text e,
         fst (generate_embedding embeddings_create svc0 text) = Ok e ->
         snd (embed_individually embeddings_create (svc0, acc) text)
         = acc ++ [e])
  /\ (refuses_batches embeddings_create ->
      Forall2 (fun text v => refuses embeddings_create text ->
                             v = zero_vector)
              texts
              (fst (generate_embeddings_batch embeddings_create svc texts)))
  /\ length (@zero_vector F ops) = 1536%nat
  /\ generate_embeddings_batch embeddings_create svc [] = ([], svc).
Proof.
  assert (Forall2 (placed embeddings_create embeds) texts
            (fst (generate_embeddings_batch embeddings_create svc texts)))
    as Hall.
  { apply generate_embeddings_batch_places.
    - intros h m batch data Hresp. destruct in_order as [Hbatch _].
      eapply Forall2_impl; [|eapply Hbatch; exact Hresp].
      intros t v Hv. left. exact Hv.
    - intros h m batch svc0 text Hnone Hin. unfold fallback_vector.
      destruct (generate_embedding embeddings_create svc0 text)
        as [[e|x] svc1] eqn:Hone; cbn [fst].
      + left. destruct (retrying_answered 3 svc0 text e svc1 Hone)
          as (h' & m' & others & Hresp).
        destruct in_order as [_ Hsingle]. eapply Hsingle. exact Hresp.
      + right. split; [reflexivity|]. split.
        * exists h, m, batch. split; assumption.
        * exists svc0, x. rewrite Hone. reflexivity. }
  split; [exact Hall|].
  split; [symmetry; eapply Forall2_length; exact Hall|].
  split.
  { intros Hanswers. apply generate_embeddings_batch_places.
    - destruct in_order as [Hbatch _]. exact Hbatch.
    - intros h m batch svc0 text Hnone _.
      destruct (Hanswers h m batch Hnone). }
  split.
  { intros svc0 acc text e Hfail. unfold embed_individually.
    destruct (generate_embedding embeddings_create svc0 text) as [[v|x] svc1];
      [discriminate|reflexivity]. }
  split.
  { intros svc0 acc text e Hfine. unfold embed_individually.
    destruct (generate_embedding embeddings_create svc0 text) as [[v|x] svc1];
      [|discriminate].
    cbn [fst] in Hfine. injection Hfine as ->. reflexivity. }
  split.
  { intros Hbatches. apply generate_embeddings_batch_related.
    - intros h m batch data Hresp. rewrite Hbatches in Hresp. discriminate.
    - intros svc0 text Hrefuses. apply fallback_refused. exact Hrefuses. }
  split; [apply repeat_length|reflexivity].
Qed.

End EmbeddingFacts.

Section CosineFacts.

Context {F : Type} {ops : FloatOps F}.

Import Embedding.

(** What the guard of [cosine_similarity] does, for any kernels: on two
    vectors of the same length the call returns; [0.0] when one of the
    norms is zero, the quotient otherwise. *)
Lemma cosine_guard (vec1 vec2 : list F) :
  length vec1 = length vec2 ->
  (fis_zero (np_norm vec1) = true \/ fis_zero (np_norm vec2) = true ->
   cosine_similarity vec1 vec2 = Ok fzero)
  /\ (fis_zero (np_norm vec1) = false -> fis_zero (np_norm vec2) = false ->
      cosine_similarity vec1 vec2
      = Ok (fdiv (np_dot vec1 vec2) (fmul (np_norm vec1) (np_norm vec2))))
  /\ exists x, cosine_similarity vec1 vec2 = Ok x.
Proof.
  intros Hlen. unfold cosine_similarity.
  rewrite Hlen, Nat.eqb_refl.
  destruct (fis_zero (np_norm vec1)) eqn:H1;
    destruct (fis_zero (np_norm vec2)) eqn:H2; simpl;
    repeat split; intros; try congruence; eauto;
    match goal with
    | Hz : _ \/ _ |- _ => destruct Hz; congruence
    end.
Qed.

End CosineFacts.

(** C7: on two vectors of the same length [cosine_similarity] returns
    normally.  Whenever one of the norms is zero it returns [0.0] without
    dividing; otherwise it returns the dot product divided by the product
    of the two norms, and that divisor is not zero: the norms are square
    roots in binary64, and the product of two such roots that are not
    zero does not round to zero. *)
Theorem cosine_zero_norm_guard (ops : FloatOps float)
        (vec1 vec2 : list float) :
  binary64_norms ops ->
  length vec1 = length vec2 ->
  (@fis_zero float ops (@np_norm float ops vec1) = true
   \/ @fis_zero float ops (@np_norm float ops vec2) = true ->
   @Embedding.cosine_similarity float ops vec1 vec2
   = Ok (@fzero float ops))
  /\ (@fis_zero float ops (@np_norm float ops vec1) = false ->
      @fis_zero float ops (@np_norm float ops vec2) = false ->
      @Embedding.cosine_similarity float ops vec1 vec2
      = Ok (@fdiv float ops (@np_dot float ops vec1 vec2)
              (@fmul float ops (@np_norm float ops vec1)
                               (@np_norm float ops vec2)))
      /\ @fis_zero float ops
           (@fmul float ops (@np_norm float ops vec1)
                            (@np_norm float ops vec2)) = false)
  /\ exists x, @Embedding.cosine_similarity float ops vec1 vec2 = Ok x.
Proof.
  intros (Hzero & Hmul & Hnorm) Hlen.
  destruct (@cosine_guard float ops vec1 vec2 Hlen) as (Hz & Hq & Hret).
  split; [exact Hz|]. split; [|exact Hret].
  intros H1 H2. split; [exact (Hq H1 H2)|].
  rewrite Hzero in H1, H2 |- *. rewrite Hmul.
  destruct (Hnorm vec1) as (s1 & Hs1). destruct (Hnorm vec2) as (s2 & Hs2).
  rewrite Hs1 in H1 |- *. rewrite Hs2 in H2 |- *.
  apply sqrt_times_sqrt; assumption.
Qed.

(** C7 at a concrete input: both vectors have norm zero, but they differ in
    length, and [np.dot] raises. *)
Lemma cosine_shapes_not_aligned :
  fis_zero (np_norm [0%float]) = true
  /\ fis_zero (np_norm [0%float; 0%float]) = true
  /\ Embedding.cosine_similarity [0%float] [0%float; 0%float]
     = Raised (ValueError "shapes not aligned").
Proof. repeat split; reflexivity. Qed.

Lemma cosine_zero_norm_guard_witness :
  binary64_norms Binary64.ops
  /\ length [3%float; 4%float] = length [4%float; 3%float]
  /\ Embedding.cosine_similarity [0%float; 0%float] [3%float; 4%float]
     = Ok 0%float
  /\ Embedding.cosine_similarity [3%float; 4%float] [4%float; 3%float]
     = Ok (24 / 25)%float
  /\ fis_zero (fmul (np_norm [3%float; 4%float])
                    (np_norm [4%float; 3%float])) = false.
Proof.
  assert (binary64_norms Binary64.ops) as Hops.
  { split; [reflexivity|]. split; [reflexivity|].
    intros v. exists (Binary64.dot v v). reflexivity. }
  assert (length [3%float; 4%float] = length [4%float; 3%float]) as Hlen
    by reflexivity.
  split; [exact Hops|]. split; [exact Hlen|].
  split.
  - destruct (cosine_zero_norm_guard Binary64.ops
                [0%float; 0%float] [3%float; 4%float] Hops eq_refl)
      as (Hzero & _ & _).
    apply Hzero. left. reflexivity.
  - destruct (cosine_zero_norm_guard Binary64.ops
                [3%float; 4%float] [4%float; 3%float] Hops Hlen)
      as (_ & Hquotient & _).
    destruct (Hquotient eq_refl eq_refl) as (Hvalue & Hdivisor).
    split; [|exact Hdivisor].
    rewrite Hvalue. vm_compute. reflexivity.
Defined.

Lemma embed_batch_keeps_order_witness :
  answers_in_order Sample.moody Sample.gives_one
  /\ fst (Embedding.generate_embeddings_batch
            Sample.moody Sample.embedder
            (repeat "good" 100 ++ ["bad"; "fine"]))
     = repeat [1%float] 100 ++ [Embedding.zero_vector; [1%float]]
  /\ Forall2 (placed Sample.moody Sample.gives_one)
             (repeat "good" 100 ++ ["bad"; "fine"])
             (fst (Embedding.generate_embeddings_batch
                     Sample.moody Sample.embedder
                     (repeat "good" 100 ++ ["bad"; "fine"]))).
Proof.
  assert (answers_in_order Sample.moody Sample.gives_one) as Hord.
  { split.
    - intros h m batch data Hresp. unfold Sample.moody in Hresp.
      destruct (existsb (String.eqb "bad") batch); [discriminate|].
      injection Hresp as <-. clear.
      induction batch as [|t batch IH]; constructor;
        [reflexivity|exact IH].
    - intros h m text e others Hresp. unfold Sample.moody in Hresp.
      destruct (String.eqb text "bad"); [discriminate|].
      injection Hresp as <- _. reflexivity. }
  split; [exact Hord|]. split; [vm_compute; reflexivity|].
  apply (embed_batch_keeps_order Sample.moody Sample.gives_one Hord
           Sample.embedder (repeat "good" 100 ++ ["bad"; "fine"])).
Defined.


(* ===================================================================== *)
(** ** Indexing pipeline: properties *)
(* ===================================================================== *)

Section IndexingFacts.

Context {F : Type} {ops : FloatOps F}.

Import Indexing.

Variable embeddings_create :
  list Embedding.event -> Embedding.request -> option (list (list F)).
Variable md5_hexdigest : string -> string.

(** Without [force_reindex], a chunk whose id is not stored leaves the
    selection as it is. *)
Lemma select_new_chunks (vs : VectorDB.VectorDBService F)
      (d : FaissDB.FAISSVectorDB F) (source_id : string)
      (chunks : list chunk) :
  VectorDB.db vs = Some d ->
  (forall c, In c chunks ->
             FaissDB.get_document d (_generate_chunk_id source_id c) = None) ->
  forall s,
    fold_left (select_chunk md5_hexdigest vs source_id false) chunks (Ok s)
    = Ok s.
Proof.
  intros Hdb. induction chunks as [|c chunks IH]; intros Hnew s; simpl.
  - reflexivity.
  - unfold VectorDB.get_document. rewrite Hdb.
    rewrite (Hnew c (or_introl eq_refl)).
    apply IH. intros c' Hin. apply Hnew. right. exact Hin.
Qed.

(** On an initialised index that holds none of the chunk ids, a run
    without [force_reindex] embeds nothing, stores nothing and counts
    nothing, however many chunks it is given. *)
Lemma new_chunks_are_not_indexed (env : environment F)
      (svc : IndexingService F) (d : FaissDB.FAISSVectorDB F)
      (chunks : list chunk) (source_id : string) :
  VectorDB.db (vector_service svc) = Some d ->
  (forall c, In c chunks ->
             FaissDB.get_document d (_generate_chunk_id source_id c) = None) ->
  index_chunks embeddings_create md5_hexdigest env svc chunks source_id false
  = (Ok (mkStats (length chunks) 0 0 0), svc).
Proof.
  intros Hdb Hnew. unfold index_chunks. rewrite Hdb.
  rewrite (select_new_chunks _ d source_id chunks Hdb Hnew).
  simpl. destruct svc; reflexivity.
Qed.

End IndexingFacts.

(** C1 at a concrete input: two chunks with the indices 0 and 1 and an
    index without entries.  The first run without [force_reindex] reports
    nothing indexed and nothing skipped, calls no embedding and stores
    nothing; a second run reports the same.  After a run with
    [force_reindex] both chunks are stored, and a run without it skips
    both. *)
Theorem first_run_indexes_nothing :
  let run := Indexing.index_chunks Sample.steady Sample.digest Sample.env in
  let chunks := [Sample.chunk0; Sample.chunk1] in
  fst (run Sample.indexer chunks "page" false)
  = Ok (Indexing.mkStats 2 0 0 0)
  /\ Embedding.history
       (Indexing.embedding_service
          (snd (run Sample.indexer chunks "page" false))) = []
  /\ VectorDB.count_documents
       (Indexing.vector_service
          (snd (run Sample.indexer chunks "page" false))) = Ok 0%nat
  /\ fst (run (snd (run Sample.indexer chunks "page" false))
              chunks "page" false)
     = Ok (Indexing.mkStats 2 0 0 0)
  /\ fst (run Sample.indexer chunks "page" true)
     = Ok (Indexing.mkStats 2 2 0 0)
  /\ fst (run (snd (run Sample.indexer chunks "page" true))
              chunks "page" false)
     = Ok (Indexing.mkStats 2 0 2 0).
Proof. vm_compute. repeat split; reflexivity. Qed.

(* ===================================================================== *)
(** ** Retrieval and answering: properties *)
(* ===================================================================== *)

Section AnsweringFacts.

Context {F : Type} {ops : FloatOps F}.

Variable embeddings_create :
  list Embedding.event -> Embedding.request -> option (list (list F)).
Variable chat_completions_create :
  string -> string -> string -> F -> Z -> option string.
Variable format_2f : F -> string.

(** A service on an index without entries starts, if it has to, with an
    index without rows. *)
Lemma starts_without_rows (env : environment F)
      (vs : VectorDB.VectorDBService F) :
  holds_no_entries env vs ->
  exists d,
    match VectorDB.db vs with
    | None => VectorDB.initialize env vs
    | Some _ => (Ok tt, vs)
    end = (Ok tt, VectorDB.mkVectorDB (Some d))
    /\ FaissDB.index d = Some [].
Proof.
  unfold holds_no_entries. destruct vs as [[d|]]; simpl.
  - intros Hidx. exists d. auto.
  - intros [Htype Hdisk]. unfold VectorDB.initialize.
    rewrite Htype. simpl. eexists. split; [reflexivity|].
    unfold FaissDB.initialize, FaissDB.new. simpl.
    destruct Hdisk as [-> | [-> | [docs ->]]]; reflexivity.
Qed.

(** C9: a query whose embedding is obtained, asked against an index
    without entries, is answered normally with the fixed text and no
    sources; the search it runs returns the empty list. *)
Theorem no_information_on_empty_index (env : environment F)
        (svc : RAG.RAGService F) (query : string) (top_k : Z)
        (temperature : F) (max_tokens : option Z)
        (query_embedding : list F) (es : Embedding.EmbeddingService) :
  holds_no_entries env (RAG.vector_service svc) ->
  Embedding.generate_query_embedding
    embeddings_create (RAG.embedding_service svc) query
  = (Ok query_embedding, es) ->
  exists d,
    FaissDB.index d = Some []
    /\ FaissDB.search d query_embedding top_k
       = ([], FaissDB.logged d WARNING "FAISS index is empty")
    /\ RAG.query embeddings_create chat_completions_create format_2f
                 env svc query top_k temperature max_tokens
       = (Ok (RAG.mkAnswer RAG.no_information_answer []
                           (openai_model_chat env) query None),
          RAG.mkRAG es
            (VectorDB.mkVectorDB
               (Some (FaissDB.logged d WARNING "FAISS index is empty")))).
Proof.
  intros Hempty Hembed.
  destruct (starts_without_rows env (RAG.vector_service svc) Hempty)
    as (d & Hstart & Hidx).
  exists d. split; [exact Hidx|].
  pose proof (search_no_rows d query_embedding top_k Hidx) as Hsearch.
  split; [exact Hsearch|].
  unfold RAG.query. rewrite Hstart, Hembed.
  unfold VectorDB.search. cbn [VectorDB.db]. rewrite Hsearch.
  reflexivity.
Qed.

(** A query that is not blank is embedded as soon as the endpoint
    answers the first request with an embedding. *)
Lemma query_embedding_obtained (svc : Embedding.EmbeddingService)
      (query : string) (e : list F) (others : list (list F)) :
  PyStr.is_empty (PyStr.strip query) = false ->
  embeddings_create (Embedding.history svc)
                    (Embedding.Single (Embedding.model svc)
                                      (PyStr.strip query))
  = Some (e :: others) ->
  Embedding.generate_query_embedding embeddings_create svc query
  = (Ok e,
     Embedding.called svc
       (Embedding.Single (Embedding.model svc) (PyStr.strip query))).
Proof.
  intros Hblank Hresp. unfold Embedding.generate_query_embedding.
  rewrite Hblank. unfold Embedding.generate_embedding. simpl.
  unfold Embedding.attempt. rewrite Hresp. reflexivity.
Qed.

End AnsweringFacts.

Lemma no_information_on_empty_index_witness :
  holds_no_entries Sample.env (RAG.vector_service Sample.asker)
  /\ fst (Embedding.generate_query_embedding
            Sample.steady (RAG.embedding_service Sample.asker)
            " unrelated query ")
     = Ok Sample.unit_vector
  /\ fst (RAG.query Sample.steady Sample.chat Sample.two_decimals
                    Sample.env Sample.asker " unrelated query " 5
                    0.5%float None)
     = Ok (RAG.mkAnswer RAG.no_information_answer []
                        "gpt-4-turbo-preview" " unrelated query " None).
Proof.
  assert (holds_no_entries Sample.env (RAG.vector_service Sample.asker))
    as Hempty.
  { split; [reflexivity|]. left. reflexivity. }
  assert (Embedding.generate_query_embedding
            Sample.steady (RAG.embedding_service Sample.asker)
            " unrelated query "
          = (Ok Sample.unit_vector,
             Embedding.called Sample.embedder
               (Embedding.Single "text-embedding-3-small" "unrelated query")))
    as Hembed by reflexivity.
  split; [exact Hempty|]. split; [rewrite Hembed; reflexivity|].
  destruct (no_information_on_empty_index
              Sample.steady Sample.chat Sample.two_decimals Sample.env
              Sample.asker " unrelated query " 5 0.5%float None
              Sample.unit_vector _ Hempty Hembed)
    as (d & _ & _ & Hquery).
  rewrite Hquery. reflexivity.
Defined.

(* ===================================================================== *)
(** ** Runs of the model *)
(* ===================================================================== *)

(** 250 texts go out in batches of 100, 100 and 50, with a wait after each
    batch but the last. *)
Example batches_of_250 :
  let run := Embedding.generate_embeddings_batch
               Sample.terse Sample.embedder (repeat "text" 250) in
  length (fst run) = 250%nat
  /\ Sample.sizes (Embedding.history (snd run)) = [100; 0; 100; 0; 50]%nat.
Proof. vm_compute. split; reflexivity. Qed.

(** A single text the endpoint refuses is tried three times, with a wait
    between the tries, and then the failure is raised. *)
Example three_attempts :
  let run := Embedding.generate_embedding Sample.flaky Sample.embedder "bad" in
  fst run = Raised RetryError
  /\ Sample.sizes (Embedding.history (snd run)) = [1; 0; 1; 0; 1]%nat.
Proof. vm_compute. split; reflexivity. Qed.

(** After an id was added twice, [search] names the wrong document: the
    row of the second vector of [a] is row 2, and the third stored id is
    [c]. *)
Example search_after_duplicate :
  index_ids Sample.db_with_duplicate = ["a"; "b"; "a"; "c"]
  /\ stored_ids Sample.db_with_duplicate = ["a"; "b"; "c"]
  /\ map (fun h => (FaissDB.hit_id h, FaissDB.hit_text h))
         (fst (FaissDB.search Sample.db_with_duplicate
                 [0%float; 0%float; 1%float] 1))
     = [("c", "gamma")].
Proof. vm_compute. repeat split; reflexivity. Qed.

(** Once the chunks are stored, a question is answered from them. *)
Example answer_from_stored_chunks :
  let stored :=
    snd (Indexing.index_chunks Sample.terse Sample.digest Sample.env
           Sample.indexer [Sample.chunk0; Sample.chunk1] "page" true) in
  let asked :=
    RAG.query Sample.terse Sample.chat Sample.two_decimals Sample.env
              (RAG.mkRAG Sample.embedder (Indexing.vector_service stored))
              "what?" 5 0.5%float None in
  match fst asked with
  | Ok a =>
      RAG.answer_text a = "an answer"
      /\ map (@RAG.src_text float) (RAG.sources a)
         = ["first chunk"; "second chunk"]
  | Raised _ => False
  end.
Proof. vm_compute. split; reflexivity. Qed.

(* ===================================================================== *)
(** ** Text chunker: further properties *)
(* ===================================================================== *)

Section StringFacts.

Import PyStr.

Lemma rstrip_idempotent (s : string) : rstrip (rstrip s) = rstrip s.
Proof.
  induction s as [|c r IH]; simpl; [reflexivity|].
  destruct (is_space c && is_empty (rstrip r)) eqn:Hdrop; simpl.
  - reflexivity.
  - rewrite IH, Hdrop. reflexivity.
Qed.

Lemma lstrip_head (s : string) :
  match lstrip s with
  | EmptyString => True
  | String c _ => is_space c = false
  end.
Proof.
  induction s as [|c r IH]; simpl; [exact I|].
  destruct (is_space c) eqn:Hc; [exact IH|exact Hc].
Qed.

Lemma strip_head (s : string) :
  match strip s with
  | EmptyString => True
  | String c _ => is_space c = false
  end.
Proof.
  unfold strip. pose proof (lstrip_head s) as Hhead.
  destruct (lstrip s) as [|c r]; simpl; [exact I|].
  rewrite Hhead. simpl. exact Hhead.
Qed.

(** Stripping twice is stripping once. *)
Lemma strip_idempotent (s : string) : strip (strip s) = strip s.
Proof.
  pose proof (strip_head s) as Hhead.
  unfold strip at 1.
  destruct (strip s) as [|c r] eqn:Hs; [reflexivity|].
  simpl lstrip. rewrite Hhead. rewrite <- Hs.
  unfold strip. apply rstrip_idempotent.
Qed.

Lemma all_chars_lstrip (p : ascii -> bool) (s : string) :
  all_chars p s = true -> all_chars p (lstrip s) = true.
Proof.
  induction s as [|c r IH]; simpl; [auto|].
  intros Hall. apply andb_prop in Hall. destruct Hall as [Hc Hr].
  destruct (is_space c); [auto|]. simpl. rewrite Hc, Hr. reflexivity.
Qed.

Lemma all_chars_rstrip (p : ascii -> bool) (s : string) :
  all_chars p s = true -> all_chars p (rstrip s) = true.
Proof.
  induction s as [|c r IH]; simpl; [auto|].
  intros Hall. apply andb_prop in Hall. destruct Hall as [Hc Hr].
  destruct (is_space c && is_empty (rstrip r)); [reflexivity|].
  simpl. rewrite Hc, (IH Hr). reflexivity.
Qed.

Lemma all_chars_strip (p : ascii -> bool) (s : string) :
  all_chars p s = true -> all_chars p (strip s) = true.
Proof.
  intros Hall. unfold strip. apply all_chars_rstrip, all_chars_lstrip.
  exact Hall.
Qed.

(** A string of whitespace only is stripped to nothing. *)
Lemma strip_spaces (s : string) :
  all_chars is_space s = true -> strip s = EmptyString.
Proof.
  intros Hall. unfold strip.
  assert (lstrip s = EmptyString) as ->; [|reflexivity].
  induction s as [|c r IH]; simpl in *; [reflexivity|].
  apply andb_prop in Hall. destruct Hall as [-> Hr]. auto.
Qed.

Lemma collapse_spaces_plain (s : string) :
  forall in_run,
    all_chars (fun c => negb (is_space c) || Ascii.eqb c " ")
              (collapse_spaces in_run s) = true.
Proof.
  induction s as [|c r IH]; intros in_run; simpl; [reflexivity|].
  destruct (is_space c) eqn:Hc.
  - destruct in_run; [apply IH|]. simpl. apply IH.
  - simpl. rewrite Hc. simpl. apply IH.
Qed.

Lemma remove_control_clean (s : string) :
  all_chars (fun c => negb (is_space c) || Ascii.eqb c " ") s = true ->
  all_chars clean_char (remove_control s) = true.
Proof.
  induction s as [|c r IH]; simpl; [auto|].
  intros Hall. apply andb_prop in Hall. destruct Hall as [Hc Hr].
  destruct (is_control c) eqn:Hctl; [auto|].
  simpl. unfold clean_char at 1. rewrite Hctl, Hc. simpl. auto.
Qed.

(** Of a text of whitespace and control characters only, collapsing and
    removing leaves spaces only. *)
Lemma blank_text_to_spaces (s : string) :
  all_chars blank_char s = true ->
  forall in_run,
    all_chars is_space (remove_control (collapse_spaces in_run s)) = true.
Proof.
  induction s as [|c r IH]; simpl; [auto|].
  intros Hall in_run. apply andb_prop in Hall. destruct Hall as [Hc Hr].
  unfold blank_char in Hc.
  destruct (is_space c) eqn:Hsp.
  - destruct in_run; [apply IH; exact Hr|].
    simpl. apply IH. exact Hr.
  - simpl in Hc. simpl. rewrite Hc. apply IH. exact Hr.
Qed.

End StringFacts.

(** X4: what [clean_text] returns contains no control character and no
    whitespace character but the space itself, and it neither begins nor
    ends with a space: stripping it again changes nothing.  Spaces inside
    it need not be single: the control characters are removed after the
    runs of whitespace are collapsed, so the two spaces around a removed
    character both stay. *)
Theorem clean_text_is_clean (text : string) :
  all_chars clean_char (clean_text text) = true
  /\ PyStr.strip (clean_text text) = clean_text text
  /\ clean_text (String "a" (String " " (String "000" " b"))) = "a  b".
Proof.
  split; [|split; [|reflexivity]].
  - unfold clean_text. destruct (PyStr.is_empty text); [reflexivity|].
    apply all_chars_strip, remove_control_clean, collapse_spaces_plain.
  - unfold clean_text. destruct (PyStr.is_empty text); [reflexivity|].
    apply strip_idempotent.
Qed.

Section MoreChunkerFacts.

Variable encode_len : string -> nat.

Local Abbreviation tok := (tokens encode_len).

Lemma sentences_not_empty (text : string) :
  Forall (fun s => PyStr.is_empty s = false) (_split_into_sentences text).
Proof.
  unfold _split_into_sentences. apply Forall_forall. intros s Hin.
  apply in_map_iff in Hin. destruct Hin as (x & <- & Hx).
  apply filter_In in Hx. destruct Hx as [_ Hx].
  destruct (PyStr.is_empty (PyStr.strip x)); [discriminate|reflexivity].
Qed.

Lemma words_not_empty (sentence : string) :
  Forall (fun w => PyStr.is_empty w = false) (PyStr.split sentence).
Proof.
  unfold PyStr.split. apply Forall_forall. intros w Hin.
  apply filter_In in Hin. destruct Hin as [_ Hw].
  destruct (PyStr.is_empty w); [discriminate|reflexivity].
Qed.

(** Joining a list that is not empty and has no empty member gives a
    string that is not empty. *)
Lemma join_not_empty (l : list string) :
  l <> [] -> Forall (fun s => PyStr.is_empty s = false) l ->
  PyStr.is_empty (PyStr.join l) = false.
Proof.
  intros Hne Hall. destruct l as [|x l]; [contradiction|].
  inversion Hall as [|? ? Hx Hl]; subst.
  unfold PyStr.join. simpl.
  destruct x as [|c x]; [discriminate|].
  destruct l; reflexivity.
Qed.

Lemma pieces_not_empty (sentence : string) (max_tokens : Z) :
  Forall (fun c => PyStr.is_empty c = false)
         (_split_long_sentence encode_len sentence max_tokens).
Proof.
  destruct (_split_long_sentence_groups encode_len sentence max_tokens)
    as (groups & Hcat & Hgrp & ->).
  pose proof (words_not_empty sentence) as Hwords.
  rewrite <- Hcat in Hwords. apply Forall_concat in Hwords.
  apply Forall_forall. intros c Hin. apply in_map_iff in Hin.
  destruct Hin as (g & <- & Hg).
  apply join_not_empty.
  - rewrite Forall_forall in Hgrp. destruct (Hgrp g Hg) as [Hne _]. exact Hne.
  - rewrite Forall_forall in Hwords. apply Hwords. exact Hg.
Qed.

Lemma chunk_sentence_nothing_empty (chunk_size chunk_overlap : Z)
      (st : chunker) (sentence : string) :
  nothing_empty st -> PyStr.is_empty sentence = false ->
  nothing_empty (chunk_sentence encode_len chunk_size chunk_overlap st sentence).
Proof.
  unfold nothing_empty. intros [Hcur Hout] Hs.
  assert (current_chunk st <> [] ->
          Forall (fun c : origin * string => PyStr.is_empty (snd c) = false)
                 (chunks st ++ [(Packed, PyStr.join (current_chunk st))]))
    as Hflush.
  { intros Hne. apply Forall_app. split; [exact Hout|].
    constructor; [|constructor]. simpl. apply join_not_empty; assumption. }
  unfold chunk_sentence.
  destruct (tok sentence >? chunk_size).
  - assert (Forall (fun c : origin * string => PyStr.is_empty (snd c) = false)
                   (map (pair LongSplit)
                        (_split_long_sentence encode_len sentence chunk_size)))
      as Hpieces.
    { apply Forall_forall. intros c Hin. apply in_map_iff in Hin.
      destruct Hin as (x & <- & Hx). simpl.
      pose proof (pieces_not_empty sentence chunk_size) as Hall.
      rewrite Forall_forall in Hall. apply Hall. exact Hx. }
    destruct (current_chunk st) as [|c0 cs0] eqn:Hc;
      cbn [chunks current_chunk].
    + rewrite Hc. split; [constructor|]. apply Forall_app. auto.
    + split; [constructor|]. apply Forall_app. split; [|exact Hpieces].
      apply Hflush. discriminate.
  - destruct (current_tokens st + tok sentence >? chunk_size).
    + destruct (current_chunk st) as [|c0 cs0] eqn:Hc.
      * cbn [chunks current_chunk]. rewrite Hc. split; [|exact Hout].
        constructor; [exact Hs|constructor].
      * destruct (keep_overlap_spec encode_len chunk_overlap (c0 :: cs0))
          as (dropped & seed & Hsplit & Hkeep & _).
        rewrite Hkeep. cbn [chunks current_chunk]. split.
        -- apply Forall_app. split; [|constructor; [exact Hs|constructor]].
           rewrite Hsplit in Hcur. apply Forall_app in Hcur. tauto.
        -- apply Hflush. discriminate.
    + cbn [chunks current_chunk]. split; [|exact Hout].
      apply Forall_app. split; [exact Hcur|].
      constructor; [exact Hs|constructor].
Qed.

(** X2: [create_chunks] never returns an empty chunk, whatever the text,
    the sizes and the tokenizer. *)
Theorem no_empty_chunk (text : string) (chunk_size chunk_overlap : Z) :
  Forall (fun c => PyStr.is_empty c = false)
         (create_chunks encode_len text chunk_size chunk_overlap).
Proof.
  unfold create_chunks, create_chunks_tagged.
  destruct (PyStr.is_empty text); [constructor|].
  assert (forall l st,
             nothing_empty st ->
             Forall (fun s => PyStr.is_empty s = false) l ->
             nothing_empty
               (fold_left (chunk_sentence encode_len chunk_size chunk_overlap)
                          l st)) as Hfold.
  { induction l as [|s l IH]; intros st Hinv Hall; simpl; [exact Hinv|].
    inversion Hall as [|? ? Hs Hl]; subst.
    apply IH; [|exact Hl]. apply chunk_sentence_nothing_empty; assumption. }
  destruct (Hfold (_split_into_sentences (clean_text text)) start)
    as [Hcur Hout].
  { split; constructor. }
  { apply sentences_not_empty. }
  unfold finish, chunk_sentences.
  destruct (current_chunk (fold_left _ _ start)) as [|c0 cs0] eqn:Hc.
  - apply Forall_map. exact Hout.
  - apply Forall_map. apply Forall_app. split; [exact Hout|].
    constructor; [|constructor]. simpl.
    apply join_not_empty; [discriminate|exact Hcur].
Qed.

Lemma chunk_sentence_covers (chunk_size chunk_overlap : Z)
      (st : chunker) (seen : list string) (sentence : string) :
  chunk_overlap <= 0 ->
  covers encode_len chunk_size st seen ->
  covers encode_len chunk_size
         (chunk_sentence encode_len chunk_size chunk_overlap st sentence)
         (seen ++ [sentence]).
Proof.
  intros Hco (groups & Hout & Hne & Hcat).
  unfold covers. rewrite flat_map_app. simpl. rewrite app_nil_r, <- Hcat.
  unfold chunk_sentence, atoms.
  destruct (tok sentence >? chunk_size).
  - destruct (_split_long_sentence_groups encode_len sentence chunk_size)
      as (pieces & Hwords & Hgrp & ->).
    assert (Forall (fun g : list string => g <> []) pieces) as Hpieces.
    { eapply Forall_impl; [|exact Hgrp]. intros g [Hg _]. exact Hg. }
    destruct (current_chunk st) as [|c0 cs0] eqn:Hc;
      cbn [chunks current_chunk].
    + rewrite Hc. exists (groups ++ pieces).
      rewrite !map_app, map_map, Hout, concat_app, Hwords, !app_nil_r.
      simpl. rewrite map_id.
      split; [reflexivity|]. split; [apply Forall_app; auto|reflexivity].
    + exists ((groups ++ [c0 :: cs0]) ++ pieces).
      rewrite !map_app, map_map, Hout, !concat_app, Hwords, !app_nil_r.
      simpl. rewrite map_id, app_nil_r.
      split; [reflexivity|]. split; [|reflexivity].
      apply Forall_app. split; [|exact Hpieces].
      apply Forall_app. split; [exact Hne|].
      constructor; [discriminate|constructor].
  - destruct (current_tokens st + tok sentence >? chunk_size).
    + destruct (current_chunk st) as [|c0 cs0] eqn:Hc.
      * cbn [chunks current_chunk]. rewrite Hc. exists groups.
        rewrite !app_nil_r. auto.
      * unfold keep_overlap.
        assert ((chunk_overlap >? 0) = false) as ->.
        { rewrite Z.gtb_ltb. apply Z.ltb_ge. exact Hco. }
        cbn [chunks current_chunk]. exists (groups ++ [c0 :: cs0]).
        rewrite !map_app, Hout, concat_app. simpl. rewrite app_nil_r.
        split; [reflexivity|]. split; [|rewrite <- app_assoc; reflexivity].
        apply Forall_app. split; [exact Hne|].
        constructor; [discriminate|constructor].
    + cbn [chunks current_chunk]. exists groups.
      rewrite app_assoc. auto.
Qed.

(** X3: without overlap the chunks divide the text: they are the joins
    of groups of consecutive atoms, none of them empty, and the groups one
    after the other list every sentence of the cleaned text once, in order
    (a sentence that is split is listed word by word). *)
Theorem chunks_divide_text (text : string) (chunk_size chunk_overlap : Z) :
  chunk_overlap <= 0 ->
  exists groups,
    Forall (fun g => g <> []) groups
    /\ concat groups
       = flat_map (atoms encode_len chunk_size)
                  (_split_into_sentences (clean_text text))
    /\ create_chunks encode_len text chunk_size chunk_overlap
       = map PyStr.join groups.
Proof.
  intros Hco. unfold create_chunks, create_chunks_tagged.
  destruct (PyStr.is_empty text) eqn:Hempty.
  { exists []. destruct text; [|discriminate].
    split; [constructor|]. split; reflexivity. }
  assert (forall l st seen,
             covers encode_len chunk_size st seen ->
             covers encode_len chunk_size
               (fold_left (chunk_sentence encode_len chunk_size chunk_overlap)
                          l st)
               (seen ++ l)) as Hfold.
  { induction l as [|s l IH]; intros st seen Hinv; simpl.
    - rewrite app_nil_r. exact Hinv.
    - replace (seen ++ s :: l) with ((seen ++ [s]) ++ l)
        by (rewrite <- app_assoc; reflexivity).
      apply IH. apply chunk_sentence_covers; assumption. }
  destruct (Hfold (_split_into_sentences (clean_text text)) start [])
    as (groups & Hout & Hne & Hcat).
  { exists []. split; [reflexivity|]. split; [constructor|reflexivity]. }
  simpl in Hcat. unfold finish, chunk_sentences.
  destruct (current_chunk (fold_left _ _ start)) as [|c0 cs0] eqn:Hc.
  - exists groups. rewrite app_nil_r in Hcat. auto.
  - exists (groups ++ [c0 :: cs0]). split; [|split].
    + apply Forall_app. split; [exact Hne|].
      constructor; [discriminate|constructor].
    + rewrite concat_app. simpl. rewrite app_nil_r. exact Hcat.
    + rewrite !map_app, Hout. reflexivity.
Qed.

(** X5: a text that consists of whitespace and control characters only
    gives no chunk. *)
Theorem blank_text_no_chunks (text : string) (chunk_size chunk_overlap : Z) :
  all_chars blank_char text = true ->
  create_chunks encode_len text chunk_size chunk_overlap = [].
Proof.
  intros Hblank. unfold create_chunks, create_chunks_tagged.
  destruct (PyStr.is_empty text); [reflexivity|].
  assert (clean_text text = EmptyString) as ->; [|reflexivity].
  unfold clean_text. destruct (PyStr.is_empty text); [reflexivity|].
  apply strip_spaces. apply blank_text_to_spaces. exact Hblank.
Qed.

End MoreChunkerFacts.

Lemma packed_chunks_within_size_plus_overlap_witness :
  In (Packed, "a b c. d e f.")
     (create_chunks_tagged word_punct_tokens "a b c. d e f." 7 4)
  /\ packed_within word_punct_tokens 7 4 "a b c. d e f.".
Proof.
  assert (In (Packed, "a b c. d e f.")
             (create_chunks_tagged word_punct_tokens "a b c. d e f." 7 4))
    as Hin by (right; left; reflexivity).
  split; [exact Hin|].
  exact (packed_chunks_within_size_plus_overlap
           word_punct_tokens "a b c. d e f." 7 4 "a b c. d e f." Hin).
Defined.

Lemma chunks_divide_text_witness :
  0 <= 0
  /\ exists groups,
      concat groups = ["Hi."; "one"; "two"; "three."; "Bye."]
      /\ create_chunks word_punct_tokens "Hi. one two three. Bye." 2 0
         = map PyStr.join groups.
Proof.
  assert (0 <= 0) as Hco by lia.
  split; [exact Hco|].
  destruct (chunks_divide_text word_punct_tokens "Hi. one two three. Bye."
              2 0 Hco) as (groups & _ & Hcat & Hrun).
  exists groups. split; [exact Hcat|exact Hrun].
Defined.

Lemma blank_text_no_chunks_witness :
  all_chars blank_char "   " = true
  /\ create_chunks word_punct_tokens "   " 500 50 = [].
Proof.
  assert (all_chars blank_char "   " = true) as Hblank by reflexivity.
  split; [exact Hblank|].
  exact (blank_text_no_chunks word_punct_tokens "   " 500 50 Hblank).
Defined.

(* ===================================================================== *)
(** ** FAISS backend: further properties *)
(* ===================================================================== *)

Section MoreDictFacts.

Variable V : Type.

Lemma get_pop_same (k : string) (d : Dict.t V) :
  Dict.get k (Dict.pop k d) = None.
Proof.
  unfold Dict.pop. induction d as [|[k' v] d IH]; simpl; [reflexivity|].
  destruct (String.eqb_spec k k') as [->|Hne]; simpl; [exact IH|].
  destruct (String.eqb_spec k k'); [contradiction|exact IH].
Qed.

Lemma get_pop_other (k j : string) (d : Dict.t V) :
  j <> k -> Dict.get j (Dict.pop k d) = Dict.get j d.
Proof.
  intros Hne. unfold Dict.pop.
  induction d as [|[k' v] d IH]; simpl; [reflexivity|].
  destruct (String.eqb_spec k k') as [->|Hkk]; simpl.
  - destruct (String.eqb_spec j k'); [contradiction|exact IH].
  - rewrite IH. reflexivity.
Qed.

Lemma pop_length (k : string) (d : Dict.t V) :
  (length (Dict.pop k d) <= length d)%nat.
Proof. unfold Dict.pop. apply filter_length_le. Qed.

Lemma get_pop_all (ids : list string) :
  forall (d : Dict.t V) (j : string),
    Dict.get j (fold_left (fun d id => Dict.pop id d) ids d)
    = if in_dec string_dec j ids then None else Dict.get j d.
Proof.
  induction ids as [|k ids IH]; intros d j; simpl; [reflexivity|].
  rewrite IH.
  destruct (in_dec string_dec j ids) as [Hin|Hout].
  - destruct (string_dec k j); reflexivity.
  - destruct (string_dec k j) as [->|Hne].
    + apply get_pop_same.
    + apply get_pop_other. congruence.
Qed.

Lemma pop_all_length (ids : list string) :
  forall d : Dict.t V,
    (length (fold_left (fun d id => Dict.pop id d) ids d) <= length d)%nat.
Proof.
  induction ids as [|k ids IH]; intros d; simpl; [lia|].
  specialize (IH (Dict.pop k d)). pose proof (pop_length k d). lia.
Qed.

Lemma get_in_keys (k : string) (d : Dict.t V) :
  In k (Dict.keys d) -> exists v, Dict.get k d = Some v.
Proof.
  intros Hin. apply mem_in_keys in Hin. unfold Dict.mem in Hin.
  destruct (Dict.get k d) as [v|]; [eauto|discriminate].
Qed.

End MoreDictFacts.

Section MoreFaissFacts.

Context {F : Type} {ops : FloatOps F}.

Import FaissDB.

(** An id that is not assigned in a call keeps its record. *)
Lemma store_after_get_other (docs : list (document F)) :
  forall store j,
    ~ In j (assigned_ids store docs) ->
    Dict.get j (store_after store docs) = Dict.get j store.
Proof.
  induction docs as [|d r IH]; intros store j Hout; simpl; [reflexivity|].
  simpl in Hout. rewrite IH by tauto.
  apply get_set_other. intros Heq. apply Hout. left. symmetry. exact Heq.
Qed.

(** With ids that differ from each other, every element ends up under
    its own id. *)
Lemma store_after_get_own (docs : list (document F)) :
  forall store i d id,
    NoDup (assigned_ids store docs) ->
    nth_error docs i = Some d ->
    nth_error (assigned_ids store docs) i = Some id ->
    Dict.get id (store_after store docs) = Some (record_of d).
Proof.
  induction docs as [|d0 r IH]; intros store i d id Hnd Hd Hid.
  - destruct i; discriminate.
  - simpl in *. inversion Hnd as [|? ? Hnotin Hnd']; subst.
    destruct i as [|i]; simpl in *.
    + injection Hd as <-. injection Hid as <-.
      rewrite store_after_get_other by exact Hnotin.
      apply get_set_same.
    + eapply IH; eassumption.
Qed.

(** X6: what [add_documents] stores under ids that differ from each other
    can be read back: [get_document] returns, for every element, its id
    with its text and metadata (the defaults where they are missing), and
    the documents stored under other ids are as before. *)
Theorem add_then_get (db : FAISSVectorDB F) (rows : list (row F))
        (docs : list (document F)) :
  index db = Some rows ->
  NoDup (assigned_ids (documents db) docs) ->
  fst (add_documents db docs) = Ok tt
  /\ (forall i d id,
         nth_error docs i = Some d ->
         nth_error (assigned_ids (documents db) docs) i = Some id ->
         get_document (snd (add_documents db docs)) id
         = Some (mkEntry id (stored_text (record_of d))
                         (stored_metadata (record_of d))))
  /\ (forall j,
         ~ In j (assigned_ids (documents db) docs) ->
         get_document (snd (add_documents db docs)) j = get_document db j).
Proof.
  intros Hidx Hnd. destruct docs as [|d0 r].
  - simpl. split; [reflexivity|]. split; [|reflexivity].
    intros i d id Hd. destruct i; discriminate.
  - rewrite (add_documents_ready db rows (d0 :: r) Hidx) by discriminate.
    cbn [fst snd]. unfold get_document. cbn [documents].
    split; [reflexivity|]. split.
    + intros i d id Hd Hid.
      rewrite (store_after_get_own (d0 :: r) (documents db) i d id Hnd Hd Hid).
      reflexivity.
    + intros j Hout. rewrite store_after_get_other by exact Hout.
      reflexivity.
Qed.

(** X7: after [delete_documents] none of the given ids can be read, every
    other document reads as before, and the count has not grown. *)
Theorem delete_then_get (db : FAISSVectorDB F) (ids : list string) :
  fst (delete_documents db ids) = Ok tt
  /\ (forall j, In j ids ->
                get_document (snd (delete_documents db ids)) j = None)
  /\ (forall j, ~ In j ids ->
                get_document (snd (delete_documents db ids)) j
                = get_document db j)
  /\ (count_documents (snd (delete_documents db ids))
      <= count_documents db)%nat.
Proof.
  destruct ids as [|k ids].
  - simpl. split; [reflexivity|]. split; [contradiction|].
    split; [reflexivity|lia].
  - unfold delete_documents. cbn [fst snd].
    unfold get_document, count_documents, logged. cbn [documents].
    rewrite _rebuild_index_documents. unfold with_documents. cbn [documents].
    split; [reflexivity|]. split; [|split].
    + intros j Hin. rewrite get_pop_all.
      destruct (in_dec string_dec j (k :: ids)); [reflexivity|contradiction].
    + intros j Hout. rewrite get_pop_all.
      destruct (in_dec string_dec j (k :: ids)); [contradiction|reflexivity].
    + apply pop_all_length.
Qed.

(** X8: [add_documents] and [update_document] keep index and metadata
    store on the same ids: if every id present on one side was present on
    the other before the call, it is so after it. *)
Theorem adding_keeps_ids_together (db : FAISSVectorDB F)
        (rows : list (row F)) (docs : list (document F))
        (document_id : string) (doc : document F) :
  index db = Some rows -> same_ids db ->
  same_ids (snd (add_documents db docs))
  /\ same_ids (snd (update_document db document_id doc)).
Proof.
  intros Hidx Hsame. split.
  - apply (add_documents_same_ids db rows docs Hidx Hsame).
  - apply (update_document_same_ids db rows document_id doc Hidx Hsame).
Qed.

(** X9: [update_document] replaces the record but appends the vector.  On
    an index that corresponds to its store, updating a stored id gives the
    id its new text and metadata and leaves the count as it is, but adds a
    row, so that index and store no longer correspond; updating an id that
    is not stored adds the document and keeps them in correspondence. *)
Theorem update_appends_a_row (db : FAISSVectorDB F) (document_id : string)
        (doc : document F) :
  in_step db ->
  fst (update_document db document_id doc) = Ok tt
  /\ get_document (snd (update_document db document_id doc)) document_id
     = Some (mkEntry document_id (stored_text (record_of doc))
                     (stored_metadata (record_of doc)))
  /\ row_count (snd (update_document db document_id doc))
     = S (row_count db)
  /\ (Dict.mem document_id (documents db) = true ->
      count_documents (snd (update_document db document_id doc))
      = count_documents db
      /\ ~ in_step (snd (update_document db document_id doc)))
  /\ (Dict.mem document_id (documents db) = false ->
      count_documents (snd (update_document db document_id doc))
      = S (count_documents db)
      /\ in_step (snd (update_document db document_id doc))).
Proof.
  intros (rows & Hidx & Hown).
  unfold update_document.
  set (new := mkDocument (Some document_id) (doc_text doc)
                         (doc_embedding doc) (doc_metadata doc)).
  set (db1 := if Dict.mem document_id (documents db) then _ else db).
  assert (index db1 = Some rows) as Hidx1
    by (subst db1; destruct (Dict.mem document_id (documents db)); exact Hidx).
  rewrite (add_documents_ready db1 rows [new] Hidx1) by discriminate.
  cbn [fst snd].
  unfold get_document, row_count, count_documents, in_step, stored_ids,
    logged, ntotal.
  cbn [index documents store_after id_in doc_id new].
  split; [reflexivity|].
  split; [rewrite get_set_same; reflexivity|].
  split; [rewrite length_app, Hidx; unfold new_rows; simpl; lia|].
  assert (length (map row_owner rows) = length (Dict.keys (documents db)))
    as Hlen by (unfold stored_ids in Hown; rewrite Hown; reflexivity).
  rewrite length_map, keys_length in Hlen.
  split.
  - intros Hmem. subst db1. rewrite Hmem. cbn [documents with_documents].
    rewrite !set_length_bound, Hmem.
    assert (Dict.mem document_id
              (Dict.set document_id (record_of doc) (documents db)) = true)
      as Hmem'.
    { apply mem_in_keys. rewrite keys_set, Hmem. apply mem_in_keys.
      exact Hmem. }
    change (mkStored match doc_text doc with Some t => t | None => "" end
                     match doc_metadata doc with Some m => m | None => [] end)
      with (record_of doc).
    change (record_of new) with (record_of doc).
    rewrite Hmem'. split; [reflexivity|].
    intros (rows' & Hrows' & Hown'). injection Hrows' as <-.
    apply (f_equal (@length string)) in Hown'.
    rewrite length_map, length_app, keys_length, set_length_bound, Hmem',
      set_length_bound, Hmem in Hown'.
    unfold new_rows in Hown'. simpl in Hown'. lia.
  - intros Hmem. subst db1. rewrite Hmem.
    rewrite set_length_bound, Hmem. split; [reflexivity|].
    eexists. split; [reflexivity|].
    rewrite map_app, new_rows_owners, keys_set, Hmem. simpl.
    unfold stored_ids in Hown. rewrite Hown. reflexivity.
Qed.

(** X10: what is saved comes back.  After [add_documents] (of at least
    one element), after [close] and after [clear_collection] on an
    initialised index, a new backend that initialises from the files has
    the rows and the documents the old one had. *)
Theorem saved_files_reload (db : FAISSVectorDB F) (rows : list (row F))
        (docs : list (document F)) :
  index db = Some rows ->
  (docs <> [] ->
   index (initialize (new (disk (snd (add_documents db docs)))))
   = index (snd (add_documents db docs))
   /\ documents (initialize (new (disk (snd (add_documents db docs)))))
      = documents (snd (add_documents db docs)))
  /\ index (initialize (new (disk (close db)))) = index db
  /\ documents (initialize (new (disk (close db)))) = documents db
  /\ index (initialize (new (disk (clear_collection db)))) = Some []
  /\ documents (initialize (new (disk (clear_collection db)))) = [].
Proof.
  intros Hidx. split.
  - intros Hne. rewrite (add_documents_ready db rows docs Hidx Hne).
    split; reflexivity.
  - unfold close, clear_collection, _save_index. cbn [index with_index
      with_documents]. rewrite Hidx. repeat split; reflexivity.
Qed.

(** X11: a deletion is not saved.  [delete_documents] leaves the files as
    they are, so after documents were added and some of them deleted, a
    new backend that initialises from the files has all of them again,
    with their rows. *)
Theorem deletion_is_not_saved (db : FAISSVectorDB F) (rows : list (row F))
        (docs : list (document F)) (ids : list string) :
  index db = Some rows -> docs <> [] ->
  disk (snd (delete_documents (snd (add_documents db docs)) ids))
  = disk (snd (add_documents db docs))
  /\ documents
       (initialize
          (new (disk (snd (delete_documents
                             (snd (add_documents db docs)) ids)))))
     = documents (snd (add_documents db docs))
  /\ index
       (initialize
          (new (disk (snd (delete_documents
                             (snd (add_documents db docs)) ids)))))
     = index (snd (add_documents db docs)).
Proof.
  intros Hidx Hne.
  assert (forall d : FAISSVectorDB F,
             disk (snd (delete_documents d ids)) = disk d) as Hdisk.
  { intros d. destruct ids as [|k ids]; [reflexivity|].
    unfold delete_documents, _rebuild_index. cbn -[fold_left].
    destruct (fold_left _ _ _); reflexivity. }
  rewrite Hdisk. split; [reflexivity|].
  rewrite (add_documents_ready db rows docs Hidx Hne).
  split; reflexivity.
Qed.

(** The loop that formats the answer of FAISS never fails, and every hit
    it makes carries a stored id with the text and metadata stored for
    it. *)
Lemma format_results_stored (docs : Dict.t stored) (found : list (F * Z)) :
  exists hits,
    format_results docs found = Ok hits
    /\ (length hits <= length found)%nat
    /\ Forall (fun h =>
                 Dict.get (hit_id h) docs
                 = Some (mkStored (hit_text h) (hit_metadata h)))
              hits.
Proof.
  induction found as [|[score idx] found IH]; simpl.
  - exists []. split; [reflexivity|]. split; [apply le_n|constructor].
  - destruct IH as (hits & Hrun & Hlen & Hall).
    destruct ((0 <=? idx) && (idx <? Z.of_nat (length (Dict.keys docs))))
      eqn:Hbound.
    + apply andb_prop in Hbound. destruct Hbound as [Hlo Hhi].
      apply Z.leb_le in Hlo. apply Z.ltb_lt in Hhi.
      destruct (nth_error_defined _ (Dict.keys docs) (Z.to_nat idx))
        as [id Hid]; [apply Nat2Z.inj_lt; rewrite Z2Nat.id; assumption|].
      rewrite Hid.
      destruct (get_in_keys _ id docs (nth_error_In _ _ Hid)) as [doc Hdoc].
      rewrite Hdoc, Hrun. eexists. split; [reflexivity|].
      split; [simpl; lia|]. constructor; [|exact Hall].
      simpl. rewrite Hdoc. destruct doc; reflexivity.
    + exists hits. split; [exact Hrun|]. split; [lia|exact Hall].
Qed.

(** A search returns stored documents and changes nothing but the
    log. *)
Lemma search_keeps_store (db : FAISSVectorDB F) (query_embedding : list F)
      (top_k : Z) :
  Forall (fun h =>
            Dict.get (hit_id h) (documents db)
            = Some (mkStored (hit_text h) (hit_metadata h)))
         (fst (search db query_embedding top_k))
  /\ documents (snd (search db query_embedding top_k)) = documents db
  /\ index (snd (search db query_embedding top_k)) = index db
  /\ disk (snd (search db query_embedding top_k)) = disk db.
Proof.
  unfold search.
  destruct (index db) as [rows|] eqn:Hidx;
    [|cbn; rewrite Hidx; repeat split; constructor].
  destruct (ntotal rows =? 0)%nat;
    [cbn; rewrite Hidx; repeat split; constructor|].
  destruct (faiss_search _ _ _) as [found|];
    [|cbn; rewrite Hidx; repeat split; constructor].
  destruct (format_results_stored (documents db) found)
    as (hits & -> & _ & Hall).
  cbn. rewrite Hidx. repeat split. exact Hall.
Qed.

(** X12: [search] never names a document that is not stored: every hit
    carries an id of the metadata store together with the text and the
    metadata [get_document] returns for that id. *)
Theorem search_names_stored_documents (db : FAISSVectorDB F)
        (query_embedding : list F) (top_k : Z) :
  Forall (fun h =>
            get_document db (hit_id h)
            = Some (mkEntry (hit_id h) (hit_text h) (hit_metadata h)))
         (fst (search db query_embedding top_k)).
Proof.
  unfold search.
  destruct (index db) as [rows|]; [|constructor].
  destruct (ntotal rows =? 0)%nat; [constructor|].
  destruct (faiss_search _ _ _) as [found|]; [|constructor].
  destruct (format_results_stored (documents db) found)
    as (hits & -> & _ & Hall).
  cbn [fst]. eapply Forall_impl; [|exact Hall].
  intros h Hget. unfold get_document. rewrite Hget. reflexivity.
Qed.

End MoreFaissFacts.

Lemma add_then_get_witness :
  FaissDB.index Sample.fresh_db = Some []
  /\ NoDup (assigned_ids (FaissDB.documents Sample.fresh_db)
                         [Sample.doc_a; Sample.doc_b])
  /\ FaissDB.get_document Sample.db_ab "b"
     = Some (FaissDB.mkEntry "b" "beta" [("page_title", PStr "B")]).
Proof.
  assert (FaissDB.index Sample.fresh_db = Some []) as Hidx by reflexivity.
  assert (NoDup (assigned_ids (FaissDB.documents Sample.fresh_db)
                              [Sample.doc_a; Sample.doc_b])) as Hnd.
  { simpl. constructor; [|constructor; [|constructor]].
    - intros [Heq|[]]. discriminate.
    - intros []. }
  split; [exact Hidx|]. split; [exact Hnd|].
  destruct (add_then_get Sample.fresh_db [] [Sample.doc_a; Sample.doc_b]
              Hidx Hnd) as (_ & Hget & _).
  exact (Hget 1%nat Sample.doc_b "b" eq_refl eq_refl).
Defined.

Lemma adding_keeps_ids_together_witness :
  FaissDB.index Sample.fresh_db = Some []
  /\ same_ids Sample.fresh_db
  /\ same_ids (snd (FaissDB.add_documents Sample.fresh_db
                      [Sample.doc_a; Sample.doc_b]))
  /\ same_ids (snd (FaissDB.update_document Sample.fresh_db "a" Sample.doc_b)).
Proof.
  assert (FaissDB.index Sample.fresh_db = Some []) as Hidx by reflexivity.
  assert (same_ids Sample.fresh_db) as Hsame by (intros i; reflexivity).
  split; [exact Hidx|]. split; [exact Hsame|].
  exact (adding_keeps_ids_together Sample.fresh_db []
           [Sample.doc_a; Sample.doc_b] "a" Sample.doc_b Hidx Hsame).
Defined.

Lemma update_appends_a_row_witness :
  in_step Sample.db_ab
  /\ FaissDB.get_document
       (snd (FaissDB.update_document Sample.db_ab "a" Sample.doc_b)) "a"
     = Some (FaissDB.mkEntry "a" "beta" [("page_title", PStr "B")])
  /\ row_count (snd (FaissDB.update_document Sample.db_ab "a" Sample.doc_b))
     = 3%nat.
Proof.
  assert (in_step Sample.db_ab) as Hstep.
  { exists (Sample.rows_of Sample.db_ab). split; vm_compute; reflexivity. }
  split; [exact Hstep|].
  destruct (update_appends_a_row Sample.db_ab "a" Sample.doc_b Hstep)
    as (_ & Hget & Hrows & _).
  split; [exact Hget|]. rewrite Hrows. vm_compute. reflexivity.
Defined.

Lemma saved_files_reload_witness :
  FaissDB.index Sample.fresh_db = Some []
  /\ stored_ids
       (FaissDB.initialize (FaissDB.new (FaissDB.disk Sample.db_ab)))
     = ["a"; "b"].
Proof.
  assert (FaissDB.index Sample.fresh_db = Some []) as Hidx by reflexivity.
  split; [exact Hidx|].
  destruct (saved_files_reload Sample.fresh_db []
              [Sample.doc_a; Sample.doc_b] Hidx) as (Hadd & _).
  destruct Hadd as [_ Hdocs]; [discriminate|].
  unfold stored_ids. unfold Sample.db_ab. rewrite Hdocs.
  vm_compute. reflexivity.
Defined.

Lemma deletion_is_not_saved_witness :
  FaissDB.index Sample.fresh_db = Some []
  /\ [Sample.doc_a; Sample.doc_b] <> []
  /\ stored_ids Sample.db_after_delete = ["b"]
  /\ stored_ids
       (FaissDB.initialize
          (FaissDB.new (FaissDB.disk Sample.db_after_delete)))
     = ["a"; "b"].
Proof.
  assert (FaissDB.index Sample.fresh_db = Some []) as Hidx by reflexivity.
  assert ([Sample.doc_a; Sample.doc_b] <> []) as Hne by discriminate.
  split; [exact Hidx|]. split; [exact Hne|].
  split; [vm_compute; reflexivity|].
  destruct (deletion_is_not_saved Sample.fresh_db []
              [Sample.doc_a; Sample.doc_b] ["a"] Hidx Hne)
    as (_ & Hdocs & _).
  unfold stored_ids, Sample.db_after_delete, Sample.db_ab.
  rewrite Hdocs. vm_compute. reflexivity.
Defined.

(* ===================================================================== *)
(** ** Embedding gateway: further properties *)
(* ===================================================================== *)

Section MoreEmbeddingFacts.

Context {F : Type} {ops : FloatOps F}.

Import Embedding.

Variable embeddings_create : list event -> request -> option (list (list F)).

(** X13: [generate_embedding] asks the endpoint at least once and at most
    three times, always for the same text, with a wait between two
    requests and none after the last.  It returns an embedding or, only
    after the third request, the failure of the retry. *)
Theorem generate_embedding_tries (svc : EmbeddingService) (text : string) :
  exists n,
    (1 <= n <= 3)%nat
    /\ history (snd (generate_embedding embeddings_create svc text))
       = history svc ++ tries (Single (model svc) text) n
    /\ model (snd (generate_embedding embeddings_create svc text))
       = model svc
    /\ ((exists e,
            fst (generate_embedding embeddings_create svc text) = Ok e)
        \/ (fst (generate_embedding embeddings_create svc text)
            = Raised RetryError /\ n = 3%nat)).
Proof.
  unfold generate_embedding. cbn [retrying]. unfold attempt.
  destruct (embeddings_create (history svc) (Single (model svc) text))
    as [[|e1 o1]|];
    try (exists 1%nat; cbn; split; [lia|]; split; [reflexivity|];
         split; [reflexivity|]; left; eauto; fail);
    cbn [slept called history model];
    (destruct (embeddings_create
                 ((history svc ++ [Called (Single (model svc) text)])
                  ++ [Slept])
                 (Single (model svc) text)) as [[|e2 o2]|];
     try (exists 2%nat; cbn; split; [lia|];
          split; [rewrite <- !app_assoc; reflexivity|];
          split; [reflexivity|]; left; eauto; fail);
     cbn [slept called history model];
     (destruct (embeddings_create
                  ((((history svc ++ [Called (Single (model svc) text)])
                     ++ [Slept])
                    ++ [Called (Single (model svc) text)]) ++ [Slept])
                  (Single (model svc) text)) as [[|e3 o3]|];
      exists 3%nat; cbn; (split; [lia|]);
      (split; [rewrite <- !app_assoc; reflexivity|]);
      (split; [reflexivity|]);
      first [left; eexists; reflexivity | right; split; reflexivity])).
Qed.

(** A query of whitespace only is refused before anything is asked of
    the endpoint. *)
Lemma blank_query_refused (svc : EmbeddingService) (query : string) :
  all_chars PyStr.is_space query = true ->
  generate_query_embedding embeddings_create svc query
  = (Raised (ValueError "Query cannot be empty"), svc).
Proof.
  intros Hblank. unfold generate_query_embedding.
  rewrite (strip_spaces query Hblank). reflexivity.
Qed.

Lemma batch_inputs_app (a b : list event) :
  batch_inputs (a ++ b) = batch_inputs a ++ batch_inputs b.
Proof. unfold batch_inputs. apply flat_map_app. Qed.

Lemma single_inputs_app (a b : list event) :
  single_inputs (a ++ b) = single_inputs a ++ single_inputs b.
Proof. unfold single_inputs. apply flat_map_app. Qed.

(** The retries only ask for the one text. *)
Lemma retrying_events (attempts : nat) :
  forall svc text,
  exists events,
    history (snd (retrying embeddings_create attempts svc text))
    = history svc ++ events
    /\ model (snd (retrying embeddings_create attempts svc text))
       = model svc
    /\ batch_inputs events = []
    /\ (forall t, In t (single_inputs events) -> t = text).
Proof.
  induction attempts as [|n IH]; intros svc text.
  - exists []. cbn. rewrite app_nil_r. repeat split. intros t [].
  - assert (forall r : result (list F),
               exists events,
                 history (snd (r, called svc (Single (model svc) text)))
                 = history svc ++ events
                 /\ model (snd (r, called svc (Single (model svc) text)))
                    = model svc
                 /\ batch_inputs events = []
                 /\ (forall t, In t (single_inputs events) -> t = text))
      as Hone.
    { intros r. exists [Called (Single (model svc) text)]. cbn.
      repeat split. intros t [<-|[]]. reflexivity. }
    assert (exists events,
               history (snd (retrying embeddings_create n
                               (slept (called svc (Single (model svc) text)))
                               text))
               = history svc ++ events
               /\ model (snd (retrying embeddings_create n
                                (slept (called svc (Single (model svc) text)))
                                text))
                  = model svc
               /\ batch_inputs events = []
               /\ (forall t, In t (single_inputs events) -> t = text))
      as Hmore.
    { destruct (IH (slept (called svc (Single (model svc) text))) text)
        as (events & Hh & Hm & Hb & Hs).
      exists ([Called (Single (model svc) text); Slept] ++ events).
      split; [|split; [|split]].
      - rewrite Hh. cbn. rewrite <- !app_assoc. reflexivity.
      - rewrite Hm. reflexivity.
      - rewrite batch_inputs_app, Hb. reflexivity.
      - intros t Hin. rewrite single_inputs_app in Hin.
        apply in_app_or in Hin. destruct Hin as [[<-|[]]|Hin];
          [reflexivity|]. apply Hs. exact Hin. }
    cbn [retrying]. unfold attempt.
    destruct (embeddings_create (history svc) (Single (model svc) text))
      as [[|e others]|]; try apply Hone;
      destruct n; try apply Hone; apply Hmore.
Qed.

(** The fallback loop only asks for texts of the batch, one at a time. *)
Lemma embed_individually_events (batch : list string) :
  forall svc embeddings,
  exists events,
    history (fst (fold_left (embed_individually embeddings_create) batch
                            (svc, embeddings)))
    = history svc ++ events
    /\ model (fst (fold_left (embed_individually embeddings_create) batch
                             (svc, embeddings)))
       = model svc
    /\ batch_inputs events = []
    /\ (forall t, In t (single_inputs events) -> In t batch).
Proof.
  induction batch as [|text batch IH]; intros svc embeddings.
  - exists []. cbn. rewrite app_nil_r. repeat split. intros t [].
  - cbn [fold_left].
    destruct (retrying_events 3 svc text) as (ev1 & Hh1 & Hm1 & Hb1 & Hs1).
    assert (exists v,
               embed_individually embeddings_create (svc, embeddings) text
               = (snd (retrying embeddings_create 3 svc text),
                  embeddings ++ [v])) as [v ->].
    { unfold embed_individually, generate_embedding.
      destruct (retrying embeddings_create 3 svc text) as [[e|x] svc1];
        eexists; reflexivity. }
    destruct (IH (snd (retrying embeddings_create 3 svc text))
                 (embeddings ++ [v])) as (ev2 & Hh2 & Hm2 & Hb2 & Hs2).
    exists (ev1 ++ ev2). split; [|split; [|split]].
    + rewrite Hh2, Hh1, app_assoc. reflexivity.
    + rewrite Hm2. exact Hm1.
    + rewrite batch_inputs_app, Hb1, Hb2. reflexivity.
    + intros t Hin. rewrite single_inputs_app in Hin.
      apply in_app_or in Hin. destruct Hin as [Hin|Hin].
      * left. symmetry. apply Hs1. exact Hin.
      * right. apply Hs2. exact Hin.
Qed.

Lemma in_firstn (A : Type) (n : nat) (l : list A) (x : A) :
  In x (firstn n l) -> In x l.
Proof.
  intros Hin. rewrite <- (firstn_skipn n l). apply in_or_app. left.
  exact Hin.
Qed.

Lemma in_slice (A : Type) (n i : nat) (l : list A) (x : A) :
  In x (firstn n (skipn i l)) -> In x l.
Proof.
  intros Hin. apply in_firstn in Hin.
  rewrite <- (firstn_skipn i l). apply in_or_app. right. exact Hin.
Qed.

(** One round asks for its batch once and, when that fails, for texts of
    the batch. *)
Lemma embed_batch_events (texts : list string) (svc : EmbeddingService)
      (embeddings : list (list F)) (i : nat) :
  exists events,
    history (fst (embed_batch embeddings_create texts (svc, embeddings) i))
    = history svc ++ events
    /\ model (fst (embed_batch embeddings_create texts (svc, embeddings) i))
       = model svc
    /\ batch_inputs events = [firstn max_batch_size (skipn i texts)]
    /\ (embeddings_create (history svc)
          (Batch (model svc) (firstn max_batch_size (skipn i texts)))
        <> None -> single_inputs events = [])
    /\ (forall t, In t (single_inputs events) -> In t texts).
Proof.
  unfold embed_batch.
  set (batch := firstn max_batch_size (skipn i texts)).
  destruct (embeddings_create (history svc) (Batch (model svc) batch))
    as [data|] eqn:Hresp.
  - destruct (i + max_batch_size <? length texts)%nat.
    + exists [Called (Batch (model svc) batch); Slept]. cbn.
      rewrite <- app_assoc. repeat split. intros t [].
    + exists [Called (Batch (model svc) batch)]. cbn.
      repeat split. intros t [].
  - destruct (embed_individually_events batch
                (called svc (Batch (model svc) batch)) embeddings)
      as (ev & Hh & Hm & Hb & Hs).
    exists (Called (Batch (model svc) batch) :: ev).
    split; [|split; [|split; [|split]]].
    + rewrite Hh. cbn. rewrite <- app_assoc. reflexivity.
    + rewrite Hm. reflexivity.
    + change (Called (Batch (model svc) batch) :: ev)
        with ([Called (Batch (model svc) batch)] ++ ev).
      rewrite batch_inputs_app, Hb. reflexivity.
    + intros Hno. destruct Hno. reflexivity.
    + intros t Hin. cbn in Hin. apply Hs in Hin.
      eapply in_slice. exact Hin.
Qed.

Lemma embed_batches_events (texts : list string) (svc : EmbeddingService)
      (batches : nat) :
  exists events,
    history (fst (fold_left (embed_batch embeddings_create texts)
                    (map (fun k => (k * max_batch_size)%nat) (seq 0 batches))
                    (svc, [])))
    = history svc ++ events
    /\ model (fst (fold_left (embed_batch embeddings_create texts)
                     (map (fun k => (k * max_batch_size)%nat)
                          (seq 0 batches))
                     (svc, [])))
       = model svc
    /\ batch_inputs events
       = map (fun k => firstn max_batch_size
                              (skipn (k * max_batch_size) texts))
             (seq 0 batches)
    /\ (answers_batches embeddings_create -> single_inputs events = [])
    /\ (forall t, In t (single_inputs events) -> In t texts).
Proof.
  induction batches as [|n IH].
  - exists []. cbn. rewrite app_nil_r. repeat split. intros t [].
  - destruct IH as (ev1 & Hh1 & Hm1 & Hb1 & Ha1 & Hs1).
    rewrite seq_S, !map_app, fold_left_app. cbn [map fold_left Nat.add].
    destruct (fold_left (embed_batch embeddings_create texts)
                (map (fun k => (k * max_batch_size)%nat) (seq 0 n))
                (svc, [])) as [svc1 out1].
    cbn [fst] in Hh1, Hm1.
    destruct (embed_batch_events texts svc1 out1 (n * max_batch_size))
      as (ev2 & Hh2 & Hm2 & Hb2 & Ha2 & Hs2).
    exists (ev1 ++ ev2). split; [|split; [|split; [|split]]].
    + rewrite Hh2, Hh1, app_assoc. reflexivity.
    + rewrite Hm2. exact Hm1.
    + rewrite batch_inputs_app, Hb1, Hb2. reflexivity.
    + intros Hans. rewrite single_inputs_app, (Ha1 Hans), Ha2;
        [reflexivity|]. apply Hans.
    + intros t Hin. rewrite single_inputs_app in Hin.
      apply in_app_or in Hin. destruct Hin as [Hin|Hin]; auto.
Qed.

Lemma concat_slices (A : Type) (l : list A) (n : nat) :
  concat (map (fun k => firstn max_batch_size
                               (skipn (k * max_batch_size) l))
              (seq 0 n))
  = firstn (n * max_batch_size) l.
Proof.
  induction n as [|n IH]; [reflexivity|].
  rewrite seq_S, map_app, concat_app, IH. cbn [map concat Nat.add].
  rewrite app_nil_r.
  replace (S n * max_batch_size)%nat
    with (n * max_batch_size + max_batch_size)%nat by lia.
  rewrite firstn_next. reflexivity.
Qed.

(** X14: whatever the endpoint does, [generate_embeddings_batch] sends
    one batch request per slice of [max_batch_size] texts: the batches,
    put end to end, are the texts, none is empty or longer than 100, and
    there are [ceil(len(texts) / 100)] of them.  A text is asked for on
    its own only if it is one of [texts], and never when the endpoint
    answers every batch. *)
Theorem batch_requests_cover_texts (svc : EmbeddingService)
        (texts : list string) :
  exists events,
    history (snd (generate_embeddings_batch embeddings_create svc texts))
    = history svc ++ events
    /\ concat (batch_inputs events) = texts
    /\ Forall (fun batch => batch <> [] /\ (length batch <= 100)%nat)
              (batch_inputs events)
    /\ length (batch_inputs events) = ((length texts + 99) / 100)%nat
    /\ (forall t, In t (single_inputs events) -> In t texts)
    /\ (answers_batches embeddings_create -> single_inputs events = []).
Proof.
  unfold generate_embeddings_batch, range_step.
  set (n := ((length texts + max_batch_size - 1) / max_batch_size)%nat).
  destruct (embed_batches_events texts svc n)
    as (events & Hh & _ & Hb & Ha & Hs).
  destruct (fold_left (embed_batch embeddings_create texts)
              (map (fun k => (k * max_batch_size)%nat) (seq 0 n))
              (svc, [])) as [svc1 out].
  cbn [fst snd] in *.
  assert (length texts <= n * 100 /\ n * 100 < length texts + 100)%nat
    as [Hcover Htight].
  { subst n. unfold max_batch_size.
    pose proof (Nat.div_mod_eq (length texts + 100 - 1) 100) as Hdiv.
    pose proof (Nat.mod_upper_bound (length texts + 100 - 1) 100) as Hmod.
    lia. }
  exists events. split; [exact Hh|]. rewrite Hb.
  split; [|split; [|split; [|split]]].
  - rewrite concat_slices. apply firstn_all2. exact Hcover.
  - apply Forall_forall. intros batch Hin. apply in_map_iff in Hin.
    destruct Hin as (k & <- & Hk). apply in_seq in Hk. split.
    + intros Hnil. apply (f_equal (@length string)) in Hnil.
      rewrite length_firstn, length_skipn in Hnil.
      unfold max_batch_size in Hnil. simpl length in Hnil. nia.
    + rewrite length_firstn. unfold max_batch_size. lia.
  - rewrite length_map, length_seq. subst n. unfold max_batch_size.
    f_equal. lia.
  - exact Hs.
  - exact Ha.
Qed.

End MoreEmbeddingFacts.

Section SimilarityFacts.

Context {F : Type} {ops : FloatOps F}.

Import Embedding.

Variable fge : F -> F -> bool.
Variable flt : F -> F -> bool.

(** What every scored element carries. *)
Lemma score_items_sound (query : list F) (threshold : F) :
  forall embeddings similarities,
    score_items fge query threshold embeddings = Ok similarities ->
    (length similarities <= length embeddings)%nat
    /\ Forall (fun s =>
                 fge (similarity s) threshold = true
                 /\ In (scored_item s) embeddings
                 /\ exists e,
                     item_embedding (scored_item s) = Some e
                     /\ cosine_similarity query e = Ok (similarity s))
              similarities.
Proof.
  induction embeddings as [|it rest IH]; intros similarities Hrun;
    cbn [score_items] in Hrun.
  - injection Hrun as <-. split; [apply le_n|constructor].
  - destruct (item_embedding it) as [e|] eqn:He; [|discriminate].
    destruct (cosine_similarity query e) as [s|x] eqn:Hcos; [|discriminate].
    destruct (score_items fge query threshold rest) as [l|x] eqn:Hrest;
      [|discriminate].
    destruct (IH l eq_refl) as [Hlen Hall].
    assert (Forall (fun s =>
                      fge (similarity s) threshold = true
                      /\ In (scored_item s) (it :: rest)
                      /\ exists e,
                          item_embedding (scored_item s) = Some e
                          /\ cosine_similarity query e = Ok (similarity s))
                   l) as Hall'.
    { eapply Forall_impl; [|exact Hall].
      intros s' (Hge & Hin & Hemb). split; [exact Hge|].
      split; [right; exact Hin|exact Hemb]. }
    destruct (fge s threshold) eqn:Hge; injection Hrun as <-.
    + split; [simpl; lia|]. constructor; [|exact Hall'].
      cbn. split; [exact Hge|]. split; [left; reflexivity|].
      exists e. split; assumption.
    + split; [simpl; lia|exact Hall'].
Qed.

Lemma insert_descending_in (x : scored F) (l : list (scored F)) (y : scored F) :
  In y (insert_descending flt x l) <-> y = x \/ In y l.
Proof.
  induction l as [|z l IH]; cbn [insert_descending].
  - simpl. intuition.
  - destruct (flt (similarity x) (similarity z)); simpl in *; intuition.
Qed.

Lemma insert_descending_length (x : scored F) (l : list (scored F)) :
  length (insert_descending flt x l) = S (length l).
Proof.
  induction l as [|z l IH]; cbn [insert_descending]; [reflexivity|].
  destruct (flt (similarity x) (similarity z)); simpl; congruence.
Qed.

Lemma sort_descending_in (l : list (scored F)) (y : scored F) :
  In y (sort_descending flt l) <-> In y l.
Proof.
  induction l as [|x l IH]; cbn [sort_descending fold_right];
    [reflexivity|].
  rewrite insert_descending_in. fold (sort_descending flt l).
  rewrite IH. simpl. intuition.
Qed.

Lemma sort_descending_length (l : list (scored F)) :
  length (sort_descending flt l) = length l.
Proof.
  induction l as [|x l IH]; cbn [sort_descending fold_right];
    [reflexivity|].
  rewrite insert_descending_length. fold (sort_descending flt l).
  rewrite IH. reflexivity.
Qed.

Lemma slice_to_in (A : Type) (k : Z) (l : list A) (x : A) :
  In x (slice_to k l) -> In x l.
Proof.
  unfold slice_to. destruct (0 <=? k); apply in_firstn.
Qed.

Lemma slice_to_length (A : Type) (k : Z) (l : list A) :
  (length (slice_to k l) <= length l)%nat
  /\ (0 <= k -> length (slice_to k l) = Nat.min (Z.to_nat k) (length l)).
Proof.
  unfold slice_to. destruct (0 <=? k) eqn:Hk; rewrite length_firstn.
  - split; [lia|reflexivity].
  - split; [lia|]. intros Hpos. apply Z.leb_gt in Hk. lia.
Qed.

(** X15: every element [find_similar] returns is one of the candidates
    with its cosine similarity to the query, and that similarity passed
    the threshold; there are no more results than candidates, and for a
    [top_k] that is not negative no more than [top_k]. *)
Theorem find_similar_results (query : list F) (embeddings : list (item F))
        (top_k : Z) (threshold : F) (out : list (scored F)) :
  find_similar fge flt query embeddings top_k threshold = Ok out ->
  (length out <= length embeddings)%nat
  /\ (0 <= top_k -> (length out <= Z.to_nat top_k)%nat)
  /\ Forall (fun s =>
               fge (similarity s) threshold = true
               /\ In (scored_item s) embeddings
               /\ exists e,
                   item_embedding (scored_item s) = Some e
                   /\ cosine_similarity query e = Ok (similarity s))
            out.
Proof.
  unfold find_similar. intros Hrun.
  destruct (score_items fge query threshold embeddings) as [l|x] eqn:Hscore;
    [|discriminate].
  injection Hrun as <-.
  destruct (score_items_sound query threshold embeddings l Hscore)
    as [Hlen Hall].
  destruct (slice_to_length _ top_k (sort_descending flt l)) as [Hle Hmin].
  rewrite sort_descending_length in Hle, Hmin.
  split; [lia|]. split; [intros Hk; rewrite (Hmin Hk); lia|].
  apply Forall_forall. intros s Hin.
  apply slice_to_in in Hin. apply (proj1 (sort_descending_in _ _)) in Hin.
  rewrite Forall_forall in Hall. apply Hall. exact Hin.
Qed.

Lemma insert_descending_sorted (x : scored F) :
  (forall a b, flt a b = true -> flt b a = false) ->
  forall l, descending flt l -> descending flt (insert_descending flt x l).
Proof.
  intros Hasym. induction l as [|z r IH]; intros Hsorted.
  - exact I.
  - cbn [insert_descending].
    destruct (flt (similarity x) (similarity z)) eqn:Hxz.
    + assert (descending flt r) as Hr.
      { destruct r as [|w r']; [exact I|]. apply Hsorted. }
      specialize (IH Hr).
      destruct r as [|w r'].
      * cbn. split; [apply Hasym; exact Hxz|exact I].
      * cbn [insert_descending] in *.
        destruct (flt (similarity x) (similarity w)).
        -- split; [apply Hsorted|exact IH].
        -- split; [apply Hasym; exact Hxz|exact IH].
    + split; [exact Hxz|exact Hsorted].
Qed.

Lemma sort_descending_sorted (l : list (scored F)) :
  (forall a b, flt a b = true -> flt b a = false) ->
  descending flt (sort_descending flt l).
Proof.
  intros Hasym. induction l as [|x l IH]; [exact I|].
  cbn [sort_descending fold_right].
  apply insert_descending_sorted; assumption.
Qed.

Lemma firstn_descending (l : list (scored F)) :
  forall n, descending flt l -> descending flt (firstn n l).
Proof.
  induction l as [|x r IH]; intros n Hsorted.
  - rewrite firstn_nil. exact I.
  - destruct n as [|n]; [exact I|]. cbn [firstn].
    destruct r as [|y r']; [rewrite firstn_nil; exact I|].
    destruct Hsorted as [Hxy Hr]. specialize (IH n Hr).
    destruct n as [|n]; [exact I|].
    cbn [firstn] in *. split; assumption.
Qed.

(** X16: as long as [<] on similarities never holds both ways, the
    results of [find_similar] come best first: no result is followed by
    one with a strictly greater similarity. *)
Theorem find_similar_best_first (query : list F) (embeddings : list (item F))
        (top_k : Z) (threshold : F) (out : list (scored F)) :
  (forall a b, flt a b = true -> flt b a = false) ->
  find_similar fge flt query embeddings top_k threshold = Ok out ->
  descending flt out.
Proof.
  unfold find_similar. intros Hasym Hrun.
  destruct (score_items fge query threshold embeddings) as [l|x];
    [|discriminate].
  injection Hrun as <-. unfold slice_to.
  destruct (0 <=? top_k); apply firstn_descending;
    apply sort_descending_sorted; exact Hasym.
Qed.

(** X17: one candidate without an embedding, or with an embedding of
    another length than the query, makes [find_similar] raise, whatever
    the other candidates, [top_k] and the threshold are. *)
Theorem find_similar_one_bad_candidate (query : list F)
        (embeddings : list (item F)) (top_k : Z) (threshold : F)
        (it : item F) :
  In it embeddings ->
  (forall e, item_embedding it = Some e -> length e <> length query) ->
  exists x, find_similar fge flt query embeddings top_k threshold = Raised x.
Proof.
  intros Hin Hbad. unfold find_similar.
  assert (exists x, score_items fge query threshold embeddings = Raised x)
    as [x ->]; [|eauto].
  induction embeddings as [|it0 rest IH]; [destruct Hin|].
  cbn [score_items].
  destruct (item_embedding it0) as [e|] eqn:He; [|eauto].
  destruct (cosine_similarity query e) as [s|x] eqn:Hcos; [|eauto].
  destruct Hin as [->|Hin].
  - exfalso. unfold cosine_similarity in Hcos.
    destruct (length query =? length e)%nat eqn:Hlen.
    + apply Nat.eqb_eq in Hlen. apply (Hbad e He). symmetry. exact Hlen.
    + destruct (fis_zero (np_norm query) || fis_zero (np_norm e));
        discriminate.
  - destruct (IH Hin) as [x ->]. eauto.
Qed.

End SimilarityFacts.

(** On binary64 [<] never holds both ways. *)
Lemma lt_asymmetric (a b : float) :
  Binary64.lt a b = true -> Binary64.lt b a = false.
Proof.
  unfold Binary64.lt. rewrite !FloatAxioms.ltb_spec. unfold SpecFloat.SFltb.
  destruct (FloatOps.Prim2SF a) as [sa|sa| |sa ma ea],
           (FloatOps.Prim2SF b) as [sb|sb| |sb mb eb];
    cbn; try destruct sa; try destruct sb; cbn; try congruence.
  all: rewrite (Z.compare_antisym ea eb); destruct (ea ?= eb)%Z; cbn;
    try congruence.
  all: change (PosDef.Pos.compare_cont Eq ma mb) with (Pos.compare ma mb);
    change (PosDef.Pos.compare_cont Eq mb ma) with (Pos.compare mb ma);
    rewrite (Pos.compare_antisym ma mb); destruct (ma ?= mb)%positive; cbn;
    congruence.
Qed.


Lemma find_similar_results_witness :
  exists out,
    Embedding.find_similar Binary64.ge Binary64.lt [1%float; 0%float]
      [Sample.across; Sample.between; Sample.near] 2 0.5%float = Ok out
    /\ length out = 2%nat
    /\ Forall (fun s => Binary64.ge (Embedding.similarity s) 0.5%float = true)
              out.
Proof.
  pose (out := match Embedding.find_similar Binary64.ge Binary64.lt
                       [1%float; 0%float]
                       [Sample.across; Sample.between; Sample.near]
                       2 0.5%float with
               | Ok o => o
               | Raised _ => []
               end).
  assert (Embedding.find_similar Binary64.ge Binary64.lt [1%float; 0%float]
            [Sample.across; Sample.between; Sample.near] 2 0.5%float
          = Ok out) as Hrun by (vm_compute; reflexivity).
  exists out. split; [exact Hrun|]. split; [vm_compute; reflexivity|].
  eapply Forall_impl;
    [|apply (find_similar_results Binary64.ge Binary64.lt [1%float; 0%float]
               [Sample.across; Sample.between; Sample.near] 2 0.5%float out
               Hrun)].
  intros s Hs. apply Hs.
Defined.

Lemma find_similar_best_first_witness :
  exists out,
    Embedding.find_similar Binary64.ge Binary64.lt [1%float; 0%float]
      [Sample.across; Sample.between; Sample.near] 2 0.5%float = Ok out
    /\ map (@Embedding.scored_item float) out = [Sample.near; Sample.between]
    /\ descending Binary64.lt out.
Proof.
  pose (out := match Embedding.find_similar Binary64.ge Binary64.lt
                       [1%float; 0%float]
                       [Sample.across; Sample.between; Sample.near]
                       2 0.5%float with
               | Ok o => o
               | Raised _ => []
               end).
  assert (Embedding.find_similar Binary64.ge Binary64.lt [1%float; 0%float]
            [Sample.across; Sample.between; Sample.near] 2 0.5%float
          = Ok out) as Hrun by (vm_compute; reflexivity).
  exists out. split; [exact Hrun|]. split; [vm_compute; reflexivity|].
  apply (find_similar_best_first Binary64.ge Binary64.lt [1%float; 0%float]
           [Sample.across; Sample.between; Sample.near] 2 0.5%float out
           lt_asymmetric Hrun).
Defined.

Lemma find_similar_one_bad_candidate_witness :
  exists x,
    Embedding.find_similar Binary64.ge Binary64.lt [1%float; 0%float]
      [Sample.near; Sample.short] 2 0.5%float = Raised x.
Proof.
  apply (find_similar_one_bad_candidate Binary64.ge Binary64.lt
           [1%float; 0%float] [Sample.near; Sample.short] 2 0.5%float
           Sample.short).
  - right. left. reflexivity.
  - intros e He. injection He as <-. discriminate.
Defined.

(* ===================================================================== *)
(** ** Indexing pipeline: further properties *)
(* ===================================================================== *)

Section MoreIndexingFacts.

Context {F : Type} {ops : FloatOps F}.

Import Indexing.

Variable embeddings_create :
  list Embedding.event -> Embedding.request -> option (list (list F)).
Variable md5_hexdigest : string -> string.
Variable embeds : string -> list F -> Prop.

Lemma select_raised (vs : VectorDB.VectorDBService F) (source_id : string)
      (force_reindex : bool) (chunks : list chunk) (e : exn) :
  fold_left (select_chunk md5_hexdigest vs source_id force_reindex) chunks
            (Raised e)
  = Raised e.
Proof. induction chunks as [|c chunks IH]; simpl; auto. Qed.

(** With [force_reindex] every chunk is selected. *)
Lemma select_forced (vs : VectorDB.VectorDBService F) (source_id : string)
      (chunks : list chunk) :
  forall s,
    fold_left (select_chunk md5_hexdigest vs source_id true) chunks (Ok s)
    = Ok (mkSelection (chunks_to_index s ++ map (with_id source_id) chunks)
                      (skipped_so_far s)).
Proof.
  induction chunks as [|c chunks IH]; intros s; simpl.
  - rewrite app_nil_r. destruct s; reflexivity.
  - rewrite IH. simpl. rewrite <- app_assoc. reflexivity.
Qed.

(** Without it, the stored chunks whose digest differs are selected and
    the stored chunks whose digest is the same are counted as skipped. *)
Lemma select_plain (vs : VectorDB.VectorDBService F)
      (d : FaissDB.FAISSVectorDB F) (source_id : string)
      (chunks : list chunk) :
  VectorDB.db vs = Some d ->
  forall s,
    fold_left (select_chunk md5_hexdigest vs source_id false) chunks (Ok s)
    = Ok (mkSelection
            (chunks_to_index s
             ++ map (with_id source_id)
                    (filter (changed md5_hexdigest d source_id) chunks))
            (skipped_so_far s
             + length (filter (unchanged md5_hexdigest d source_id)
                              chunks))).
Proof.
  intros Hdb. induction chunks as [|c chunks IH]; intros s.
  - simpl. rewrite app_nil_r, Nat.add_0_r. destruct s; reflexivity.
  - cbn [fold_left filter].
    assert (select_chunk md5_hexdigest vs source_id false (Ok s) c
            = Ok (mkSelection
                    (chunks_to_index s
                     ++ (if changed md5_hexdigest d source_id c
                         then [with_id source_id c] else []))
                    (skipped_so_far s
                     + (if unchanged md5_hexdigest d source_id c
                        then 1 else 0)))) as ->.
    { unfold select_chunk, changed, unchanged. cbn [negb].
      unfold VectorDB.get_document. rewrite Hdb.
      destruct (FaissDB.get_document d (_generate_chunk_id source_id c))
        as [existing|].
      - destruct (_has_content_changed md5_hexdigest existing c);
          cbn [negb].
        + rewrite Nat.add_0_r. reflexivity.
        + rewrite app_nil_r, Nat.add_1_r. reflexivity.
      - rewrite app_nil_r, Nat.add_0_r. destruct s; reflexivity. }
    rewrite IH. cbn [chunks_to_index skipped_so_far].
    destruct (changed md5_hexdigest d source_id c),
             (unchanged md5_hexdigest d source_id c);
      cbn [map length]; rewrite <- ?app_assoc, ?app_nil_r;
      cbn [app]; rewrite ?Nat.add_0_r;
      try reflexivity; f_equal; f_equal; lia.
Qed.

Lemma build_documents_length (source_id : string)
      (selected : list (string * chunk)) (embeddings : list (list F)) :
  forall i docs,
    build_documents md5_hexdigest source_id selected embeddings i = Ok docs ->
    length docs = length selected.
Proof.
  induction selected as [|[id c] rest IH]; intros i docs Hrun;
    cbn [build_documents] in Hrun.
  - injection Hrun as <-. reflexivity.
  - destruct (nth_error embeddings i) as [e|]; [|discriminate].
    destruct (build_documents md5_hexdigest source_id rest embeddings (S i))
      as [more|x] eqn:Hrest; [|discriminate].
    injection Hrun as <-. simpl. f_equal. eapply IH. exact Hrest.
Qed.

Lemma skipn_nth_error (A : Type) (l : list A) :
  forall i x, nth_error l i = Some x -> skipn i l = x :: skipn (S i) l.
Proof.
  induction l as [|y l IH]; intros i x Hn.
  - destruct i; discriminate.
  - destruct i as [|i]; simpl in *.
    + injection Hn as ->. reflexivity.
    + apply IH. exact Hn.
Qed.

(** With enough embeddings the loop pairs the selected chunks with the
    embeddings from [i] on, in order. *)
Lemma build_documents_spec (source_id : string)
      (selected : list (string * chunk)) (embeddings : list (list F)) :
  forall i,
    (length selected + i <= length embeddings)%nat ->
    build_documents md5_hexdigest source_id selected embeddings i
    = Ok (map (fun p => document_for md5_hexdigest source_id (fst p) (snd p))
              (combine selected (skipn i embeddings))).
Proof.
  induction selected as [|[id c] rest IH]; intros i Hlen;
    cbn [build_documents].
  - reflexivity.
  - simpl in Hlen.
    destruct (nth_error_defined _ embeddings i) as [e He]; [lia|].
    rewrite He, (IH (S i)) by lia.
    rewrite (skipn_nth_error _ embeddings i e He). reflexivity.
Qed.

(** X18: the statistics of a run that returns: [total_chunks] is the
    number of chunks given, [failed] is always 0, [indexed] and [skipped]
    never add up to more than the total, and with [force_reindex] all
    chunks are counted as indexed and none as skipped. *)
Theorem index_chunks_stats (env : environment F) (svc svc' : IndexingService F)
        (chunks : list chunk) (source_id : string) (force_reindex : bool)
        (st : stats) :
  index_chunks embeddings_create md5_hexdigest env svc chunks source_id
               force_reindex
  = (Ok st, svc') ->
  total_chunks st = length chunks
  /\ failed st = 0%nat
  /\ (indexed st + skipped st <= length chunks)%nat
  /\ (force_reindex = true ->
      skipped st = 0%nat /\ indexed st = length chunks).
Proof.
  unfold index_chunks. intros Hrun.
  destruct (match VectorDB.db (vector_service svc) with
            | Some _ => (Ok tt, vector_service svc)
            | None => VectorDB.initialize env (vector_service svc)
            end) as [[[]|x] vs] eqn:Hstart; [|discriminate].
  assert (exists s,
             fold_left (select_chunk md5_hexdigest vs source_id force_reindex)
                       chunks (Ok (mkSelection [] 0))
             = Ok s
             /\ (length (chunks_to_index s) + skipped_so_far s
                 <= length chunks)%nat
             /\ (force_reindex = true ->
                 skipped_so_far s = 0%nat
                 /\ length (chunks_to_index s) = length chunks))
    as (s & Hsel & Hsum & Hforce).
  { destruct force_reindex.
    - rewrite select_forced. eexists. split; [reflexivity|].
      cbn [chunks_to_index skipped_so_far app].
      rewrite length_map. split; [lia|]. intros _. split; reflexivity.
    - destruct (VectorDB.db vs) as [d|] eqn:Hdb.
      + rewrite (select_plain vs d source_id chunks Hdb).
        eexists. split; [reflexivity|].
        cbn [chunks_to_index skipped_so_far app Nat.add].
        rewrite length_map. split; [|discriminate].
        clear. induction chunks as [|c chunks IH]; [apply le_n|].
        cbn [filter].
        assert (changed md5_hexdigest d source_id c = true ->
                unchanged md5_hexdigest d source_id c = false) as Hone.
        { unfold changed, unchanged.
          destruct (FaissDB.get_document d (_generate_chunk_id source_id c))
            as [existing|]; [|reflexivity].
          intros ->. reflexivity. }
        destruct (changed md5_hexdigest d source_id c);
          [rewrite (Hone eq_refl)|
           destruct (unchanged md5_hexdigest d source_id c)];
          simpl; lia.
      + destruct chunks as [|c chunks].
        * eexists. split; [reflexivity|]. split; [apply le_n|discriminate].
        * exfalso. cbn [fold_left] in Hrun. unfold select_chunk at 2 in Hrun.
          cbn [negb] in Hrun. unfold VectorDB.get_document in Hrun.
          rewrite Hdb, select_raised in Hrun. discriminate. }
  rewrite Hsel in Hrun.
  assert (length (texts_to_embed s) = length (chunks_to_index s)) as Htexts
    by (unfold texts_to_embed; apply length_map).
  destruct (texts_to_embed s) as [|t ts] eqn:Ht.
  - injection Hrun as <- _. cbn. split; [reflexivity|].
    split; [reflexivity|]. split; [lia|].
    intros Hf. destruct (Hforce Hf) as [Hs Hl]. simpl in Htexts.
    split; [exact Hs|]. lia.
  - destruct (Embedding.generate_embeddings_batch embeddings_create
                (embedding_service svc) (t :: ts)) as [embeddings es].
    destruct (build_documents md5_hexdigest source_id (chunks_to_index s)
                              embeddings 0) as [docs|x] eqn:Hdocs;
      [|discriminate].
    apply build_documents_length in Hdocs.
    destruct (VectorDB.add_documents vs docs) as [[[]|x] vs1];
      [|discriminate].
    injection Hrun as <- _. cbn. split; [reflexivity|].
    split; [reflexivity|]. split; [lia|].
    intros Hf. destruct (Hforce Hf) as [Hs Hl]. split; [exact Hs|]. lia.
Qed.

Lemma assigned_ids_for (source_id : string) (selected : list chunk) :
  forall (embeddings : list (list F)) store,
    (length selected <= length embeddings)%nat ->
    assigned_ids store
                 (documents_for md5_hexdigest source_id selected embeddings)
    = map (_generate_chunk_id source_id) selected.
Proof.
  unfold documents_for.
  induction selected as [|c rest IH]; intros embeddings store Hlen.
  - reflexivity.
  - destruct embeddings as [|e embeddings]; [simpl in Hlen; lia|].
    cbn [map combine assigned_ids]. f_equal.
    apply IH. simpl in Hlen. lia.
Qed.

Lemma documents_for_length (source_id : string) (selected : list chunk)
      (embeddings : list (list F)) :
  length embeddings = length selected ->
  length (documents_for md5_hexdigest source_id selected embeddings)
  = length selected.
Proof.
  intros Hlen. unfold documents_for.
  rewrite length_map, length_combine, length_map. lia.
Qed.

(** The store after the documents of a run with pairwise distinct ids:
    every selected chunk is filed under its id. *)
Lemma store_after_documents_for (source_id : string)
      (selected : list chunk) :
  forall (embeddings : list (list F)) store,
    (length selected <= length embeddings)%nat ->
    NoDup (map (_generate_chunk_id source_id) selected) ->
    forall c,
      In c selected ->
      Dict.get (_generate_chunk_id source_id c)
               (store_after store
                  (documents_for md5_hexdigest source_id selected embeddings))
      = Some (stored_chunk md5_hexdigest source_id c).
Proof.
  induction selected as [|c0 rest IH]; intros embeddings store Hlen Hnodup c Hin.
  - destruct Hin.
  - destruct embeddings as [|e embeddings]; [simpl in Hlen; lia|].
    simpl in Hlen. inversion Hnodup as [|? ? Hfresh Hrest]; subst.
    change (documents_for md5_hexdigest source_id (c0 :: rest)
                          (e :: embeddings))
      with (document_for md5_hexdigest source_id (with_id source_id c0) e
            :: documents_for md5_hexdigest source_id rest embeddings).
    cbn [store_after].
    destruct (in_dec string_dec (_generate_chunk_id source_id c)
                     (map (_generate_chunk_id source_id) rest)) as [Hlater|Hnot].
    + destruct Hin as [<-|Hin]; [contradiction|].
      apply IH; [lia|exact Hrest|exact Hin].
    + destruct Hin as [<-|Hin].
      * rewrite store_after_get_other
          by (rewrite assigned_ids_for by lia; exact Hnot).
        apply get_set_same.
      * destruct Hnot. apply in_map. exact Hin.
Qed.

(** Given an endpoint that answers in order there are as many vectors
    as texts. *)
Lemma generate_embeddings_batch_length (svc : Embedding.EmbeddingService)
      (texts : list string) :
  answers_in_order embeddings_create embeds ->
  length (fst (Embedding.generate_embeddings_batch embeddings_create svc
                 texts))
  = length texts.
Proof.
  intros Horder. symmetry.
  apply (@Forall2_length _ _ (fun _ _ => True)).
  apply generate_embeddings_batch_related.
  - intros h m batch data Hresp.
    eapply Forall2_impl; [|exact (proj1 Horder h m batch data Hresp)].
    intros; exact I.
  - intros; exact I.
Qed.

(** A run on an initialised index, given an endpoint that answers in
    order: what it returns and the state it leaves. *)
Lemma index_chunks_run (env : environment F) (svc : IndexingService F)
      (d : FaissDB.FAISSVectorDB F) (rows : list (FaissDB.row F))
      (chunks : list chunk) (source_id : string) (force_reindex : bool) :
  VectorDB.db (vector_service svc) = Some d ->
  FaissDB.index d = Some rows ->
  answers_in_order embeddings_create embeds ->
  let selected :=
    selected_chunks md5_hexdigest d source_id force_reindex chunks in
  let run :=
    Embedding.generate_embeddings_batch
      embeddings_create (embedding_service svc) (map chunk_text selected) in
  let docs := documents_for md5_hexdigest source_id selected (fst run) in
  length (fst run) = length selected
  /\ index_chunks embeddings_create md5_hexdigest env svc chunks source_id
                  force_reindex
     = (Ok (mkStats (length chunks) (length selected)
                    (length (skipped_chunks md5_hexdigest d source_id
                                            force_reindex chunks))
                    0),
        match selected with
        | [] => svc
        | _ =>
            mkIndexing (snd run)
              (VectorDB.mkVectorDB
                 (Some (FaissDB.mkDB
                          (Some (rows ++ new_rows d docs))
                          (store_after (FaissDB.documents d) docs)
                          (FaissDB.dimension d)
                          (FaissDB.Saved (rows ++ new_rows d docs)
                             (store_after (FaissDB.documents d) docs))
                          (FaissDB.log d
                           ++ warnings (FaissDB.dimension d) docs
                           ++ [(INFO, "Added documents to FAISS")]))))
        end).
Proof.
  intros Hdb Hidx Horder selected run docs.
  assert (length (fst run) = length selected) as Hlen.
  { subst run. rewrite (generate_embeddings_batch_length _ _ Horder).
    apply length_map. }
  split; [exact Hlen|].
  unfold index_chunks. rewrite Hdb.
  assert (fold_left (select_chunk md5_hexdigest (vector_service svc)
                                  source_id force_reindex)
                    chunks (Ok (mkSelection [] 0))
          = Ok (mkSelection
                  (map (with_id source_id) selected)
                  (length (skipped_chunks md5_hexdigest d source_id
                                          force_reindex chunks)))) as ->.
  { subst selected. unfold selected_chunks, skipped_chunks.
    destruct force_reindex.
    - rewrite select_forced. reflexivity.
    - rewrite (select_plain _ d source_id chunks Hdb). reflexivity. }
  unfold texts_to_embed. cbn [chunks_to_index skipped_so_far].
  rewrite map_map.
  change (map (fun x => chunk_text (snd (with_id source_id x))) selected)
    with (map chunk_text selected).
  destruct selected as [|c rest] eqn:Hsel.
  - cbn. destruct svc; reflexivity.
  - cbn [map]. change (chunk_text c :: map chunk_text rest)
      with (map chunk_text (c :: rest)).
    fold run. destruct run as [embeddings es] eqn:Hrun. cbn [fst snd] in *.
    rewrite build_documents_spec
      by (cbn [length] in *; rewrite ?length_map; lia).
    cbn [skipn]. fold (documents_for md5_hexdigest source_id (c :: rest)
                                     embeddings).
    fold docs. unfold VectorDB.add_documents. rewrite Hdb.
    assert (docs <> []) as Hdocs.
    { intros Hnil. apply (f_equal (@length _)) in Hnil.
      subst docs. rewrite documents_for_length in Hnil by exact Hlen.
      discriminate. }
    rewrite (add_documents_ready d rows docs Hidx Hdocs).
    pose proof (documents_for_length source_id (c :: rest) embeddings Hlen)
      as Hcount.
    unfold documents_for in Hcount. cbn [map] in Hcount.
    rewrite Hcount. reflexivity.
Qed.

(** X19: on an initialised index, given an endpoint that answers in
    order, a run with [force_reindex] over chunks with pairwise distinct
    ids reports every chunk as indexed, and afterwards every chunk can be
    read back under its id, with its text and with the source id and the
    digest of its text in the metadata. *)
Theorem forced_run_stores_every_chunk (env : environment F)
        (svc : IndexingService F) (d : FaissDB.FAISSVectorDB F)
        (rows : list (FaissDB.row F)) (chunks : list chunk)
        (source_id : string) :
  VectorDB.db (vector_service svc) = Some d ->
  FaissDB.index d = Some rows ->
  answers_in_order embeddings_create embeds ->
  NoDup (map (_generate_chunk_id source_id) chunks) ->
  fst (index_chunks embeddings_create md5_hexdigest env svc chunks source_id
                    true)
  = Ok (mkStats (length chunks) (length chunks) 0 0)
  /\ forall c,
      In c chunks ->
      VectorDB.get_document
        (vector_service
           (snd (index_chunks embeddings_create md5_hexdigest env svc chunks
                              source_id true)))
        (_generate_chunk_id source_id c)
      = Ok (Some (FaissDB.mkEntry
                    (_generate_chunk_id source_id c) (chunk_text c)
                    (Dict.set "content_hash"
                       (PStr (md5_hexdigest (chunk_text c)))
                       (Dict.set "source_id" (PStr source_id)
                                 (metadata_of c))))).
Proof.
  intros Hdb Hidx Horder Hnodup.
  destruct (index_chunks_run env svc d rows chunks source_id true
                             Hdb Hidx Horder) as [Hlen Hrun].
  cbn [selected_chunks skipped_chunks length] in Hlen, Hrun.
  rewrite Hrun. cbn [fst snd]. split; [reflexivity|].
  intros c Hin. destruct chunks as [|c0 rest]; [destruct Hin|].
  cbn [vector_service]. unfold VectorDB.get_document. cbn [VectorDB.db].
  unfold FaissDB.get_document. cbn [FaissDB.documents].
  rewrite (store_after_documents_for source_id (c0 :: rest) _ _
             (Nat.eq_le_incl _ _ (eq_sym Hlen)) Hnodup c Hin).
  reflexivity.
Qed.

Lemma filter_none (A : Type) (f : A -> bool) (l : list A) :
  (forall x, In x l -> f x = false) -> filter f l = [].
Proof.
  induction l as [|x l IH]; intros Hall; [reflexivity|].
  cbn [filter]. rewrite (Hall x (or_introl eq_refl)).
  apply IH. intros y Hin. apply Hall. right. exact Hin.
Qed.

Lemma filter_all (A : Type) (f : A -> bool) (l : list A) :
  (forall x, In x l -> f x = true) -> filter f l = l.
Proof.
  induction l as [|x l IH]; intros Hall; [reflexivity|].
  cbn [filter]. rewrite (Hall x (or_introl eq_refl)). f_equal.
  apply IH. intros y Hin. apply Hall. right. exact Hin.
Qed.

Lemma get_default_set_same (V : Type) (k : string) (v default : V)
      (m : Dict.t V) :
  Dict.get_default k default (Dict.set k v m) = v.
Proof. unfold Dict.get_default. rewrite get_set_same. reflexivity. Qed.

(** X20: a run without [force_reindex] right after a run with it, over
    the same chunks, counts every chunk as skipped, asks the embedding
    endpoint for nothing and leaves the service as it was. *)
Theorem rerun_skips_everything (env : environment F)
        (svc : IndexingService F) (d : FaissDB.FAISSVectorDB F)
        (rows : list (FaissDB.row F)) (chunks : list chunk)
        (source_id : string) :
  VectorDB.db (vector_service svc) = Some d ->
  FaissDB.index d = Some rows ->
  answers_in_order embeddings_create embeds ->
  NoDup (map (_generate_chunk_id source_id) chunks) ->
  index_chunks embeddings_create md5_hexdigest env
               (snd (index_chunks embeddings_create md5_hexdigest env svc
                                  chunks source_id true))
               chunks source_id false
  = (Ok (mkStats (length chunks) 0 (length chunks) 0),
     snd (index_chunks embeddings_create md5_hexdigest env svc chunks
                       source_id true)).
Proof.
  intros Hdb Hidx Horder Hnodup.
  destruct (index_chunks_run env svc d rows chunks source_id true
                             Hdb Hidx Horder) as [Hlen Hrun].
  cbn [selected_chunks skipped_chunks length] in Hlen, Hrun.
  rewrite Hrun. cbn [snd].
  destruct chunks as [|c0 rest].
  - apply (new_chunks_are_not_indexed embeddings_create md5_hexdigest env svc
             d [] source_id Hdb).
    intros c [].
  - set (docs := documents_for md5_hexdigest source_id (c0 :: rest) _) in *.
    set (d1 := FaissDB.mkDB _ _ _ _ _).
    set (svc1 := mkIndexing _ _).
    assert (VectorDB.db (vector_service svc1) = Some d1) as Hdb1
      by reflexivity.
    assert (forall c, In c (c0 :: rest) ->
                      changed md5_hexdigest d1 source_id c = false
                      /\ unchanged md5_hexdigest d1 source_id c = true)
      as Hsame.
    { intros c Hin. unfold changed, unchanged, FaissDB.get_document.
      subst d1. cbn [FaissDB.documents]. subst docs.
      rewrite (store_after_documents_for source_id (c0 :: rest) _ _
                 (Nat.eq_le_incl _ _ (eq_sym Hlen)) Hnodup c Hin).
      unfold _has_content_changed, stored_chunk, _generate_content_hash.
      cbn [FaissDB.entry_metadata FaissDB.stored_metadata].
      rewrite get_default_set_same. cbn [pyval_eqb].
      rewrite String.eqb_refl. split; reflexivity. }
    destruct (index_chunks_run env svc1 d1 (rows ++ new_rows d docs)
                (c0 :: rest) source_id false Hdb1 eq_refl Horder)
      as [_ Hrun1].
    rewrite Hrun1. unfold selected_chunks, skipped_chunks.
    rewrite (filter_none _ (changed md5_hexdigest d1 source_id) (c0 :: rest))
      by (intros c Hin; apply Hsame; exact Hin).
    rewrite (filter_all _ (unchanged md5_hexdigest d1 source_id) (c0 :: rest))
      by (intros c Hin; apply Hsame; exact Hin).
    reflexivity.
Qed.

(** X21: a run without [force_reindex] on an initialised index, given
    an endpoint that answers in order, counts as indexed the chunks whose
    id is stored with another digest and as skipped the chunks whose id is
    stored with the same digest.  A chunk whose id is not stored is counted
    nowhere, and its id is still not stored after the run. *)
Theorem plain_run_accounting (env : environment F)
        (svc : IndexingService F) (d : FaissDB.FAISSVectorDB F)
        (rows : list (FaissDB.row F)) (chunks : list chunk)
        (source_id : string) :
  VectorDB.db (vector_service svc) = Some d ->
  FaissDB.index d = Some rows ->
  answers_in_order embeddings_create embeds ->
  fst (index_chunks embeddings_create md5_hexdigest env svc chunks source_id
                    false)
  = Ok (mkStats (length chunks)
                (length (filter (changed md5_hexdigest d source_id) chunks))
                (length (filter (unchanged md5_hexdigest d source_id) chunks))
                0)
  /\ forall c,
      In c chunks ->
      FaissDB.get_document d (_generate_chunk_id source_id c) = None ->
      VectorDB.get_document
        (vector_service
           (snd (index_chunks embeddings_create md5_hexdigest env svc chunks
                              source_id false)))
        (_generate_chunk_id source_id c)
      = Ok None.
Proof.
  intros Hdb Hidx Horder.
  destruct (index_chunks_run env svc d rows chunks source_id false
                             Hdb Hidx Horder) as [Hlen Hrun].
  cbn [selected_chunks skipped_chunks] in Hlen, Hrun.
  rewrite Hrun. cbn [fst snd]. split; [reflexivity|].
  intros c Hin Hnew.
  destruct (filter (changed md5_hexdigest d source_id) chunks)
    as [|c0 rest] eqn:Hsel.
  - unfold VectorDB.get_document. rewrite Hdb, Hnew. reflexivity.
  - cbn [vector_service]. unfold VectorDB.get_document. cbn [VectorDB.db].
    unfold FaissDB.get_document at 1. cbn [FaissDB.documents].
    rewrite store_after_get_other.
    + unfold FaissDB.get_document in Hnew.
      destruct (Dict.get (_generate_chunk_id source_id c)
                         (FaissDB.documents d)); [discriminate|reflexivity].
    + rewrite assigned_ids_for by (rewrite Hlen; apply le_n).
      rewrite <- Hsel. intros Hmem. apply in_map_iff in Hmem.
      destruct Hmem as (c' & Hid & Hc'). apply filter_In in Hc'.
      destruct Hc' as [_ Hchanged]. unfold changed in Hchanged.
      rewrite Hid, Hnew in Hchanged. discriminate.
Qed.

End MoreIndexingFacts.

Lemma terse_in_order : answers_in_order Sample.terse Sample.gives_one.
Proof.
  split.
  - intros h m batch data Hresp. injection Hresp as <-.
    induction batch as [|t batch IH]; constructor; [reflexivity|exact IH].
  - intros h m text e others Hresp. injection Hresp as <- _. reflexivity.
Qed.

Lemma sample_ids_distinct :
  NoDup (map (Indexing._generate_chunk_id "page")
             [Sample.chunk0; Sample.chunk1]).
Proof.
  constructor; [|constructor; [|constructor]].
  - intros [Heq|[]]. discriminate Heq.
  - intros [].
Qed.

Lemma index_chunks_stats_witness :
  fst (Indexing.index_chunks Sample.terse Sample.digest Sample.env
         Sample.indexer_ready [Sample.chunk0; Sample.chunk1] "page" true)
  = Ok (Indexing.mkStats 2 2 0 0)
  /\ Indexing.total_chunks (Indexing.mkStats 2 2 0 0) = 2%nat
  /\ Indexing.failed (Indexing.mkStats 2 2 0 0) = 0%nat.
Proof.
  split; [vm_compute; reflexivity|].
  assert (Indexing.index_chunks Sample.terse Sample.digest Sample.env
            Sample.indexer_ready [Sample.chunk0; Sample.chunk1] "page" true
          = (Ok (Indexing.mkStats 2 2 0 0), Sample.indexer_filled)) as Hrun
    by (vm_compute; reflexivity).
  destruct (index_chunks_stats Sample.terse Sample.digest Sample.env
              Sample.indexer_ready Sample.indexer_filled
              [Sample.chunk0; Sample.chunk1] "page" true
              (Indexing.mkStats 2 2 0 0) Hrun) as (Htotal & Hfailed & _).
  split; [exact Htotal|exact Hfailed].
Defined.

Lemma forced_run_stores_every_chunk_witness :
  VectorDB.get_document
    (Indexing.vector_service
       (snd (Indexing.index_chunks Sample.terse Sample.digest Sample.env
               Sample.indexer_ready [Sample.chunk0; Sample.chunk1] "page"
               true)))
    (Indexing._generate_chunk_id "page" Sample.chunk1)
  = Ok (Some (FaissDB.mkEntry
                (Indexing._generate_chunk_id "page" Sample.chunk1)
                (Indexing.chunk_text Sample.chunk1)
                (Dict.set "content_hash"
                   (PStr (Sample.digest (Indexing.chunk_text Sample.chunk1)))
                   (Dict.set "source_id" (PStr "page")
                             (Indexing.metadata_of Sample.chunk1))))).
Proof.
  apply (proj2 (forced_run_stores_every_chunk
                  Sample.terse Sample.digest Sample.gives_one Sample.env
                  Sample.indexer_ready Sample.fresh_db []
                  [Sample.chunk0; Sample.chunk1] "page"
                  eq_refl eq_refl terse_in_order sample_ids_distinct)).
  right. left. reflexivity.
Defined.

Lemma rerun_skips_everything_witness :
  Indexing.index_chunks Sample.terse Sample.digest Sample.env
    (snd (Indexing.index_chunks Sample.terse Sample.digest Sample.env
            Sample.indexer_ready [Sample.chunk0; Sample.chunk1] "page" true))
    [Sample.chunk0; Sample.chunk1] "page" false
  = (Ok (Indexing.mkStats 2 0 2 0),
     snd (Indexing.index_chunks Sample.terse Sample.digest Sample.env
            Sample.indexer_ready [Sample.chunk0; Sample.chunk1] "page" true)).
Proof.
  apply (rerun_skips_everything
           Sample.terse Sample.digest Sample.gives_one Sample.env
           Sample.indexer_ready Sample.fresh_db []
           [Sample.chunk0; Sample.chunk1] "page"
           eq_refl eq_refl terse_in_order sample_ids_distinct).
Defined.

Lemma plain_run_accounting_witness :
  fst (Indexing.index_chunks Sample.terse Sample.digest Sample.env
         Sample.indexer_filled
         [Sample.chunk0; Sample.chunk1_edited; Sample.chunk2] "page" false)
  = Ok (Indexing.mkStats 3 1 1 0)
  /\ VectorDB.get_document
       (Indexing.vector_service
          (snd (Indexing.index_chunks Sample.terse Sample.digest Sample.env
                  Sample.indexer_filled
                  [Sample.chunk0; Sample.chunk1_edited; Sample.chunk2]
                  "page" false)))
       (Indexing._generate_chunk_id "page" Sample.chunk2)
     = Ok None.
Proof.
  assert (VectorDB.db (Indexing.vector_service Sample.indexer_filled)
          = Some Sample.db_filled) as Hdb by (vm_compute; reflexivity).
  assert (FaissDB.index Sample.db_filled
          = Some (Sample.rows_of Sample.db_filled)) as Hidx
    by (vm_compute; reflexivity).
  destruct (plain_run_accounting
              Sample.terse Sample.digest Sample.gives_one Sample.env
              Sample.indexer_filled Sample.db_filled
              (Sample.rows_of Sample.db_filled)
              [Sample.chunk0; Sample.chunk1_edited; Sample.chunk2] "page"
              Hdb Hidx terse_in_order) as [Hstats Hnew].
  split.
  - rewrite Hstats. vm_compute. reflexivity.
  - apply Hnew; [right; right; left; reflexivity|vm_compute; reflexivity].
Defined.

(* ===================================================================== *)
(** ** Chunk ids and Notion pages: properties *)
(* ===================================================================== *)

Section ChunkIdFacts.

Import Indexing.

Lemma has_char_app (c : ascii) (a b : string) :
  has_char c (a ++ b)%string = has_char c a || has_char c b.
Proof.
  induction a as [|x a IH]; simpl; [reflexivity|].
  rewrite IH. apply orb_assoc.
Qed.

Lemma digits_without_underscore (u : Decimal.uint) :
  has_char "_" (NilEmpty.string_of_uint u) = false.
Proof. induction u; simpl; auto. Qed.

Lemma str_of_Z_without_underscore (z : Z) :
  has_char "_" (PyStr.str_of_Z z) = false.
Proof.
  unfold PyStr.str_of_Z, NilZero.string_of_int, NilZero.string_of_uint.
  destruct (Z.to_int z) as [u|u]; destruct u; simpl;
    try reflexivity; apply digits_without_underscore.
Qed.

Lemma to_int_not_nil (z : Z) :
  Z.to_int z <> Decimal.Pos Decimal.Nil
  /\ Z.to_int z <> Decimal.Neg Decimal.Nil.
Proof.
  destruct z as [|p|p]; simpl; split; try discriminate;
    intros Heq; injection Heq as Heq;
    apply (DecimalPos.Unsigned.to_uint_nonnil p); exact Heq.
Qed.

(** [str] of an [int] tells the [int]. *)
Lemma str_of_Z_injective (a b : Z) :
  PyStr.str_of_Z a = PyStr.str_of_Z b -> a = b.
Proof.
  unfold PyStr.str_of_Z. intros Heq.
  apply (f_equal NilZero.int_of_string) in Heq.
  destruct (to_int_not_nil a) as [Ha1 Ha2].
  destruct (to_int_not_nil b) as [Hb1 Hb2].
  rewrite !NilZero.isi in Heq by assumption.
  injection Heq as Heq. apply DecimalZ.to_int_inj. exact Heq.
Qed.

(** A string is cut at its last underscore in one way only. *)
Lemma cut_at_last_underscore (s1 : string) :
  forall s2 d1 d2,
    has_char "_" d1 = false -> has_char "_" d2 = false ->
    (s1 ++ "_" ++ d1 = s2 ++ "_" ++ d2)%string ->
    s1 = s2 /\ d1 = d2.
Proof.
  induction s1 as [|c s1 IH]; intros s2 d1 d2 H1 H2 Heq.
  - destruct s2 as [|c2 s2]; simpl in Heq.
    + injection Heq as ->. split; reflexivity.
    + injection Heq as _ Heq. rewrite Heq, has_char_app in H1.
      simpl in H1. rewrite orb_true_r in H1. discriminate.
  - destruct s2 as [|c2 s2]; simpl in Heq.
    + injection Heq as _ Heq. rewrite <- Heq, has_char_app in H2.
      simpl in H2. rewrite orb_true_r in H2. discriminate.
    + injection Heq as -> Heq.
      destruct (IH s2 d1 d2 H1 H2 Heq) as [-> ->]. split; reflexivity.
Qed.

(** X22: chunks whose [chunk_index] is an [int] (a chunk without one
    counts as 0) get the same id only if they have the same source id and
    the same index. *)
Theorem chunk_id_names_one_chunk (source1 source2 : string)
        (c1 c2 : chunk) (i1 i2 : Z) :
  Dict.get_default "chunk_index" (PInt 0) (metadata_of c1) = PInt i1 ->
  Dict.get_default "chunk_index" (PInt 0) (metadata_of c2) = PInt i2 ->
  _generate_chunk_id source1 c1 = _generate_chunk_id source2 c2 ->
  source1 = source2 /\ i1 = i2.
Proof.
  unfold _generate_chunk_id. intros -> -> Heq. cbn [py_str] in Heq.
  destruct (cut_at_last_underscore source1 source2 _ _
              (str_of_Z_without_underscore i1)
              (str_of_Z_without_underscore i2) Heq) as [Hs Hd].
  split; [exact Hs|]. apply str_of_Z_injective. exact Hd.
Qed.

End ChunkIdFacts.

Lemma chunk_id_names_one_chunk_witness :
  "page" = "page" /\ 1 = 1.
Proof.
  apply (chunk_id_names_one_chunk "page" "page" Sample.chunk1
           Sample.chunk1_edited 1 1); reflexivity.
Defined.

Section NotionFacts.

Import Indexing.

Variable encode_len : string -> nat.

Lemma with_metadata_length (p : Notion.page) (page_title : string)
      (total : nat) (raw_chunks : list string) :
  forall i,
    length (Notion.with_metadata p page_title total i raw_chunks)
    = length raw_chunks.
Proof.
  induction raw_chunks as [|t rest IH]; intros i; simpl; [reflexivity|].
  rewrite IH. reflexivity.
Qed.

Lemma with_metadata_nth (p : Notion.page) (page_title : string)
      (total : nat) (raw_chunks : list string) :
  forall i k c,
    nth_error (Notion.with_metadata p page_title total i raw_chunks) k
    = Some c ->
    nth_error raw_chunks k = Some (chunk_text c)
    /\ Dict.get "chunk_index" (metadata_of c)
       = Some (PInt (Z.of_nat (i + k)))
    /\ Dict.get "total_chunks" (metadata_of c)
       = Some (PInt (Z.of_nat total))
    /\ Dict.get "page_id" (metadata_of c) = Some (PStr (Notion.id p))
    /\ Dict.get "page_title" (metadata_of c) = Some (PStr page_title).
Proof.
  induction raw_chunks as [|t rest IH]; intros i k c Hnth.
  - destruct k; discriminate.
  - destruct k as [|k]; cbn [Notion.with_metadata nth_error] in Hnth.
    + injection Hnth as <-. rewrite Nat.add_0_r.
      repeat split; reflexivity.
    + replace (i + S k)%nat with (S i + k)%nat by lia.
      apply IH. exact Hnth.
Qed.

Lemma with_metadata_ids (p : Notion.page) (page_title : string)
      (total : nat) (source_id : string) (raw_chunks : list string) :
  forall i,
    map (_generate_chunk_id source_id)
        (Notion.with_metadata p page_title total i raw_chunks)
    = map (fun k => (source_id ++ "_" ++ PyStr.str_of_nat k)%string)
          (seq i (length raw_chunks)).
Proof.
  induction raw_chunks as [|t rest IH]; intros i; [reflexivity|].
  cbn [Notion.with_metadata map length seq]. rewrite IH.
  reflexivity.
Qed.

Lemma with_metadata_texts (p : Notion.page) (page_title : string)
      (total : nat) (raw_chunks : list string) :
  forall i,
    map chunk_text (Notion.with_metadata p page_title total i raw_chunks)
    = raw_chunks.
Proof.
  induction raw_chunks as [|t rest IH]; intros i; simpl; [reflexivity|].
  rewrite IH. reflexivity.
Qed.

Lemma NoDup_map_injective (A B : Type) (f : A -> B) (l : list A) :
  (forall x y, f x = f y -> x = y) -> NoDup l -> NoDup (map f l).
Proof.
  intros Hinj Hnodup. induction Hnodup as [|x l Hfresh Hrest IH]; simpl.
  - constructor.
  - constructor; [|exact IH]. intros Hin. apply in_map_iff in Hin.
    destruct Hin as (y & Heq & Hy). apply Hinj in Heq. subst y.
    contradiction.
Qed.

(** X23: the chunks [extract_text] returns are numbered from 0 in
    [chunk_index], carry their count in [total_chunks] and the id of the
    page in [page_id], and have the texts [create_chunks] gives for the
    joined text of the blocks; whatever source id they are indexed under,
    their chunk ids are pairwise distinct. *)
Theorem extract_text_numbers_chunks (chunk_size chunk_overlap : Z)
        (p : Notion.page) (blocks : list Notion.block) :
  (forall source_id,
      NoDup (map (_generate_chunk_id source_id)
                 (Notion.extract_text encode_len chunk_size chunk_overlap
                                      p blocks)))
  /\ (PyStr.is_empty
        (String.concat (Notion.line_feed ++ Notion.line_feed)
                       (Notion.text_content blocks))
      = false ->
      map chunk_text
          (Notion.extract_text encode_len chunk_size chunk_overlap p blocks)
      = create_chunks encode_len
          (String.concat (Notion.line_feed ++ Notion.line_feed)
                         (Notion.text_content blocks))
          chunk_size chunk_overlap)
  /\ (forall k c,
         nth_error (Notion.extract_text encode_len chunk_size chunk_overlap
                                        p blocks) k
         = Some c ->
         nth_error
           (create_chunks encode_len
              (String.concat (Notion.line_feed ++ Notion.line_feed)
                             (Notion.text_content blocks))
              chunk_size chunk_overlap) k
         = Some (chunk_text c)
         /\ Dict.get "chunk_index" (metadata_of c) = Some (PInt (Z.of_nat k))
         /\ Dict.get "total_chunks" (metadata_of c)
            = Some (PInt (Z.of_nat
                            (length (Notion.extract_text
                                       encode_len chunk_size chunk_overlap
                                       p blocks))))
         /\ Dict.get "page_id" (metadata_of c) = Some (PStr (Notion.id p))
         /\ _generate_chunk_id (Notion.id p) c
            = (Notion.id p ++ "_" ++ PyStr.str_of_nat k)%string).
Proof.
  unfold Notion.extract_text.
  set (full_text := String.concat (Notion.line_feed ++ Notion.line_feed)
                                  (Notion.text_content blocks)).
  set (raw := create_chunks encode_len full_text chunk_size chunk_overlap).
  destruct (PyStr.is_empty full_text).
  - split; [intros; constructor|]. split; [discriminate|].
    intros [|k] c Hnth; discriminate.
  - split; [|split; [intros _; apply with_metadata_texts|]].
    + intros source_id. rewrite with_metadata_ids.
      apply NoDup_map_injective; [|apply seq_NoDup].
      intros x y Heq.
      destruct (cut_at_last_underscore source_id source_id _ _
                  (str_of_Z_without_underscore (Z.of_nat x))
                  (str_of_Z_without_underscore (Z.of_nat y)) Heq)
        as [_ Hd].
      apply str_of_Z_injective in Hd. lia.
    + intros k c Hnth. rewrite with_metadata_length.
      destruct (with_metadata_nth _ _ _ _ _ _ _ Hnth)
        as (Htext & Hidx & Htotal & Hpage & _).
      repeat (split; [assumption|]).
      unfold _generate_chunk_id, Dict.get_default. rewrite Hidx.
      reflexivity.
Qed.

End NotionFacts.

Section BlockFacts.

(** X24: a text [_extract_text_from_block] returns is never empty and has
    no whitespace around it, and it comes from a block of one of the
    thirteen handled types. *)
Theorem block_text_is_stripped (b : Notion.block) (text : string) :
  Notion._extract_text_from_block b = Some text ->
  PyStr.is_empty text = false
  /\ PyStr.strip text = text
  /\ exists block_type,
      Notion.block_type b = Some block_type
      /\ (In block_type Notion.text_block_types
          \/ In block_type ["code"; "table"; "image"]).
Proof.
  intros Hrun. unfold Notion._extract_text_from_block in Hrun.
  destruct (Notion.block_type b) as [ty|]; [|discriminate].
  destruct (PyStr.is_empty ty); [discriminate|].
  destruct (PyStr.is_empty
              (PyStr.strip (PyStr.join (Notion.text_parts ty b))))
    eqn:Hempty; [discriminate|].
  injection Hrun as <-. split; [exact Hempty|].
  split; [apply strip_idempotent|].
  exists ty. split; [reflexivity|].
  unfold Notion.text_parts in Hempty.
  destruct (existsb (String.eqb ty) Notion.text_block_types) eqn:Htext.
  - left. apply existsb_exists in Htext.
    destruct Htext as (x & Hin & Heq). apply String.eqb_eq in Heq.
    subst x. exact Hin.
  - right.
    destruct (String.eqb_spec ty "code") as [->|_]; [left; reflexivity|].
    destruct (String.eqb_spec ty "table") as [->|_];
      [right; left; reflexivity|].
    destruct (String.eqb_spec ty "image") as [->|_];
      [right; right; left; reflexivity|].
    discriminate.
Qed.

End BlockFacts.

Lemma block_text_is_stripped_witness :
  Notion._extract_text_from_block
    (Notion.mkBlock (Some "paragraph") [" Hello"; "world. "] "" [])
  = Some "Hello world."
  /\ PyStr.strip "Hello world." = "Hello world.".
Proof.
  split; [reflexivity|].
  apply (block_text_is_stripped
           (Notion.mkBlock (Some "paragraph") [" Hello"; "world. "] "" [])
           "Hello world." eq_refl).
Defined.

(* ===================================================================== *)
(** ** Answering pipeline: further properties *)
(* ===================================================================== *)

Section MoreAnsweringFacts.

Context {F : Type} {ops : FloatOps F}.

Import RAG.

Variable embeddings_create :
  list Embedding.event -> Embedding.request -> option (list (list F)).
Variable chat_completions_create :
  string -> string -> string -> F -> Z -> option string.
Variable format_2f : F -> string.

Lemma take_length (n : nat) (s : string) :
  (String.length (PyStr.take n s) <= n)%nat.
Proof.
  revert s. induction n as [|n IH]; intros s; [apply le_n|].
  destruct s as [|c r]; simpl; [lia|].
  specialize (IH r). lia.
Qed.

(** X25: a question of whitespace only is refused with a [ValueError]:
    by [generate_query_embedding] before any request to the endpoint, and
    so by [query] on an initialised service, which stays as it was. *)
Theorem blank_question_is_refused (query : string) :
  all_chars PyStr.is_space query = true ->
  (forall es,
      Embedding.generate_query_embedding embeddings_create es query
      = (Raised (ValueError "Query cannot be empty"), es))
  /\ (forall env svc d top_k temperature max_tokens,
         VectorDB.db (vector_service svc) = Some d ->
         RAG.query embeddings_create chat_completions_create format_2f env
                   svc query top_k temperature max_tokens
         = (Raised (ValueError "Query cannot be empty"), svc)).
Proof.
  intros Hblank. split.
  - intros es. apply blank_query_refused. exact Hblank.
  - intros env svc d top_k temperature max_tokens Hdb.
    unfold RAG.query. rewrite Hdb.
    rewrite (blank_query_refused embeddings_create _ query Hblank).
    destruct svc; reflexivity.
Qed.

(** X26: what an answer of [query] on an initialised service holds: the
    question as it was asked and the configured chat model; without
    sources, the fixed answer and no timestamp; and every source is taken
    from a stored document: its text is the first 500 characters of the
    stored text, and its page id is the stored [page_id] or else the id
    the document is stored under.  The query leaves the stored documents
    and the rows of the index as they were. *)
Theorem answer_sources_are_stored (env : environment F)
        (svc svc' : RAGService F) (d : FaissDB.FAISSVectorDB F)
        (query : string) (top_k : Z) (temperature : F)
        (max_tokens : option Z) (a : answer F) :
  VectorDB.db (vector_service svc) = Some d ->
  RAG.query embeddings_create chat_completions_create format_2f env svc
            query top_k temperature max_tokens
  = (Ok a, svc') ->
  query_text a = query
  /\ model_used a = openai_model_chat env
  /\ (sources a = [] ->
      answer_text a = no_information_answer /\ timestamp a = None)
  /\ Forall (fun s =>
               (String.length (src_text s) <= 500)%nat
               /\ exists id st,
                   Dict.get id (FaissDB.documents d) = Some st
                   /\ src_text s = PyStr.take 500 (FaissDB.stored_text st)
                   /\ src_page_id s
                      = Dict.get_default "page_id" (PStr id)
                                         (FaissDB.stored_metadata st))
            (sources a)
  /\ exists d',
      VectorDB.db (vector_service svc') = Some d'
      /\ FaissDB.documents d' = FaissDB.documents d
      /\ FaissDB.index d' = FaissDB.index d.
Proof.
  intros Hdb Hrun. unfold RAG.query in Hrun. rewrite Hdb in Hrun.
  destruct (Embedding.generate_query_embedding
              embeddings_create (embedding_service svc) query)
    as [[query_embedding|x] es]; [|discriminate].
  unfold VectorDB.search in Hrun. rewrite Hdb in Hrun.
  destruct (search_keeps_store d query_embedding top_k)
    as (Hhits & Hdocs & Hidx & _).
  destruct (FaissDB.search d query_embedding top_k) as [hits d1].
  cbn [fst snd] in *.
  assert (exists d',
             VectorDB.db (VectorDB.mkVectorDB (Some d1)) = Some d'
             /\ FaissDB.documents d' = FaissDB.documents d
             /\ FaissDB.index d' = FaissDB.index d) as Hstate
    by (exists d1; repeat split; assumption).
  destruct hits as [|h hits].
  - injection Hrun as <- <-. cbn. repeat split; try constructor.
    exact Hstate.
  - destruct (_generate_answer chat_completions_create env query
                (_prepare_context format_2f (h :: hits)) temperature
                match max_tokens with
                | Some m => m
                | None => default_max_tokens env
                end) as [text|x]; [|discriminate].
    apply pair_equal_spec in Hrun. destruct Hrun as [Ha <-].
    apply (f_equal (fun r => match r with Ok v => v | Raised _ => a end))
      in Ha.
    cbv beta iota in Ha. subst a.
    cbn [query_text model_used sources answer_text timestamp
         vector_service].
    split; [reflexivity|]. split; [reflexivity|].
    split; [discriminate|]. split; [|exact Hstate].
    unfold _format_sources. apply Forall_forall. intros s Hin.
    apply in_map_iff in Hin. destruct Hin as (doc & <- & Hdoc).
    rewrite Forall_forall in Hhits. specialize (Hhits doc Hdoc).
    cbn [src_text src_page_id]. split; [apply take_length|].
    exists (FaissDB.hit_id doc),
           (FaissDB.mkStored (FaissDB.hit_text doc)
                             (FaissDB.hit_metadata doc)).
    split; [exact Hhits|]. split; reflexivity.
Qed.

End MoreAnsweringFacts.

Lemma blank_question_is_refused_witness :
  RAG.query Sample.steady Sample.chat Sample.two_decimals Sample.env
            Sample.asker_filled "   " 5 0.5%float None
  = (Raised (ValueError "Query cannot be empty"), Sample.asker_filled).
Proof.
  apply (proj2 (blank_question_is_refused
                  Sample.steady Sample.chat Sample.two_decimals "   "
                  eq_refl)
               Sample.env Sample.asker_filled Sample.db_filled 5 0.5%float
               None).
  vm_compute. reflexivity.
Defined.

Lemma answer_sources_are_stored_witness :
  exists a,
    fst (RAG.query Sample.terse Sample.chat Sample.two_decimals Sample.env
                   Sample.asker_filled "what?" 5 0.5%float None)
    = Ok a
    /\ map (@RAG.src_text float) (RAG.sources a)
       = ["first chunk"; "second chunk"]
    /\ RAG.query_text a = "what?".
Proof.
  pose (run := RAG.query Sample.terse Sample.chat Sample.two_decimals
                         Sample.env Sample.asker_filled "what?" 5 0.5%float
                         None).
  pose (a := match fst run with
             | Ok a => a
             | Raised _ => RAG.mkAnswer "" [] "" "" None
             end).
  assert (run = (Ok a, snd run)) as Hrun by (vm_compute; reflexivity).
  assert (VectorDB.db (RAG.vector_service Sample.asker_filled)
          = Some Sample.db_filled) as Hdb by (vm_compute; reflexivity).
  exists a. split; [fold run; rewrite Hrun; reflexivity|].
  split; [vm_compute; reflexivity|].
  apply (answer_sources_are_stored
           Sample.terse Sample.chat Sample.two_decimals Sample.env
           Sample.asker_filled (snd run) Sample.db_filled "what?" 5
           0.5%float None a Hdb Hrun).
Defined.

(* ===================================================================== *)
(** ** Summaries and settings: properties *)
(* ===================================================================== *)

Section SummaryFacts.

Variable exceeds_fraction : Z -> Z -> bool.

Lemma take_length_min (n : nat) (s : string) :
  String.length (PyStr.take n s) = Nat.min n (String.length s).
Proof.
  revert s. induction n as [|n IH]; intros s; [reflexivity|].
  destruct s as [|c r]; simpl; [reflexivity|]. rewrite IH. reflexivity.
Qed.

Lemma take_take (a b : nat) (s : string) :
  PyStr.take a (PyStr.take b s) = PyStr.take (Nat.min a b) s.
Proof.
  revert b s. induction a as [|a IH]; intros b s; [reflexivity|].
  destruct b as [|b]; [reflexivity|].
  destruct s as [|c r]; simpl; [reflexivity|]. rewrite IH. reflexivity.
Qed.

Lemma take_all (n : nat) (s : string) :
  (String.length s <= n)%nat -> PyStr.take n s = s.
Proof.
  revert s. induction n as [|n IH]; intros s Hlen.
  - destruct s; [reflexivity|simpl in Hlen; lia].
  - destruct s as [|c r]; simpl; [reflexivity|].
    rewrite IH; [reflexivity|]. simpl in Hlen. lia.
Qed.

Lemma slice_to_take (k : Z) (s : string) :
  exists n, slice_to k s = PyStr.take n s.
Proof. unfold slice_to. destruct (0 <=? k); eauto. Qed.

Lemma length_append (a b : string) :
  String.length (a ++ b)%string = (String.length a + String.length b)%nat.
Proof. induction a as [|c a IH]; simpl; [reflexivity|]. rewrite IH. reflexivity. Qed.

(** X27: for a [max_length] that is not negative, whatever the two
    comparisons with [max_length * 0.8] give, a summary is the first [n]
    characters of the cleaned text for some [n <= max_length], followed by
    nothing or by three dots: it has at most [max_length + 3]
    characters. *)
Theorem summary_is_a_prefix (text : string) (max_length : Z) :
  0 <= max_length ->
  (exists n suffix,
      summarize_text exceeds_fraction text max_length
      = (PyStr.take n (clean_text text) ++ suffix)%string
      /\ Z.of_nat n <= max_length
      /\ (suffix = "" \/ suffix = "..."))
  /\ Z.of_nat (String.length
                 (summarize_text exceeds_fraction text max_length))
     <= max_length + 3.
Proof.
  intros Hmax.
  assert (exists n suffix,
             summarize_text exceeds_fraction text max_length
             = (PyStr.take n (clean_text text) ++ suffix)%string
             /\ Z.of_nat n <= max_length
             /\ (suffix = "" \/ suffix = "...")) as Hshape.
  { unfold summarize_text.
    destruct (Z.of_nat (String.length (clean_text text)) <=? max_length)
      eqn:Hshort.
    - apply Z.leb_le in Hshort.
      exists (String.length (clean_text text)), "".
      rewrite take_all by apply le_n.
      split; [|split; [exact Hshort|left; reflexivity]].
      clear. induction (clean_text text) as [|c r IH]; simpl; congruence.
    - assert (slice_to max_length (clean_text text)
              = PyStr.take (Z.to_nat max_length) (clean_text text)) as ->.
      { unfold slice_to. rewrite (proj2 (Z.leb_le 0 max_length) Hmax).
        reflexivity. }
      set (summary := PyStr.take (Z.to_nat max_length) (clean_text text)).
      destruct (exceeds_fraction (rfind "." summary) max_length).
      + destruct (slice_to_take (rfind "." summary + 1) summary) as [n ->].
        subst summary. rewrite take_take.
        exists (Nat.min n (Z.to_nat max_length)), "".
        split; [|split; [lia|left; reflexivity]].
        clear. induction (PyStr.take _ _) as [|c r IH]; simpl; congruence.
      + destruct (exceeds_fraction (rfind " " summary) max_length).
        * destruct (slice_to_take (rfind " " summary) summary) as [n ->].
          subst summary. rewrite take_take.
          exists (Nat.min n (Z.to_nat max_length)), "...".
          split; [reflexivity|]. split; [lia|right; reflexivity].
        * exists (Z.to_nat max_length), "...".
          split; [reflexivity|]. split; [lia|right; reflexivity]. }
  split; [exact Hshape|].
  destruct Hshape as (n & suffix & -> & Hn & Hsuffix).
  rewrite length_append, take_length_min.
  destruct Hsuffix as [->| ->]; simpl; lia.
Qed.

End SummaryFacts.

Lemma summary_is_a_prefix_witness :
  summarize_text Sample.four_fifths "Hello world.  This is a test." 20
  = "Hello world. This..."
  /\ Z.of_nat (String.length
                 (summarize_text Sample.four_fifths
                                 "Hello world.  This is a test." 20))
     <= 20 + 3.
Proof.
  split; [reflexivity|].
  apply (summary_is_a_prefix Sample.four_fifths
           "Hello world.  This is a test." 20).
  lia.
Defined.

Section SettingsFacts.

Context {F : Type} {ops : FloatOps F}.

(** X28: of the values the settings accept for [vector_db_type], only
    ["chroma"] lets the vector service initialise; with the other two the
    settings load and [initialize] raises, leaving the service without a
    backend. *)
Theorem only_chroma_initializes (env : environment F)
        (svc : VectorDB.VectorDBService F) (v : string) :
  Config.validate_vector_db_type (vector_db_type env) = Ok v ->
  (fst (VectorDB.initialize env svc) = Ok tt
   <-> vector_db_type env = "chroma")
  /\ (vector_db_type env <> "chroma" ->
      exists message,
        VectorDB.initialize env svc = (Raised (ValueError message), svc)).
Proof.
  unfold Config.validate_vector_db_type. intros Hvalid.
  destruct (existsb (String.eqb (vector_db_type env))
                    ["chroma"; "qdrant"; "pinecone"]) eqn:Hallowed;
    [|discriminate].
  apply existsb_exists in Hallowed. destruct Hallowed as (x & Hin & Heq).
  apply String.eqb_eq in Heq. subst x. unfold VectorDB.initialize.
  destruct Hin as [<-|[<-|[<-|[]]]].
  - change (String.eqb (VectorDB.lower "chroma") "chroma") with true.
    split; [split; reflexivity|]. intros Hne. destruct Hne. reflexivity.
  - change (String.eqb (VectorDB.lower "qdrant") "chroma") with false.
    split; [split; discriminate|]. intros _. eauto.
  - change (String.eqb (VectorDB.lower "pinecone") "chroma") with false.
    split; [split; discriminate|]. intros _. eauto.
Qed.

End SettingsFacts.

Lemma only_chroma_initializes_witness :
  exists message,
    VectorDB.initialize
      (mkEnv "pinecone" "gpt-4-turbo-preview" 1500 (@FaissDB.NoFiles float)
             "2024-01-01T00:00:00")
      (VectorDB.mkVectorDB None)
    = (Raised (ValueError message), VectorDB.mkVectorDB None).
Proof.
  apply (proj2 (only_chroma_initializes
                  (mkEnv "pinecone" "gpt-4-turbo-preview" 1500
                         (@FaissDB.NoFiles float) "2024-01-01T00:00:00")
                  (VectorDB.mkVectorDB None) "pinecone" eq_refl)).
  discriminate.
Defined.

(* ===================================================================== *)
(** ** Keywords: properties *)
(* ===================================================================== *)

Section KeywordFacts.

Import Keywords.

Lemma all_chars_snoc (p : ascii -> bool) (s : string) (c : ascii) :
  all_chars p (s ++ String c EmptyString) = all_chars p s && p c.
Proof.
  induction s as [|a s IH]; simpl.
  - rewrite andb_true_r. reflexivity.
  - rewrite IH. apply andb_assoc.
Qed.

(** Every match of the word pattern is a non-empty string of the letters
    a to z. *)
Lemma find_words_plain (s : string) :
  forall current plain,
    (plain = true -> all_chars is_lower_letter current = true) ->
    Forall (fun w => all_chars is_lower_letter w = true
                     /\ PyStr.is_empty w = false)
           (find_words current plain s).
Proof.
  assert (forall current plain,
             (plain = true -> all_chars is_lower_letter current = true) ->
             Forall (fun w => all_chars is_lower_letter w = true
                              /\ PyStr.is_empty w = false)
                    (matched current plain)) as Hmatched.
  { intros current plain Hplain. unfold matched.
    destruct plain; [|constructor].
    destruct (PyStr.is_empty current) eqn:Hempty; [constructor|].
    constructor; [|constructor]. split; [apply Hplain; reflexivity|].
    exact Hempty. }
  induction s as [|c r IH]; intros current plain Hplain;
    cbn [find_words].
  - apply Hmatched. exact Hplain.
  - destruct (is_word_char c).
    + apply IH. intros Hboth. apply andb_prop in Hboth.
      destruct Hboth as [Hp Hc]. rewrite all_chars_snoc, (Hplain Hp), Hc.
      reflexivity.
    + apply Forall_app. split; [apply Hmatched; exact Hplain|].
      apply IH. reflexivity.
Qed.

(** The counting loop keeps the keys distinct, and every new key is a
    word that passed the test. *)
Lemma count_words_keys (words : list string) :
  forall word_freq,
    NoDup (Dict.keys word_freq) ->
    NoDup (Dict.keys (fold_left count_word words word_freq))
    /\ forall k,
        In k (Dict.keys (fold_left count_word words word_freq)) ->
        In k (Dict.keys word_freq) \/ (In k words /\ counted k = true).
Proof.
  induction words as [|w words IH]; intros word_freq Hnodup.
  - split; [exact Hnodup|]. intros k Hin. left. exact Hin.
  - cbn [fold_left].
    assert (NoDup (Dict.keys (count_word word_freq w))
            /\ forall k, In k (Dict.keys (count_word word_freq w)) ->
                         In k (Dict.keys word_freq)
                         \/ (k = w /\ counted k = true)) as [Hstep Hnew].
    { unfold count_word. destruct (counted w) eqn:Hcounted.
      - rewrite keys_set.
        destruct (Dict.mem w word_freq) eqn:Hmem.
        + split; [exact Hnodup|]. intros k Hin. left. exact Hin.
        + split.
          * apply NoDup_app; [exact Hnodup|repeat constructor; intros []|].
            intros k Hin [<-|[]]. apply mem_in_keys in Hin. congruence.
          * intros k Hin. apply in_app_or in Hin.
            destruct Hin as [Hin|[<-|[]]]; [left; exact Hin|].
            right. split; [reflexivity|exact Hcounted].
      - split; [exact Hnodup|]. intros k Hin. left. exact Hin. }
    destruct (IH (count_word word_freq w) Hstep) as [Hall Hkeys].
    split; [exact Hall|]. intros k Hin.
    destruct (Hkeys k Hin) as [Hold|[Hlater Hcounted]].
    + destruct (Hnew k Hold) as [Hthere|[-> Hcounted]].
      * left. exact Hthere.
      * right. split; [left; reflexivity|exact Hcounted].
    + right. split; [right; exact Hlater|exact Hcounted].
Qed.

Lemma insert_by_frequency_permutation (x : string * Z)
      (l : list (string * Z)) :
  Permutation.Permutation (insert_by_frequency x l) (x :: l).
Proof.
  induction l as [|y r IH]; cbn [insert_by_frequency].
  - apply Permutation.Permutation_refl.
  - destruct (snd x <? snd y); [|apply Permutation.Permutation_refl].
    eapply Permutation.perm_trans;
      [apply Permutation.perm_skip; exact IH|apply Permutation.perm_swap].
Qed.

Lemma sort_by_frequency_permutation (l : list (string * Z)) :
  Permutation.Permutation (sort_by_frequency l) l.
Proof.
  induction l as [|x l IH]; cbn [sort_by_frequency fold_right].
  - apply Permutation.perm_nil.
  - eapply Permutation.perm_trans;
      [apply insert_by_frequency_permutation|].
    apply Permutation.perm_skip. exact IH.
Qed.

Lemma slice_to_prefix (A : Type) (k : Z) (l : list A) :
  exists rest, l = Embedding.slice_to k l ++ rest.
Proof.
  unfold Embedding.slice_to.
  destruct (0 <=? k); eexists; symmetry; apply firstn_skipn.
Qed.

(** X29: the keywords [extract_keywords] returns are pairwise distinct;
    each is a word of at least three letters a to z that is not a stop
    word; and for a [max_keywords] that is not negative there are at most
    [max_keywords] of them. *)
Theorem keywords_are_counted_words (text : string) (max_keywords : Z) :
  NoDup (extract_keywords text max_keywords)
  /\ Forall (fun w =>
               all_chars is_lower_letter w = true
               /\ (3 <= String.length w)%nat
               /\ ~ In w stop_words)
            (extract_keywords text max_keywords)
  /\ (0 <= max_keywords ->
      (length (extract_keywords text max_keywords)
       <= Z.to_nat max_keywords)%nat).
Proof.
  unfold extract_keywords.
  set (words := find_words EmptyString true
                           (clean_text (VectorDB.lower text))).
  set (word_freq := fold_left count_word words []).
  destruct (count_words_keys words [] (NoDup_nil _)) as [Hnodup Hkeys].
  fold word_freq in Hnodup, Hkeys.
  pose proof (find_words_plain (clean_text (VectorDB.lower text))
                EmptyString true (fun _ => eq_refl)) as Hplain.
  fold words in Hplain.
  pose proof (sort_by_frequency_permutation word_freq) as Hperm.
  destruct (slice_to_prefix _ max_keywords (sort_by_frequency word_freq))
    as [rest Hrest].
  assert (NoDup (map fst (sort_by_frequency word_freq))) as Hsorted.
  { eapply Permutation.Permutation_NoDup; [|exact Hnodup].
    apply Permutation.Permutation_sym, Permutation.Permutation_map.
    exact Hperm. }
  split; [|split].
  - rewrite Hrest, map_app in Hsorted.
    apply NoDup_app_remove_r in Hsorted. exact Hsorted.
  - apply Forall_forall. intros w Hin.
    assert (In w (Dict.keys word_freq)) as Hkey.
    { unfold Dict.keys.
      eapply Permutation.Permutation_in;
        [apply Permutation.Permutation_map; exact Hperm|].
      rewrite Hrest, map_app. apply in_or_app. left. exact Hin. }
    destruct (Hkeys w Hkey) as [[]|[Hword Hcounted]].
    rewrite Forall_forall in Hplain.
    split; [apply (Hplain w Hword)|].
    unfold counted in Hcounted. apply andb_prop in Hcounted.
    destruct Hcounted as [Hstop Hlong]. apply Nat.ltb_lt in Hlong.
    split; [lia|]. intros Hmem.
    apply negb_true_iff in Hstop.
    assert (existsb (String.eqb w) stop_words = true) as Hyes.
    { apply existsb_exists. exists w. split; [exact Hmem|].
      apply String.eqb_refl. }
    congruence.
  - intros Hk. rewrite length_map. unfold Embedding.slice_to.
    rewrite (proj2 (Z.leb_le 0 max_keywords) Hk).
    rewrite length_firstn. lia.
Qed.

End KeywordFacts.

(** The keywords of a sentence: the most frequent word first, words of
    the same frequency in the order of their first occurrence. *)
Example keywords_of_a_sentence :
  Keywords.extract_keywords
    "The quick brown fox jumps over the lazy dog.  The FOX!" 3
  = ["fox"; "quick"; "brown"].
Proof. vm_compute. reflexivity. Qed.

(* ===================================================================== *)
(** ** The refresh task: properties *)
(* ===================================================================== *)

Section RefreshFacts.

Context {F : Type} {ops : FloatOps F}.

Import Indexing.

Variable encode_len : string -> nat.
Variable encode_raises : string -> bool.
Variable embeddings_create :
  list Embedding.event -> Embedding.request -> option (list (list F)).
Variable md5_hexdigest : string -> string.
Variable embeds : string -> list F -> Prop.

(** Documents filed under stored ids leave the ids of the store as they
    are. *)
Lemma store_after_known_ids (source_id : string) (selected : list chunk) :
  forall (embeddings : list (list F)) store,
    (forall c, In c selected ->
               In (_generate_chunk_id source_id c) (Dict.keys store)) ->
    Dict.keys (store_after store
                 (documents_for md5_hexdigest source_id selected embeddings))
    = Dict.keys store.
Proof.
  induction selected as [|c rest IH]; intros embeddings store Hknown.
  - reflexivity.
  - destruct embeddings as [|e embeddings]; [reflexivity|].
    change (documents_for md5_hexdigest source_id (c :: rest)
                          (e :: embeddings))
      with (document_for md5_hexdigest source_id (with_id source_id c) e
            :: documents_for md5_hexdigest source_id rest embeddings).
    cbn [store_after].
    assert (Dict.keys
              (Dict.set
                 (id_in store
                    (document_for md5_hexdigest source_id
                                  (with_id source_id c) e))
                 (record_of (document_for md5_hexdigest source_id
                                          (with_id source_id c) e))
                 store)
            = Dict.keys store) as Hsame.
    { rewrite keys_set.
      change (id_in store (document_for md5_hexdigest source_id
                                        (with_id source_id c) e))
        with (_generate_chunk_id source_id c).
      rewrite (proj2 (mem_in_keys _ _ _) (Hknown c (or_introl eq_refl))).
      reflexivity. }
    rewrite IH; [exact Hsame|].
    intros c' Hin. rewrite Hsame. apply Hknown. right. exact Hin.
Qed.

(** A run without [force_reindex] keeps the stored ids. *)
Lemma plain_run_keeps_ids (env : environment F) (svc : IndexingService F)
      (d : FaissDB.FAISSVectorDB F) (rows : list (FaissDB.row F))
      (chunks : list chunk) (source_id : string) :
  VectorDB.db (vector_service svc) = Some d ->
  FaissDB.index d = Some rows ->
  answers_in_order embeddings_create embeds ->
  exists st svc1 d' rows',
    index_chunks embeddings_create md5_hexdigest env svc chunks source_id
                 false
    = (Ok st, svc1)
    /\ VectorDB.db (vector_service svc1) = Some d'
    /\ FaissDB.index d' = Some rows'
    /\ Dict.keys (FaissDB.documents d') = Dict.keys (FaissDB.documents d).
Proof.
  intros Hdb Hidx Horder.
  destruct (index_chunks_run embeddings_create md5_hexdigest embeds env svc
              d rows chunks source_id false Hdb Hidx Horder) as [Hlen Hrun].
  cbn [selected_chunks skipped_chunks] in Hlen, Hrun.
  rewrite Hrun.
  destruct (filter (changed md5_hexdigest d source_id) chunks)
    as [|c0 rest] eqn:Hsel.
  - eexists. exists svc, d, rows.
    split; [reflexivity|]. split; [exact Hdb|].
    split; [exact Hidx|reflexivity].
  - eexists. eexists. eexists. eexists. split; [reflexivity|].
    split; [reflexivity|]. split; [reflexivity|].
    cbn [FaissDB.documents].
    apply store_after_known_ids. intros c Hin.
    rewrite <- Hsel in Hin. apply filter_In in Hin.
    destruct Hin as [_ Hchanged]. unfold changed in Hchanged.
    unfold FaissDB.get_document in Hchanged.
    destruct (Dict.get (_generate_chunk_id source_id c)
                       (FaissDB.documents d)) eqn:Hget; [|discriminate].
    apply mem_in_keys. unfold Dict.mem. rewrite Hget. reflexivity.
Qed.

(** A service that has not initialised its index yet runs as the
    service that holds the index initialised from the files. *)
Lemma index_chunks_initialises (env : environment F)
      (svc : IndexingService F) (chunks : list chunk) (source_id : string)
      (force_reindex : bool) :
  VectorDB.db (vector_service svc) = None ->
  VectorDB.lower (vector_db_type env) = "chroma" ->
  index_chunks embeddings_create md5_hexdigest env svc chunks source_id
               force_reindex
  = index_chunks embeddings_create md5_hexdigest env
      (mkIndexing (embedding_service svc)
         (VectorDB.mkVectorDB
            (Some (FaissDB.initialize (FaissDB.new (on_disk env))))))
      chunks source_id force_reindex.
Proof.
  intros Hnone Htype. unfold index_chunks. rewrite Hnone.
  unfold VectorDB.initialize. rewrite Htype. reflexivity.
Qed.

(** What [extract_text] does on a page whose text the tokenizer
    accepts, and on a page it refuses. *)
Lemma extract_text_or_raise_cases (chunk_size chunk_overlap : Z)
      (page : Notion.page) (blocks : list Notion.block) :
  if page_raises encode_raises encode_len chunk_size (page, blocks)
  then exists msg,
      Notion.extract_text_or_raise encode_len encode_raises chunk_size
                                   chunk_overlap page blocks
      = Raised (ValueError msg)
  else exists chunks,
      Notion.extract_text_or_raise encode_len encode_raises chunk_size
                                   chunk_overlap page blocks
      = Ok chunks.
Proof.
  unfold page_raises, Notion.extract_text_or_raise. cbn [snd].
  destruct (PyStr.is_empty
              (String.concat (Notion.line_feed ++ Notion.line_feed)
                             (Notion.text_content blocks))) eqn:Hempty.
  - unfold TextProcessor.create_chunks_raises. rewrite Hempty.
    eexists. reflexivity.
  - destruct (TextProcessor.create_chunks_raises _ _ _ _);
      eexists; reflexivity.
Qed.

(** X30: the refresh task never stores a chunk under a new id.  Given an
    endpoint that answers in order, on a service that holds an initialised
    index or will initialise one from the files, the loop over the pages
    ends normally when the tokenizer accepts the text of every page, and
    ends with the [ValueError] of the tokenizer when it refuses the text
    of a page.  Either way the ids stored afterwards are exactly the ids
    stored before: on an index without documents a refresh stores
    nothing. *)
Theorem refresh_adds_no_chunk (env : environment F)
        (chunk_size chunk_overlap : Z)
        (pages : list (Notion.page * list Notion.block)) :
  answers_in_order embeddings_create embeds ->
  forall (svc : IndexingService F) (d : FaissDB.FAISSVectorDB F)
         (rows : list (FaissDB.row F)),
    works_on env (vector_service svc) d ->
    FaissDB.index d = Some rows ->
    (existsb (page_raises encode_raises encode_len chunk_size) pages = false ->
     fst (Refresh.process_pages encode_len encode_raises embeddings_create
                                md5_hexdigest env chunk_size chunk_overlap
                                svc pages)
     = Ok tt)
    /\ (existsb (page_raises encode_raises encode_len chunk_size) pages
        = true ->
        exists msg,
          fst (Refresh.process_pages encode_len encode_raises
                                     embeddings_create md5_hexdigest env
                                     chunk_size chunk_overlap svc pages)
          = Raised (ValueError msg))
    /\ exists d',
        works_on env
          (vector_service
             (snd (Refresh.process_pages encode_len encode_raises
                                         embeddings_create md5_hexdigest
                                         env chunk_size chunk_overlap
                                         svc pages)))
          d'
        /\ Dict.keys (FaissDB.documents d') = Dict.keys (FaissDB.documents d)
        /\ FaissDB.count_documents d' = FaissDB.count_documents d.
Proof.
  intros Horder. induction pages as [|[page blocks] rest IH];
    intros svc d rows Hworks Hidx.
  - cbn. split; [reflexivity|]. split; [discriminate|].
    exists d. repeat split. exact Hworks.
  - cbn [Refresh.process_pages existsb].
    pose proof (extract_text_or_raise_cases chunk_size chunk_overlap
                  page blocks) as Hcases.
    destruct (page_raises encode_raises encode_len chunk_size
                          (page, blocks)).
    + destruct Hcases as (msg & ->). cbn [fst snd orb].
      split; [discriminate|]. split; [intros _; exists msg; reflexivity|].
      exists d. repeat split. exact Hworks.
    + destruct Hcases as (text_chunks & ->). cbn [orb].
      assert (exists st svc1 d1 rows1,
                 index_chunks embeddings_create md5_hexdigest env svc
                   text_chunks (Notion.id page) false
                 = (Ok st, svc1)
                 /\ VectorDB.db (vector_service svc1) = Some d1
                 /\ FaissDB.index d1 = Some rows1
                 /\ Dict.keys (FaissDB.documents d1)
                    = Dict.keys (FaissDB.documents d))
        as (st & svc1 & d1 & rows1 & Hrun & Hdb1 & Hidx1 & Hkeys1).
      { destruct Hworks as [Hdb|(Hnone & Htype & Hd)].
        - apply (plain_run_keeps_ids env svc d rows _ _ Hdb Hidx Horder).
        - rewrite (index_chunks_initialises env svc _ _ false Hnone Htype).
          rewrite <- Hd.
          apply (plain_run_keeps_ids env
                   (mkIndexing (embedding_service svc)
                               (VectorDB.mkVectorDB (Some d)))
                   d rows _ _ eq_refl Hidx Horder). }
      rewrite Hrun.
      destruct (IH svc1 d1 rows1 (or_introl Hdb1) Hidx1)
        as (Hok & Hraised & d' & Hdb' & Hkeys & Hcount).
      split; [exact Hok|]. split; [exact Hraised|].
      exists d'. split; [exact Hdb'|].
      split; [congruence|].
      rewrite Hcount. unfold FaissDB.count_documents.
      rewrite <- !keys_length, Hkeys1. reflexivity.
Qed.

End RefreshFacts.

Lemma refresh_adds_no_chunk_witness :
  fst (Refresh.process_pages word_punct_tokens Sample.holds_special
         Sample.terse Sample.digest Sample.env 500 50 Sample.indexer
         [(Sample.page_one, [Sample.paragraph])])
  = Ok tt
  /\ (exists msg,
         fst (Refresh.process_pages word_punct_tokens Sample.holds_special
                Sample.terse Sample.digest Sample.env 500 50 Sample.indexer
                [(Sample.page_one, [Sample.paragraph]);
                 (Sample.page_one, [Sample.special_paragraph])])
         = Raised (ValueError msg))
  /\ exists d',
      works_on Sample.env
        (Indexing.vector_service
           (snd (Refresh.process_pages word_punct_tokens
                   Sample.holds_special Sample.terse
                   Sample.digest Sample.env 500 50 Sample.indexer
                   [(Sample.page_one, [Sample.paragraph]);
                    (Sample.page_one, [Sample.special_paragraph])])))
        d'
      /\ Dict.keys (FaissDB.documents d')
         = Dict.keys (FaissDB.documents Sample.fresh_db)
      /\ FaissDB.count_documents d'
         = FaissDB.count_documents Sample.fresh_db.
Proof.
  assert (works_on Sample.env (Indexing.vector_service Sample.indexer)
                   Sample.fresh_db) as Hworks
    by (right; split; [reflexivity|]; split; reflexivity).
  assert (FaissDB.index Sample.fresh_db = Some []) as Hidx by reflexivity.
  split.
  - destruct (refresh_adds_no_chunk word_punct_tokens Sample.holds_special
                Sample.terse Sample.digest Sample.gives_one Sample.env
                500 50 [(Sample.page_one, [Sample.paragraph])]
                terse_in_order Sample.indexer Sample.fresh_db []
                Hworks Hidx) as (Hfine & _ & _).
    apply Hfine. vm_compute. reflexivity.
  - destruct (refresh_adds_no_chunk word_punct_tokens Sample.holds_special
                Sample.terse Sample.digest Sample.gives_one Sample.env
                500 50 [(Sample.page_one, [Sample.paragraph]);
                        (Sample.page_one, [Sample.special_paragraph])]
                terse_in_order Sample.indexer Sample.fresh_db []
                Hworks Hidx) as (_ & Hraised & Hstore).
    split; [|exact Hstore]. apply Hraised. vm_compute. reflexivity.
Defined.

(** The page of this run has a chunk to store. *)
Example page_one_has_a_chunk :
  map Indexing.chunk_text
      (Notion.extract_text word_punct_tokens 500 50 Sample.page_one
                           [Sample.paragraph])
  = ["Hello world. More text."].
Proof. vm_compute. reflexivity. Qed.
